(** * queryist: the query analyzers and their recommendation rules

    A shallow embedding of [lib/analyzers/mysqlAnalyzer.js] and
    [lib/analyzers/postgreAnalyzer.js]: the analysis entry point
    [analyze], the rule functions that push recommendations onto a
    shared array, the never-invoked recursive helper [analyzePlanNode]
    and the in-place sort of [prioritizeRecommendations]; of the tables
    of [lib/visualizers/terminalVisualizer.js]; of the connection test of
    [bin/db-analyzer.js]; and of [lib/i18n/translations.js]. *)

From Stdlib Require Import String Ascii List ZArith QArith Lia Permutation Sorted.
From stdpp Require Import gmap strings pretty.
Import ListNotations.

Set Warnings "-register-all".

(** ** JavaScript primitives the analyzers rely on *)

Module JS.

(** Numbers.  The finite values met here are integers (row counts, byte
    sizes, ranks, array indices) and the decimal figures of a JSON plan;
    they are kept as exact rationals next to the three special values. *)
Inductive number := Fin (q : Q) | PosInf | NegInf | NaN.

Definition of_Z (z : Z) : number := Fin (inject_Z z).

(** [ToNumber] of a value that is either a number or missing:
    [undefined] converts to NaN, [null] to 0. *)
Definition of_undefinable (o : option Q) : number :=
  match o with Some q => Fin q | None => NaN end.

Definition of_nullable (o : option Z) : number :=
  match o with Some z => of_Z z | None => of_Z 0 end.

(** [a > b] *)
Definition gt (a b : number) : bool :=
  match a, b with
  | NaN, _ | _, NaN => false
  | NegInf, _ => false
  | _, PosInf => false
  | PosInf, _ => true
  | Fin _, NegInf => true
  | Fin x, Fin y => negb (Qle_bool x y)
  end.

(** [a - b] *)
Definition sub (a b : number) : number :=
  match a, b with
  | NaN, _ | _, NaN => NaN
  | PosInf, PosInf | NegInf, NegInf => NaN
  | PosInf, _ | _, NegInf => PosInf
  | NegInf, _ | _, PosInf => NegInf
  | Fin x, Fin y => Fin (x - y)
  end.

(** [a / b] on finite non-negative operands, the only ones divided here
    (byte counts): a zero divisor gives Infinity, or NaN for 0/0.
    Rounding the quotient of two integers below 2^53 to the nearest
    double never carries it across 1/2, so the exact quotient decides
    the comparison with 0.5 as the double does. *)
Definition div (a b : number) : number :=
  match a, b with
  | Fin x, Fin y =>
      if Qeq_bool y 0
      then (if Qeq_bool x 0 then NaN
            else if Qle_bool 0 x then PosInf else NegInf)
      else Fin (x / y)
  | _, _ => NaN
  end.

(** Strings are sequences of code units; the model keeps the code units
    below 256. *)
Definition isWhiteSpace (c : ascii) : bool :=
  let n := nat_of_ascii c in
  ((9 <=? n) && (n <=? 13)) || (n =? 32) || (n =? 160).

Fixpoint trimStart (s : string) : string :=
  match s with
  | EmptyString => EmptyString
  | String c s' => if isWhiteSpace c then trimStart s' else s
  end.

Fixpoint trimEnd (s : string) : string :=
  match s with
  | EmptyString => EmptyString
  | String c s' =>
      match trimEnd s' with
      | EmptyString => if isWhiteSpace c then EmptyString else String c EmptyString
      | rest => String c rest
      end
  end.

Definition trim (s : string) : string := trimEnd (trimStart s).

Definition lowerChar (c : ascii) : ascii :=
  let n := nat_of_ascii c in
  if ((65 <=? n) && (n <=? 90))
     || ((192 <=? n) && (n <=? 222) && negb (n =? 215))
  then ascii_of_nat (n + 32) else c.

Fixpoint toLowerCase (s : string) : string :=
  match s with
  | EmptyString => EmptyString
  | String c s' => String (lowerChar c) (toLowerCase s')
  end.

Definition startsWith (s p : string) : bool := String.prefix p s.

(** [s.includes(sub)] on strings *)
Fixpoint includes (s sub : string) : bool :=
  String.prefix sub s
  || match s with
     | EmptyString => false
     | String _ s' => includes s' sub
     end.

(** A string is truthy unless it is empty; a missing value is falsy. *)
Definition truthy_string (o : option string) : bool :=
  match o with
  | Some s => negb (String.eqb s "")
  | None => false
  end.

(** [a === b] for two values that are each a string or missing *)
Definition strict_eq (a b : option string) : bool :=
  match a, b with
  | Some x, Some y => String.eqb x y
  | None, None => true
  | _, _ => false
  end.

(** [a === 'literal'] *)
Definition is_literal (a : option string) (lit : string) : bool := strict_eq a (Some lit).

(** Thrown values: [new Error(msg)] and the engine's own TypeError. *)
Inductive exn := Error (msg : string) | TypeError (msg : string).

Definition message (e : exn) : string :=
  match e with Error m | TypeError m => m end.

End JS.

(** ** Computations that mutate a state and may throw

    A thrown exception leaves the mutations made so far in place, which is
    what a [catch] block observes. *)

Inductive outcome (A : Type) := Ok (a : A) | Throw (e : JS.exn).
Arguments Ok {A} a.
Arguments Throw {A} e.

Definition Eff (S A : Type) : Type := S -> outcome A * S.

Definition ret {S A} (a : A) : Eff S A := fun s => (Ok a, s).

Definition throw {S A} (e : JS.exn) : Eff S A := fun s => (Throw e, s).

Definition bind {S A B} (m : Eff S A) (k : A -> Eff S B) : Eff S B :=
  fun s =>
    match m s with
    | (Ok a, s') => k a s'
    | (Throw e, s') => (Throw e, s')
    end.

(** [try { m } catch (e) { h e }] *)
Definition try_catch {S A} (m : Eff S A) (h : JS.exn -> Eff S A) : Eff S A :=
  fun s =>
    match m s with
    | (Ok a, s') => (Ok a, s')
    | (Throw e, s') => h e s'
    end.

(** [try { m } finally { f }] where [f] completes normally or throws *)
Definition try_finally {S A} (m : Eff S A) (f : Eff S unit) : Eff S A :=
  fun s =>
    match m s with
    | (o, s') =>
        match f s' with
        | (Ok _, s'') => (o, s'')
        | (Throw e, s'') => (Throw e, s'')
        end
    end.

Definition get {S} : Eff S S := fun s => (Ok s, s).
Definition modify {S} (f : S -> S) : Eff S unit := fun s => (Ok tt, f s).

(** [if (c) { m }] *)
Definition when {S} (c : bool) (m : Eff S unit) : Eff S unit :=
  if c then m else ret tt.

Declare Scope st_scope.
Delimit Scope st_scope with st.
Notation "x <- m ;; k" := (bind m (fun x => k))
  (at level 100, m at next level, right associativity) : st_scope.
Notation "m ;; k" := (bind m (fun _ => k))
  (at level 100, right associativity) : st_scope.
Open Scope st_scope.

(** [l.forEach(callback)] *)
Definition forEach {S A} (callback : A -> Eff S unit) : list A -> Eff S unit :=
  fix each (l : list A) : Eff S unit :=
    match l with
    | [] => ret tt
    | x :: rest => callback x ;; each rest
    end.

(** ** Recommendations *)

Inductive Severity := HIGH | MEDIUM | LOW.

Record Details := {
  impact : string;
  implementation : list string
}.

Record Recommendation := {
  type : string;
  severity : Severity;
  message : string;
  suggestion : string;
  details : Details
}.

(** The translation service [i18n.t(key, params)] handed to the analyzers'
    constructors.  A parameter is a string read from the plan or a count;
    either may be missing. *)
Inductive param := Text (s : option string) | Count (n : option Z).

Record I18n := { t : string -> list (string * param) -> string }.

(** Every rule builds its recommendation from the same four groups of
    translation keys under [analyzer.recommendations.<name>]. *)
Definition recommend (i18n : I18n) (ty : string) (sev : Severity) (name : string)
    (params : list (string * param)) (steps : list string) : Recommendation :=
  let key := "analyzer.recommendations." +:+ name in
  {| type := ty;
     severity := sev;
     message := t i18n (key +:+ ".message") params;
     suggestion := t i18n (key +:+ ".suggestion") [];
     details :=
       {| impact := t i18n (key +:+ ".impact") [];
          implementation :=
            map (fun step => t i18n (key +:+ ".implementation." +:+ step) []) steps |} |}.

(** The rules share one array, [recommendations], and append to it. *)
Definition Rules (A : Type) : Type := Eff (list Recommendation) A.

Definition push (r : Recommendation) : Rules unit :=
  modify (fun recommendations => recommendations ++ [r]).

(** ** [Array.prototype.sort] with a comparator

    The language requires the sort to be stable.  For a comparator that is
    a consistent ordering the result is then unique, and a stable insertion
    sort computes it: an element moves behind exactly those elements the
    comparator puts strictly before it. *)

Section ArraySort.
Context {A : Type}.
Variable compareFn : A -> A -> JS.number.

(** [compareFn a b > 0]: [a] sorts after [b] *)
Definition sorts_after (a b : A) : bool := JS.gt (compareFn a b) (JS.of_Z 0).

Fixpoint insert_sorted (x : A) (l : list A) : list A :=
  match l with
  | [] => [x]
  | y :: l' => if sorts_after x y then y :: insert_sorted x l' else x :: l
  end.

Definition array_sort (l : list A) : list A := foldr insert_sorted [] l.
End ArraySort.

(** ** The machine state of one analysis

    Arrays of recommendations live in a store and are passed by reference;
    [client] is the variable holding the database connection of the
    running [analyze] call; [events] records, oldest first, what the call
    did to the outside world. *)

Definition loc := positive.
Definition connection := positive.

Inductive request :=
| ExplainPlan (sql : string)
| TableStatistics (scope : option string)
| IndexInformation (scope : option string).

Inductive event :=
| Acquired (c : connection)
| ConnectFailed
| Queried (r : request) (ok : bool)
| Released (c : connection) (ok : bool)
| Warned (label detail : string).

Record state := {
  arrays : gmap loc (list Recommendation);
  client : option connection;
  events : list event
}.

Definition M (A : Type) : Type := Eff state A.

Definition set_arrays (f : gmap loc (list Recommendation) -> gmap loc (list Recommendation))
    (st : state) : state :=
  {| arrays := f (arrays st); client := client st; events := events st |}.

Definition set_client (c : option connection) (st : state) : state :=
  {| arrays := arrays st; client := c; events := events st |}.

Definition emit (e : event) : M unit :=
  modify (fun st =>
    {| arrays := arrays st; client := client st; events := events st ++ [e] |}).

(** [logger.warn(label, detail)] *)
Definition warn (label detail : string) : M unit := emit (Warned label detail).

(** [const recommendations = []] *)
Definition new_array : M loc :=
  fun st =>
    let a := fresh (dom (arrays st)) in
    (Ok a, set_arrays (insert a []) st).

Definition dangling {A} : M A :=
  throw (JS.TypeError "Cannot read properties of undefined").

(** Run rule code against the array a reference points to. *)
Definition on_array {A} (a : loc) (rules : Rules A) : M A :=
  fun st =>
    match arrays st !! a with
    | Some l => let '(o, l') := rules l in (o, set_arrays (insert a l') st)
    | None => dangling st
    end.

(** [a.sort(compareFn)]: sorts the array in place and returns the same
    reference. *)
Definition sort_in_place (compareFn : Recommendation -> Recommendation -> JS.number)
    (a : loc) : M loc :=
  fun st =>
    match arrays st !! a with
    | Some l => (Ok a, set_arrays (insert a (array_sort compareFn l)) st)
    | None => dangling st
    end.

(** ** Prioritizing recommendations

    Both analyzers carry the same [prioritizeRecommendations]; only the
    list [priorityTypes] differs. *)

Section Prioritizer.
Variable priorityTypes : list string.

Definition severityOrder (s : Severity) : Z :=
  match s with HIGH => 0 | MEDIUM => 1 | LOW => 2 end.

Fixpoint indexOf_from (i : Z) (l : list string) (x : string) : Z :=
  match l with
  | [] => -1
  | y :: l' => if String.eqb y x then i else indexOf_from (i + 1) l' x
  end.

(** [l.indexOf(x)] *)
Definition indexOf (l : list string) (x : string) : Z := indexOf_from 0 l x.

Definition compareRecommendations (a b : Recommendation) : JS.number :=
  if negb (severityOrder (severity a) =? severityOrder (severity b))%Z
  then JS.sub (JS.of_Z (severityOrder (severity a)))
              (JS.of_Z (severityOrder (severity b)))
  else
    let aTypePriority := indexOf priorityTypes (type a) in
    let bTypePriority := indexOf priorityTypes (type b) in
    if negb (aTypePriority =? bTypePriority)%Z
    then JS.sub (if (aTypePriority =? -1)%Z then JS.PosInf else JS.of_Z aTypePriority)
                (if (bTypePriority =? -1)%Z then JS.PosInf else JS.of_Z bTypePriority)
    else JS.of_Z 0.

Definition prioritizeRecommendations (recommendations : loc) : M loc :=
  sort_in_place compareRecommendations recommendations.
End Prioritizer.

(** Reading a property of a value that may be [undefined], and calling
    [includes] on a string that may be [undefined]: both throw a
    TypeError on the missing value. *)
Definition deref {S A} (o : option A) : Eff S A :=
  match o with
  | Some a => ret a
  | None => throw (JS.TypeError "Cannot read properties of undefined")
  end.

Definition call_includes {S} (o : option string) (sub : string) : Eff S bool :=
  match o with
  | Some s => ret (JS.includes s sub)
  | None => throw (JS.TypeError "Cannot read properties of undefined (reading 'includes')")
  end.

(** [a && b] where evaluating [b] may throw *)
Definition and_then {S} (a : bool) (b : Eff S bool) : Eff S bool :=
  if a then b else ret false.

(** ** The analysis entry point

    [MySQLAnalyzer.analyze] and [PostgreAnalyzer.analyze] are the same
    function up to the engine's name, the EXPLAIN statement, the schema
    parameter of the two metadata queries and the text of one warning.
    The database is outside the program: a [world] fixes how each request
    of the call turns out. *)

Record config := {
  database : option string;
  schema : option string
}.

(** The value passed as [query]. *)
Inductive argument := Str (s : string) | NotAString.

Section Analyzer.
Context {Explain Stat Index : Type}.

Record world := {
  connect : outcome connection;
  run_explain : string -> outcome (option Explain);
  run_tableStatistics : option string -> outcome (list Stat);
  run_indexInformation : option string -> outcome (list Index);
  release : connection -> outcome unit
}.

Record AnalysisResult := {
  query : string;
  executionPlan : option Explain;
  tableStatistics : list Stat;
  indexes : list Index;
  recommendations : loc
}.

Variable engine : string.
Variable explainStatement : string -> string.
Variable scope : config -> option string.
Variable releaseWarning : string.
Variable generateRecommendations : option Explain -> list Stat -> list Index -> M loc.

Variable w : world.
Variable cfg : config.

(** [client = await pool.connect()] *)
Definition acquire : M connection :=
  match connect w with
  | Ok c => emit (Acquired c) ;; modify (set_client (Some c)) ;; ret c
  | Throw e => emit ConnectFailed ;; throw e
  end.

(** [await client.query(...)] *)
Definition perform {A} (r : request) (o : outcome A) : M A :=
  match o with
  | Ok a => emit (Queried r true) ;; ret a
  | Throw e => emit (Queried r false) ;; throw e
  end.

(** The [finally] block. *)
Definition cleanup : M unit :=
  st <- get ;;
  match client st with
  | Some c =>
      try_catch
        (match release w c with
         | Ok _ => emit (Released c true)
         | Throw e => emit (Released c false) ;; throw e
         end)
        (fun error => warn releaseWarning (JS.message error))
  | None => ret tt
  end.

Definition validate (query : argument) : M string :=
  match query with
  | NotAString => throw (JS.Error "Invalid query provided")
  | Str query =>
      if String.eqb query "" then throw (JS.Error "Invalid query provided")
      else
        let trimmedQuery := JS.trim query in
        if String.eqb trimmedQuery "" then throw (JS.Error "Empty query provided")
        else if negb (JS.startsWith (JS.toLowerCase trimmedQuery) "select")
        then throw (JS.Error "Only SELECT queries can be analyzed")
        else ret trimmedQuery
  end.

Definition analyze (query : argument) : M AnalysisResult :=
  modify (set_client None) ;;
  try_finally
    (try_catch
       (_ <- acquire ;;
        trimmedQuery <- validate query ;;
        explainResult <-
          try_catch
            (perform (ExplainPlan (explainStatement trimmedQuery))
                     (run_explain w (explainStatement trimmedQuery)))
            (fun error =>
               throw (JS.Error ("Failed to get execution plan: " +:+ JS.message error))) ;;
        tableStats <-
          try_catch
            (perform (TableStatistics (scope cfg)) (run_tableStatistics w (scope cfg)))
            (fun error =>
               warn "Failed to get table statistics:" (JS.message error) ;; ret []) ;;
        indexes <-
          try_catch
            (perform (IndexInformation (scope cfg)) (run_indexInformation w (scope cfg)))
            (fun error =>
               warn "Failed to get index information:" (JS.message error) ;; ret []) ;;
        recommendations <- generateRecommendations explainResult tableStats indexes ;;
        ret {| query := trimmedQuery;
               executionPlan := explainResult;
               tableStatistics := tableStats;
               indexes := indexes;
               recommendations := recommendations |})
       (fun error => throw (JS.Error (engine +:+ " Analysis Error: " +:+ JS.message error))))
    cleanup.
End Analyzer.

Arguments world : clear implicits.
Arguments AnalysisResult : clear implicits.

(** ** lib/analyzers/postgreAnalyzer.js *)

Module PostgreAnalyzer.

(** A node of the JSON plan.  A field holds the JSON type PostgreSQL
    gives it, or is absent ([None], read as [undefined]).  The field
    names are the property names the analyzer reads: [plan.Node_Type],
    spelled with the underscore in the source, and bracketed names such
    as [plan['Actual Rows']], written here with [_] for the blank. *)
Inductive PlanNode := {
  Node_Type : option string;
  Relation_Name : option string;
  Actual_Rows : option Q;
  Index_Cond : option string;
  Hash_Batches : option Q;
  Temporary_File_Usage : option bool;
  Hash_Cond : option string;
  Planning_Time : option Q;
  Workers_Planned : option Q;
  Total_Cost : option Q;
  Partitions_Removed : option Q;
  CTE_Materialized : option bool;
  Peak_Memory_Usage : option Q;
  Peak_Memory_Allowed : option Q;
  Actual_Loops : option Q;
  Plans : option (list PlanNode)
}.

(** [result.rows[0]['QUERY PLAN'][0]] *)
Record ExplainResult := { Plan : option PlanNode }.

Module TableStat.
Record t := {
  schemaname : string;
  table_name : string;
  table_rows : string;
  total_bytes : string;
  index_bytes : string
}.
End TableStat.

Module IndexInfo.
Record t := {
  schemaname : string;
  table_name : string;
  index_name : string;
  index_definition : string
}.
End IndexInfo.

Definition truthy_flag (o : option bool) : bool :=
  match o with Some b => b | None => false end.

(** [!n] for a number that may be absent *)
Definition falsy_number (o : option Q) : bool :=
  match o with Some q => Qeq_bool q 0 | None => true end.

(** [n === 0] *)
Definition is_zero (o : option Q) : bool :=
  match o with Some q => Qeq_bool q 0 | None => false end.

Definition exceeds (o : option Q) (bound : Z) : bool :=
  JS.gt (JS.of_undefinable o) (JS.of_Z bound).

Section Rules.
Variable i18n : I18n.

Definition analyzeScanMethods (plan : option PlanNode) : Rules unit :=
  plan <- deref plan ;;
  when (JS.is_literal (Node_Type plan) "Seq Scan")
    (let tableName := Relation_Name plan in
     push (recommend i18n "SEQUENTIAL_SCAN" HIGH "sequentialScan"
             [("tableName", Text tableName)]
             ["createIndex"; "analyzeTable"; "reviewWhere"])) ;;
  when (JS.is_literal (Node_Type plan) "Index Scan"
        && exceeds (Actual_Rows plan) 1000
        && negb (bool_decide (is_Some (Index_Cond plan))))
    (push (recommend i18n "INEFFICIENT_INDEX_SCAN" MEDIUM "inefficientIndexScan" []
             ["reviewIndex"; "considerBitmap"; "checkStats"])).

Definition analyzeJoinOperations (plan : option PlanNode) : Rules unit :=
  plan <- deref plan ;;
  when (JS.is_literal (Node_Type plan) "Nested Loop" && exceeds (Actual_Rows plan) 1000)
    (push (recommend i18n "EXPENSIVE_NESTED_LOOP" HIGH "expensiveNestedLoop" []
             ["createIndex"; "useHash"; "rewriteJoin"])) ;;
  when (JS.is_literal (Node_Type plan) "Hash Join" && exceeds (Hash_Batches plan) 1)
    (push (recommend i18n "HASH_SPILL" MEDIUM "hashSpill" []
             ["increaseMemory"; "optimizeJoin"; "partitionData"])).

Definition analyzeTemporaryStructures (plan : option PlanNode) : Rules unit :=
  plan <- deref plan ;;
  when (truthy_flag (Temporary_File_Usage plan))
    (push (recommend i18n "TEMP_FILES" HIGH "tempFiles" []
             ["increaseMemory"; "optimizeQuery"; "useIndexes"])).

Definition analyzeIndexUsage (plan : option PlanNode) (indexes : list IndexInfo.t)
    : Rules unit :=
  plan <- deref plan ;;
  missing <- and_then (JS.is_literal (Node_Type plan) "Hash Join")
               (found <- call_includes (Hash_Cond plan) "=" ;; ret (negb found)) ;;
  when missing
    (push (recommend i18n "MISSING_JOIN_INDEX" HIGH "missingJoinIndex" []
             ["createIndex"; "analyzeJoin"; "considerFK"])).

Definition analyzeTableStatistics (plan : option PlanNode) (tableStats : list TableStat.t)
    : Rules unit :=
  plan <- deref plan ;;
  when (exceeds (Planning_Time plan) 1000)
    (push (recommend i18n "OUTDATED_STATS" MEDIUM "outdatedStats" []
             ["runAnalyze"; "autoVacuum"; "monitoring"])).

Definition analyzeParallelExecution (plan : option PlanNode) : Rules unit :=
  plan <- deref plan ;;
  when (falsy_number (Workers_Planned plan) && exceeds (Total_Cost plan) 100000)
    (push (recommend i18n "MISSED_PARALLEL" MEDIUM "missedParallel" []
             ["enableParallel"; "adjustSettings"; "reviewQuery"])).

Definition analyzePartitioning (plan : option PlanNode) : Rules unit :=
  plan <- deref plan ;;
  unpruned <- and_then (is_zero (Partitions_Removed plan))
                (call_includes (Node_Type plan) "Partition") ;;
  when unpruned
    (push (recommend i18n "INEFFECTIVE_PARTITION" HIGH "ineffectivePartition" []
             ["reviewStrategy"; "addConstraints"; "optimizeKeys"])).

Definition analyzeCTEUsage (plan : option PlanNode) : Rules unit :=
  plan <- deref plan ;;
  when (JS.is_literal (Node_Type plan) "CTE Scan"
        && exceeds (Actual_Rows plan) 1
        && negb (truthy_flag (CTE_Materialized plan)))
    (push (recommend i18n "CTE_MATERIALIZATION" MEDIUM "cteMaterialization" []
             ["materialize"; "analyzeUsage"; "considerTemp"])).

Definition analyzeAggregationOperations (plan : option PlanNode) : Rules unit :=
  plan <- deref plan ;;
  when (JS.is_literal (Node_Type plan) "Group Aggregate" && exceeds (Actual_Rows plan) 1000)
    (push (recommend i18n "INEFFICIENT_AGGREGATE" MEDIUM "inefficientAggregate" []
             ["useHash"; "addIndexes"; "restructure"])) ;;
  when (JS.is_literal (Node_Type plan) "Hash Aggregate"
        && JS.gt (JS.of_undefinable (Peak_Memory_Usage plan))
                 (JS.of_undefinable (Peak_Memory_Allowed plan)))
    (push (recommend i18n "AGGREGATE_SPILL" HIGH "aggregateSpill" []
             ["increaseWork"; "limitGroups"; "useIndexes"])).

Definition analyzeMaterialization (plan : option PlanNode) : Rules unit :=
  plan <- deref plan ;;
  when (exceeds (Actual_Loops plan) 1
        && negb (JS.is_literal (Node_Type plan) "Materialize"))
    (push (recommend i18n "MISSED_MATERIALIZATION" MEDIUM "missedMaterialization" []
             ["addMaterialize"; "analyzeMemory"; "considerCTE"])).

Definition priorityTypes : list string :=
  ["SEQUENTIAL_SCAN"; "EXPENSIVE_NESTED_LOOP"; "TEMP_FILES";
   "MISSING_JOIN_INDEX"; "INEFFECTIVE_PARTITION"; "AGGREGATE_SPILL"].

Definition prioritizeRecommendations : loc -> M loc :=
  prioritizeRecommendations priorityTypes.

(** The ten rule calls of the [try] block, all on the root
    [explainResult.Plan]. *)
Definition rule_calls (explainResult : ExplainResult)
    (tableStats : list TableStat.t) (indexes : list IndexInfo.t) : list (Rules unit) :=
  [ analyzeScanMethods (Plan explainResult);
    analyzeJoinOperations (Plan explainResult);
    analyzeTemporaryStructures (Plan explainResult);
    analyzeIndexUsage (Plan explainResult) indexes;
    analyzeTableStatistics (Plan explainResult) tableStats;
    analyzeParallelExecution (Plan explainResult);
    analyzePartitioning (Plan explainResult);
    analyzeCTEUsage (Plan explainResult);
    analyzeAggregationOperations (Plan explainResult);
    analyzeMaterialization (Plan explainResult) ].

Definition generateRecommendations (explainResult : option ExplainResult)
    (tableStats : list TableStat.t) (indexes : list IndexInfo.t) : M loc :=
  recommendations <- new_array ;;
  returned <-
    try_catch
      (match explainResult with
       | None => ret true
       | Some explainResult =>
           on_array recommendations
             (analyzeScanMethods (Plan explainResult) ;;
              analyzeJoinOperations (Plan explainResult) ;;
              analyzeTemporaryStructures (Plan explainResult) ;;
              analyzeIndexUsage (Plan explainResult) indexes ;;
              analyzeTableStatistics (Plan explainResult) tableStats ;;
              analyzeParallelExecution (Plan explainResult) ;;
              analyzePartitioning (Plan explainResult) ;;
              analyzeCTEUsage (Plan explainResult) ;;
              analyzeAggregationOperations (Plan explainResult) ;;
              analyzeMaterialization (Plan explainResult)) ;;
           ret false
       end)
      (fun error =>
         warn (t i18n "analyzer.errors.recommendations" []) (JS.message error) ;;
         ret false) ;;
  if (returned : bool) then ret recommendations
  else prioritizeRecommendations recommendations.

(** The helper that walks nested plans.  Nothing calls it. *)
Fixpoint analyzePlanNode (node : PlanNode) : Rules unit :=
  analyzeScanMethods (Some node) ;;
  analyzeJoinOperations (Some node) ;;
  analyzeTemporaryStructures (Some node) ;;
  match Plans node with
  | Some children => forEach (fun childPlan => analyzePlanNode childPlan) children
  | None => ret tt
  end.
End Rules.

(** The nodes of a plan in depth-first pre-order, children in the order
    of [Plans]; and what the three rules of [analyzePlanNode] do at one
    node. *)
Fixpoint preorder (node : PlanNode) : list PlanNode :=
  node ::
  match Plans node with
  | Some children => flat_map preorder children
  | None => []
  end.

Definition node_rules (i18n : I18n) (node : PlanNode) : Rules unit :=
  analyzeScanMethods i18n (Some node) ;;
  analyzeJoinOperations i18n (Some node) ;;
  analyzeTemporaryStructures i18n (Some node).

(** The same node cut off from its sub-plans. *)
Definition without_children (node : PlanNode) : PlanNode :=
  {| Node_Type := Node_Type node; Relation_Name := Relation_Name node;
     Actual_Rows := Actual_Rows node; Index_Cond := Index_Cond node;
     Hash_Batches := Hash_Batches node;
     Temporary_File_Usage := Temporary_File_Usage node;
     Hash_Cond := Hash_Cond node; Planning_Time := Planning_Time node;
     Workers_Planned := Workers_Planned node; Total_Cost := Total_Cost node;
     Partitions_Removed := Partitions_Removed node;
     CTE_Materialized := CTE_Materialized node;
     Peak_Memory_Usage := Peak_Memory_Usage node;
     Peak_Memory_Allowed := Peak_Memory_Allowed node;
     Actual_Loops := Actual_Loops node; Plans := None |}.

(** A plan node with the given type, relation, hash batches, hash
    condition and children, and no other field. *)
Definition plan_node (ty : string) (relation : option string) (batches : option Q)
    (cond : option string) (children : option (list PlanNode)) : PlanNode :=
  {| Node_Type := Some ty; Relation_Name := relation; Actual_Rows := None;
     Index_Cond := None; Hash_Batches := batches; Temporary_File_Usage := None;
     Hash_Cond := cond; Planning_Time := None; Workers_Planned := None;
     Total_Cost := None; Partitions_Removed := None; CTE_Materialized := None;
     Peak_Memory_Usage := None; Peak_Memory_Allowed := None; Actual_Loops := None;
     Plans := children |}.

(** A plan object with no property at all. *)
Definition empty_node : PlanNode :=
  {| Node_Type := None; Relation_Name := None; Actual_Rows := None;
     Index_Cond := None; Hash_Batches := None; Temporary_File_Usage := None;
     Hash_Cond := None; Planning_Time := None; Workers_Planned := None;
     Total_Cost := None; Partitions_Removed := None; CTE_Materialized := None;
     Peak_Memory_Usage := None; Peak_Memory_Allowed := None; Actual_Loops := None;
     Plans := None |}.

(** [this.config.schema || 'public'] *)
Definition scope (cfg : config) : option string :=
  Some (if JS.truthy_string (schema cfg) then default "" (schema cfg) else "public").

Definition explainStatement (trimmedQuery : string) : string :=
  "EXPLAIN (FORMAT JSON, ANALYZE, VERBOSE, BUFFERS, COSTS, TIMING) " +:+ trimmedQuery.

Definition analyze (i18n : I18n)
    (w : world ExplainResult TableStat.t IndexInfo.t) (cfg : config) (query : argument)
    : M (AnalysisResult ExplainResult TableStat.t IndexInfo.t) :=
  analyze "PostgreSQL" explainStatement scope "Error releasing client:"
          (generateRecommendations i18n) w cfg query.

End PostgreAnalyzer.

(** ** lib/analyzers/mysqlAnalyzer.js *)

Module MySQLAnalyzer.

(** The row EXPLAIN returns.  Every column is present; a column holds a
    string (a count for [rows]) or SQL NULL ([None], read as [null]). *)
Module ExplainRow.
Record t := {
  select_type : option string;
  table : option string;
  partitions : option string;
  type : option string;
  possible_keys : option string;
  key : option string;
  key_len : option string;
  ref : option string;
  rows : option Z;
  Extra : option string
}.
End ExplainRow.

Module TableStat.
Record t := {
  table_name : option string;
  table_rows : option Z;
  data_length : option Z;
  index_length : option Z
}.
End TableStat.

Module IndexInfo.
Record t := {
  table_name : option string;
  index_name : option string;
  column_name : option string;
  non_unique : option Z
}.
End IndexInfo.

(** [extra?.includes(sub)], used as a condition *)
Definition mentions (extra : option string) (sub : string) : bool :=
  match extra with
  | Some s => JS.includes s sub
  | None => false
  end.

Section Rules.
Variable i18n : I18n.

Definition analyzeTableAccessMethod (explainResult : ExplainRow.t) : Rules unit :=
  when (JS.is_literal (ExplainRow.type explainResult) "ALL")
    (let tableName := ExplainRow.table explainResult in
     push (recommend i18n "TABLE_SCAN" HIGH "tableScan"
             [("tableName", Text tableName)]
             ["review"; "addIndexes"; "coveringIndexes"])) ;;
  when (existsb (JS.strict_eq (ExplainRow.type explainResult)) [Some "index"; Some "ALL"])
    (push (recommend i18n "ACCESS_TYPE" MEDIUM "accessType"
             [("type", Text (ExplainRow.type explainResult))]
             ["review"; "indexCoverage"; "restructure"])).

Definition analyzeJoinOperations (explainResult : ExplainRow.t) : Rules unit :=
  when (negb (JS.is_literal (ExplainRow.select_type explainResult) "SIMPLE")
        && negb (JS.truthy_string (ExplainRow.key explainResult)))
    (push (recommend i18n "JOIN_OPTIMIZATION" HIGH "joinOptimization" []
             ["addIndexes"; "reviewConditions"; "denormalization"])) ;;
  when (mentions (ExplainRow.Extra explainResult) "Using join buffer")
    (push (recommend i18n "JOIN_BUFFER" MEDIUM "joinBuffer" []
             ["addIndexes"; "reviewOrder"; "bufferSize"])).

Definition analyzeTemporaryStructures (explainResult : ExplainRow.t) : Rules unit :=
  when (mentions (ExplainRow.Extra explainResult) "Using temporary")
    (push (recommend i18n "TEMP_TABLE" MEDIUM "tempTable" []
             ["review"; "addIndexes"; "restructure"])) ;;
  when (mentions (ExplainRow.Extra explainResult) "Using filesort")
    (push (recommend i18n "FILE_SORT" MEDIUM "fileSort" []
             ["addIndexes"; "bufferSize"; "limitResults"])).

Definition analyzeIndexUsage (explainResult : ExplainRow.t) (indexes : list IndexInfo.t)
    : Rules unit :=
  when (JS.truthy_string (ExplainRow.possible_keys explainResult)
        && negb (JS.truthy_string (ExplainRow.key explainResult)))
    (push (recommend i18n "UNUSED_INDEXES" MEDIUM "unusedIndexes" []
             ["analyze"; "review"; "forceIndex"])) ;;
  when (JS.truthy_string (ExplainRow.key explainResult)
        && JS.truthy_string (ExplainRow.key_len explainResult)
        && (0 <? length indexes))
    (let relevantIndex :=
       find (fun idx => JS.strict_eq (IndexInfo.index_name idx) (ExplainRow.key explainResult))
            indexes in
     when (bool_decide (is_Some relevantIndex)
           && negb (JS.is_literal (ExplainRow.ref explainResult) "const"))
       (push (recommend i18n "PARTIAL_INDEX_USAGE" LOW "partialIndex" []
                ["review"; "covering"; "analyze"]))).

Definition analyzeTableStatistics (explainResult : ExplainRow.t) (tableStats : list TableStat.t)
    : Rules unit :=
  if (length tableStats =? 0) then ret tt
  else
    let relevantTableStat :=
      find (fun stat => JS.strict_eq (TableStat.table_name stat) (ExplainRow.table explainResult))
           tableStats in
    match relevantTableStat with
    | None => ret tt
    | Some relevantTableStat =>
        when (JS.gt (JS.of_nullable (TableStat.table_rows relevantTableStat)) (JS.of_Z 10000)
              && JS.is_literal (ExplainRow.type explainResult) "ALL")
          (push (recommend i18n "LARGE_TABLE_SCAN" HIGH "largeTableScan"
                   [("rows", Count (TableStat.table_rows relevantTableStat))]
                   ["addIndexes"; "partition"; "optimize"])) ;;
        let indexRatio :=
          JS.div (JS.of_nullable (TableStat.index_length relevantTableStat))
                 (JS.of_nullable (TableStat.data_length relevantTableStat)) in
        when (JS.gt indexRatio (JS.Fin (1 # 2)))
          (push (recommend i18n "HIGH_INDEX_RATIO" LOW "highIndexRatio" []
                   ["review"; "remove"; "covering"]))
    end.

Definition analyzeQueryStructure (explainResult : ExplainRow.t) : Rules unit :=
  when (mentions (ExplainRow.Extra explainResult) "Using where")
    (push (recommend i18n "WHERE_CLAUSE" LOW "whereClause" []
             ["review"; "addIndexes"; "restructure"])) ;;
  when (mentions (ExplainRow.Extra explainResult) "Using temporary"
        && mentions (ExplainRow.Extra explainResult) "Using filesort")
    (push (recommend i18n "DISTINCT_OPTIMIZATION" MEDIUM "distinct" []
             ["groupBy"; "covering"; "review"])).

Definition analyzePartitioning (explainResult : ExplainRow.t) : Rules unit :=
  when (JS.truthy_string (ExplainRow.partitions explainResult)
        && mentions (ExplainRow.partitions explainResult) ",")
    (push (recommend i18n "PARTITION_PRUNING" MEDIUM "partitioning" []
             ["review"; "ensure"; "consider"])).

Definition analyzeSubqueries (explainResult : ExplainRow.t) : Rules unit :=
  when (JS.is_literal (ExplainRow.select_type explainResult) "DEPENDENT SUBQUERY")
    (push (recommend i18n "DEPENDENT_SUBQUERY" HIGH "dependentSubquery" []
             ["join"; "rewrite"; "indexes"])) ;;
  when (JS.is_literal (ExplainRow.select_type explainResult) "SUBQUERY")
    (push (recommend i18n "SUBQUERY_OPTIMIZATION" MEDIUM "subquery" []
             ["join"; "rewrite"; "indexes"; "limit"])).

Definition analyzeSortOperations (explainResult : ExplainRow.t) : Rules unit :=
  when (mentions (ExplainRow.Extra explainResult) "Using filesort"
        && JS.gt (JS.of_nullable (ExplainRow.rows explainResult)) (JS.of_Z 1000))
    (push (recommend i18n "LARGE_SORT" HIGH "largeSort"
             [("rows", Count (ExplainRow.rows explainResult))]
             ["indexSort"; "limit"; "buffer"])) ;;
  when (mentions (ExplainRow.Extra explainResult) "Using filesort"
        && JS.truthy_string (ExplainRow.key explainResult))
    (push (recommend i18n "MULTI_COLUMN_SORT" MEDIUM "multiColumnSort" []
             ["composite"; "order"; "review"])).

Definition analyzeGroupOperations (explainResult : ExplainRow.t) : Rules unit :=
  when (mentions (ExplainRow.Extra explainResult) "Using temporary"
        && mentions (ExplainRow.Extra explainResult) "Using filesort"
        && negb (JS.truthy_string (ExplainRow.key explainResult)))
    (push (recommend i18n "GROUP_BY_OPTIMIZATION" HIGH "groupBy" []
             ["index"; "composite"; "review"])) ;;
  when (mentions (ExplainRow.Extra explainResult) "Using where"
        && mentions (ExplainRow.Extra explainResult) "Using temporary"
        && JS.truthy_string (ExplainRow.key explainResult))
    (push (recommend i18n "LOOSE_INDEX_SCAN" MEDIUM "looseIndexScan" []
             ["rewrite"; "index"; "min_max"])).

Definition priorityTypes : list string :=
  ["TABLE_SCAN"; "JOIN_OPTIMIZATION"; "LARGE_TABLE_SCAN";
   "DEPENDENT_SUBQUERY"; "GROUP_BY_OPTIMIZATION"; "LARGE_SORT"].

Definition prioritizeRecommendations : loc -> M loc :=
  prioritizeRecommendations priorityTypes.

(** The ten rule calls of the [try] block. *)
Definition rule_calls (explainResult : ExplainRow.t)
    (tableStats : list TableStat.t) (indexes : list IndexInfo.t) : list (Rules unit) :=
  [ analyzeTableAccessMethod explainResult;
    analyzeJoinOperations explainResult;
    analyzeTemporaryStructures explainResult;
    analyzeIndexUsage explainResult indexes;
    analyzeTableStatistics explainResult tableStats;
    analyzeQueryStructure explainResult;
    analyzePartitioning explainResult;
    analyzeSubqueries explainResult;
    analyzeSortOperations explainResult;
    analyzeGroupOperations explainResult ].

Definition generateRecommendations (explainResult : option ExplainRow.t)
    (tableStats : list TableStat.t) (indexes : list IndexInfo.t) : M loc :=
  recommendations <- new_array ;;
  returned <-
    try_catch
      (match explainResult with
       | None => ret true
       | Some explainResult =>
           on_array recommendations
             (analyzeTableAccessMethod explainResult ;;
              analyzeJoinOperations explainResult ;;
              analyzeTemporaryStructures explainResult ;;
              analyzeIndexUsage explainResult indexes ;;
              analyzeTableStatistics explainResult tableStats ;;
              analyzeQueryStructure explainResult ;;
              analyzePartitioning explainResult ;;
              analyzeSubqueries explainResult ;;
              analyzeSortOperations explainResult ;;
              analyzeGroupOperations explainResult) ;;
           ret false
       end)
      (fun error =>
         warn (t i18n "analyzer.errors.recommendations" []) (JS.message error) ;;
         ret false) ;;
  if (returned : bool) then ret recommendations
  else prioritizeRecommendations recommendations.
End Rules.

(** [this.config.database] *)
Definition scope (cfg : config) : option string := database cfg.

Definition explainStatement (trimmedQuery : string) : string :=
  "EXPLAIN " +:+ trimmedQuery.

Definition analyze (i18n : I18n)
    (w : world ExplainRow.t TableStat.t IndexInfo.t) (cfg : config) (query : argument)
    : M (AnalysisResult ExplainRow.t TableStat.t IndexInfo.t) :=
  analyze "MySQL" explainStatement scope "Error closing connection:"
          (generateRecommendations i18n) w cfg query.

End MySQLAnalyzer.

(** ** Vocabulary of the properties *)

(** Running rule calls one after the other, as the [try] blocks do. *)
Definition run_rules (calls : list (Rules unit)) : Rules unit :=
  foldr (fun call rest => call ;; rest) (ret tt) calls.

(** A computation over the array that only appends to it, and whose
    outcome and appended elements do not depend on what the array holds. *)
Definition appends {A} (m : Rules A) : Prop :=
  forall s, m s = (fst (m []), s ++ snd (m [])).

(** A computation that completes normally whatever the array holds. *)
Definition never_throws {A} (m : Rules A) : Prop :=
  forall s, exists a s', m s = (Ok a, s').

(** The common shape of the two [generateRecommendations]: [body] is the
    sequence of rule calls when there is an explain result. *)
Definition generate (label : string) (priorityTypes : list string)
    (body : option (Rules unit)) : M loc :=
  recommendations <- new_array ;;
  returned <-
    try_catch
      (match body with
       | None => ret true
       | Some rules => on_array recommendations rules ;; ret false
       end)
      (fun error => warn label (JS.message error) ;; ret false) ;;
  if (returned : bool) then ret recommendations
  else prioritizeRecommendations priorityTypes recommendations.

(** The warning [generate] logs when a rule throws. *)
Definition rule_warning (label : string) (o : outcome unit) : list event :=
  match o with
  | Ok _ => []
  | Throw e => [Warned label (JS.message e)]
  end.

(** Position of the first occurrence of a type in the priority list. *)
Fixpoint position (l : list string) (x : string) : option nat :=
  match l with
  | [] => None
  | y :: l' => if String.eqb y x then Some 0 else S <$> position l' x
  end.

Section Order.
Variable priorityTypes : list string.

(** [a] has to come before [b]: a lower severity rank, or the same
    severity and a listed type that [b]'s type, if listed at all, comes
    after. *)
Definition comes_before (a b : Recommendation) : Prop :=
  (severityOrder (severity a) < severityOrder (severity b))%Z
  \/ (severity a = severity b
      /\ match position priorityTypes (type a), position priorityTypes (type b) with
         | Some i, Some j => i < j
         | Some _, None => True
         | None, _ => False
         end).

(** Equal on both keys. *)
Definition tied (a b : Recommendation) : Prop :=
  severity a = severity b
  /\ position priorityTypes (type a) = position priorityTypes (type b).

Definition in_order (a b : Recommendation) : Prop := comes_before a b \/ tied a b.

(** Both keys folded into one integer. *)
Definition typeRank (r : Recommendation) : Z :=
  match position priorityTypes (type r) with
  | Some i => Z.of_nat i
  | None => Z.of_nat (length priorityTypes)
  end.

Definition rank (r : Recommendation) : Z :=
  severityOrder (severity r) * (Z.of_nat (length priorityTypes) + 1) + typeRank r.
End Order.

#[global] Instance Severity_eq_dec : EqDecision Severity.
Proof. solve_decision. Defined.

#[global] Instance tied_dec priorityTypes a b : Decision (tied priorityTypes a b).
Proof. unfold tied. apply _. Defined.

(** Text that is empty or made of white space only. *)
Fixpoint only_whitespace (s : string) : bool :=
  match s with
  | EmptyString => true
  | String c s' => JS.isWhiteSpace c && only_whitespace s'
  end.

(** The errors of the analysis are plain [Error] objects told apart by
    their message, behind the prefix [analyze] puts on everything it
    rethrows. *)
Definition analysis_error (engine detail : string) : JS.exn :=
  JS.Error (engine +:+ " Analysis Error: " +:+ detail).

Definition InvalidQueryError (engine : string) (e : JS.exn) : Prop :=
  e = analysis_error engine "Invalid query provided"
  \/ e = analysis_error engine "Empty query provided".

Definition UnsupportedQueryError (engine : string) (e : JS.exn) : Prop :=
  e = analysis_error engine "Only SELECT queries can be analyzed".

(** A query that passes validation, with the text the analysis goes on
    with: a string whose trimmed form is not empty and starts, whatever
    the case, with "select". *)
Definition accepted (query : argument) (trimmedQuery : string) : Prop :=
  exists text,
    query = Str text
    /\ trimmedQuery = JS.trim text
    /\ trimmedQuery <> ""
    /\ JS.startsWith (JS.toLowerCase trimmedQuery) "select" = true.

(** The collection a metadata query leaves in its variable, and the events
    of the query: on failure the variable keeps its initial empty array
    and a warning is logged. *)
Definition collected {A} (o : outcome (list A)) : list A :=
  match o with
  | Ok l => l
  | Throw _ => []
  end.

Definition metadata_events {A} (r : request) (label : string) (o : outcome A)
    : list event :=
  match o with
  | Ok _ => [Queried r true]
  | Throw e => [Queried r false; Warned label (JS.message e)]
  end.

(** The events of the [finally] block for a held connection. *)
Definition release_events {Explain Stat Index} (w : world Explain Stat Index)
    (releaseWarning : string) (c : connection) : list event :=
  match release w c with
  | Ok _ => [Released c true]
  | Throw e => [Released c false; Warned releaseWarning (JS.message e)]
  end.

Definition add_events (evs : list event) (st : state) : state :=
  {| arrays := arrays st; client := client st; events := events st ++ evs |}.






Definition is_warning (e : event) : Prop :=
  match e with Warned _ _ => True | _ => False end.

(** ** Sample data *)

Definition initial : state := {| arrays := ∅; client := None; events := [] |}.

(** A translation service that answers with the key it was asked for. *)
Definition keys : I18n := {| t := fun key _ => key |}.

Definition no_database : config := {| database := None; schema := None |}.

Module Samples.
Import PostgreAnalyzer.

Definition seq_scan_orders : PlanNode :=
  plan_node "Seq Scan" (Some "orders") None None None.

(** A nested loop over a sequential scan: nothing to report at the root. *)
Definition loop_root : PlanNode :=
  plan_node "Nested Loop" None None None (Some [seq_scan_orders]).

Definition loop_over_scan : ExplainResult := {| Plan := Some loop_root |}.

(** A hash join in two batches over a sequential scan. *)
Definition spilled_join : PlanNode :=
  plan_node "Hash Join" None (Some 2%Q) (Some "(o.customer_id = c.id)")
            (Some [seq_scan_orders]).


Definition unreachable {Explain Stat Index} : world Explain Stat Index :=
  {| connect := Throw (JS.Error "connect ECONNREFUSED 127.0.0.1:5432");
     run_explain := fun _ => Ok None;
     run_tableStatistics := fun _ => Ok [];
     run_indexInformation := fun _ => Ok [];
     release := fun _ => Ok tt |}.

(** A database that answers EXPLAIN with the given plan and fails both
    metadata queries. *)
Definition plan_only {Explain Stat Index} (plan : Explain) : world Explain Stat Index :=
  {| connect := Ok 7%positive;
     run_explain := fun _ => Ok (Some plan);
     run_tableStatistics := fun _ => Throw (JS.Error "permission denied");
     run_indexInformation := fun _ => Throw (JS.Error "permission denied");
     release := fun _ => Ok tt |}.

Definition scan_orders : MySQLAnalyzer.ExplainRow.t :=
  {| MySQLAnalyzer.ExplainRow.select_type := Some "SIMPLE";
     MySQLAnalyzer.ExplainRow.table := Some "orders";
     MySQLAnalyzer.ExplainRow.partitions := None;
     MySQLAnalyzer.ExplainRow.type := Some "ALL";
     MySQLAnalyzer.ExplainRow.possible_keys := None;
     MySQLAnalyzer.ExplainRow.key := None;
     MySQLAnalyzer.ExplainRow.key_len := None;
     MySQLAnalyzer.ExplainRow.ref := None;
     MySQLAnalyzer.ExplainRow.rows := Some 50000%Z;
     MySQLAnalyzer.ExplainRow.Extra := None |}.

Definition orders_stat : MySQLAnalyzer.TableStat.t :=
  {| MySQLAnalyzer.TableStat.table_name := Some "orders";
     MySQLAnalyzer.TableStat.table_rows := Some 50000%Z;
     MySQLAnalyzer.TableStat.data_length := Some 1000000%Z;
     MySQLAnalyzer.TableStat.index_length := Some 600000%Z |}.

Definition finding (ty : string) (sev : Severity) : Recommendation :=
  {| type := ty; severity := sev; message := ty; suggestion := "";
     details := {| impact := ""; implementation := [] |} |}.

(** An array holding a MEDIUM finding ahead of a HIGH one. *)
Definition unsorted : state :=
  {| arrays := {[ 1%positive := [finding "TEMP_TABLE" MEDIUM; finding "TABLE_SCAN" HIGH] ]};
     client := None; events := [] |}.
End Samples.

(** ** Findings in push order

    What the ten rule calls append for one plan, written out as a list:
    [pushed c r] stands for [if (c) recommendations.push(r)]. *)

Definition pushed (c : bool) (r : Recommendation) : list Recommendation :=
  if c then [r] else [].

(** How many recommendations of a type a list holds. *)
Definition count_type (ty : string) (l : list Recommendation) : nat :=
  length (List.filter (fun r => String.eqb (type r) ty) l).

Module MySQLFindings.
Import MySQLAnalyzer.

Definition statistics_findings (i18n : I18n) (explainResult : ExplainRow.t)
    (tableStats : list TableStat.t) : list Recommendation :=
  match find (fun stat => JS.strict_eq (TableStat.table_name stat) (ExplainRow.table explainResult))
             tableStats with
  | None => []
  | Some relevantTableStat =>
      pushed (JS.gt (JS.of_nullable (TableStat.table_rows relevantTableStat)) (JS.of_Z 10000)
              && JS.is_literal (ExplainRow.type explainResult) "ALL")
        (recommend i18n "LARGE_TABLE_SCAN" HIGH "largeTableScan"
           [("rows", Count (TableStat.table_rows relevantTableStat))]
           ["addIndexes"; "partition"; "optimize"])
      ++ pushed (JS.gt (JS.div (JS.of_nullable (TableStat.index_length relevantTableStat))
                               (JS.of_nullable (TableStat.data_length relevantTableStat)))
                       (JS.Fin (1 # 2)))
           (recommend i18n "HIGH_INDEX_RATIO" LOW "highIndexRatio" []
              ["review"; "remove"; "covering"])
  end.

Definition findings (i18n : I18n) (explainResult : ExplainRow.t)
    (tableStats : list TableStat.t) (indexes : list IndexInfo.t) : list Recommendation :=
  pushed (JS.is_literal (ExplainRow.type explainResult) "ALL")
    (recommend i18n "TABLE_SCAN" HIGH "tableScan"
       [("tableName", Text (ExplainRow.table explainResult))]
       ["review"; "addIndexes"; "coveringIndexes"])
  ++ pushed (existsb (JS.strict_eq (ExplainRow.type explainResult)) [Some "index"; Some "ALL"])
       (recommend i18n "ACCESS_TYPE" MEDIUM "accessType"
          [("type", Text (ExplainRow.type explainResult))]
          ["review"; "indexCoverage"; "restructure"])
  ++ pushed (negb (JS.is_literal (ExplainRow.select_type explainResult) "SIMPLE")
             && negb (JS.truthy_string (ExplainRow.key explainResult)))
       (recommend i18n "JOIN_OPTIMIZATION" HIGH "joinOptimization" []
          ["addIndexes"; "reviewConditions"; "denormalization"])
  ++ pushed (mentions (ExplainRow.Extra explainResult) "Using join buffer")
       (recommend i18n "JOIN_BUFFER" MEDIUM "joinBuffer" []
          ["addIndexes"; "reviewOrder"; "bufferSize"])
  ++ pushed (mentions (ExplainRow.Extra explainResult) "Using temporary")
       (recommend i18n "TEMP_TABLE" MEDIUM "tempTable" []
          ["review"; "addIndexes"; "restructure"])
  ++ pushed (mentions (ExplainRow.Extra explainResult) "Using filesort")
       (recommend i18n "FILE_SORT" MEDIUM "fileSort" []
          ["addIndexes"; "bufferSize"; "limitResults"])
  ++ pushed (JS.truthy_string (ExplainRow.possible_keys explainResult)
             && negb (JS.truthy_string (ExplainRow.key explainResult)))
       (recommend i18n "UNUSED_INDEXES" MEDIUM "unusedIndexes" []
          ["analyze"; "review"; "forceIndex"])
  ++ pushed (JS.truthy_string (ExplainRow.key explainResult)
             && JS.truthy_string (ExplainRow.key_len explainResult)
             && (0 <? length indexes)
             && bool_decide
                  (is_Some (find (fun idx => JS.strict_eq (IndexInfo.index_name idx)
                                               (ExplainRow.key explainResult)) indexes))
             && negb (JS.is_literal (ExplainRow.ref explainResult) "const"))
       (recommend i18n "PARTIAL_INDEX_USAGE" LOW "partialIndex" []
          ["review"; "covering"; "analyze"])
  ++ statistics_findings i18n explainResult tableStats
  ++ pushed (mentions (ExplainRow.Extra explainResult) "Using where")
       (recommend i18n "WHERE_CLAUSE" LOW "whereClause" []
          ["review"; "addIndexes"; "restructure"])
  ++ pushed (mentions (ExplainRow.Extra explainResult) "Using temporary"
             && mentions (ExplainRow.Extra explainResult) "Using filesort")
       (recommend i18n "DISTINCT_OPTIMIZATION" MEDIUM "distinct" []
          ["groupBy"; "covering"; "review"])
  ++ pushed (JS.truthy_string (ExplainRow.partitions explainResult)
             && mentions (ExplainRow.partitions explainResult) ",")
       (recommend i18n "PARTITION_PRUNING" MEDIUM "partitioning" []
          ["review"; "ensure"; "consider"])
  ++ pushed (JS.is_literal (ExplainRow.select_type explainResult) "DEPENDENT SUBQUERY")
       (recommend i18n "DEPENDENT_SUBQUERY" HIGH "dependentSubquery" []
          ["join"; "rewrite"; "indexes"])
  ++ pushed (JS.is_literal (ExplainRow.select_type explainResult) "SUBQUERY")
       (recommend i18n "SUBQUERY_OPTIMIZATION" MEDIUM "subquery" []
          ["join"; "rewrite"; "indexes"; "limit"])
  ++ pushed (mentions (ExplainRow.Extra explainResult) "Using filesort"
             && JS.gt (JS.of_nullable (ExplainRow.rows explainResult)) (JS.of_Z 1000))
       (recommend i18n "LARGE_SORT" HIGH "largeSort"
          [("rows", Count (ExplainRow.rows explainResult))]
          ["indexSort"; "limit"; "buffer"])
  ++ pushed (mentions (ExplainRow.Extra explainResult) "Using filesort"
             && JS.truthy_string (ExplainRow.key explainResult))
       (recommend i18n "MULTI_COLUMN_SORT" MEDIUM "multiColumnSort" []
          ["composite"; "order"; "review"])
  ++ pushed (mentions (ExplainRow.Extra explainResult) "Using temporary"
             && mentions (ExplainRow.Extra explainResult) "Using filesort"
             && negb (JS.truthy_string (ExplainRow.key explainResult)))
       (recommend i18n "GROUP_BY_OPTIMIZATION" HIGH "groupBy" []
          ["index"; "composite"; "review"])
  ++ pushed (mentions (ExplainRow.Extra explainResult) "Using where"
             && mentions (ExplainRow.Extra explainResult) "Using temporary"
             && JS.truthy_string (ExplainRow.key explainResult))
       (recommend i18n "LOOSE_INDEX_SCAN" MEDIUM "looseIndexScan" []
          ["rewrite"; "index"; "min_max"]).
End MySQLFindings.

Module PostgreFindings.
Import PostgreAnalyzer.

(** The scan, join and temporary-structure rules: they never throw on a
    plan object. *)
Definition first_findings (i18n : I18n) (plan : PlanNode) : list Recommendation :=
  pushed (JS.is_literal (Node_Type plan) "Seq Scan")
    (recommend i18n "SEQUENTIAL_SCAN" HIGH "sequentialScan"
       [("tableName", Text (Relation_Name plan))]
       ["createIndex"; "analyzeTable"; "reviewWhere"])
  ++ pushed (JS.is_literal (Node_Type plan) "Index Scan"
             && exceeds (Actual_Rows plan) 1000
             && negb (bool_decide (is_Some (Index_Cond plan))))
       (recommend i18n "INEFFICIENT_INDEX_SCAN" MEDIUM "inefficientIndexScan" []
          ["reviewIndex"; "considerBitmap"; "checkStats"])
  ++ pushed (JS.is_literal (Node_Type plan) "Nested Loop" && exceeds (Actual_Rows plan) 1000)
       (recommend i18n "EXPENSIVE_NESTED_LOOP" HIGH "expensiveNestedLoop" []
          ["createIndex"; "useHash"; "rewriteJoin"])
  ++ pushed (JS.is_literal (Node_Type plan) "Hash Join" && exceeds (Hash_Batches plan) 1)
       (recommend i18n "HASH_SPILL" MEDIUM "hashSpill" []
          ["increaseMemory"; "optimizeJoin"; "partitionData"])
  ++ pushed (truthy_flag (Temporary_File_Usage plan))
       (recommend i18n "TEMP_FILES" HIGH "tempFiles" []
          ["increaseMemory"; "optimizeQuery"; "useIndexes"]).

(** The index rule throws on a hash join that carries no hash condition. *)
Definition index_rule_fails (plan : PlanNode) : bool :=
  JS.is_literal (Node_Type plan) "Hash Join" && negb (bool_decide (is_Some (Hash_Cond plan))).

Definition middle_findings (i18n : I18n) (plan : PlanNode) : list Recommendation :=
  pushed (JS.is_literal (Node_Type plan) "Hash Join"
          && negb (JS.includes (default "" (Hash_Cond plan)) "="))
    (recommend i18n "MISSING_JOIN_INDEX" HIGH "missingJoinIndex" []
       ["createIndex"; "analyzeJoin"; "considerFK"])
  ++ pushed (exceeds (Planning_Time plan) 1000)
       (recommend i18n "OUTDATED_STATS" MEDIUM "outdatedStats" []
          ["runAnalyze"; "autoVacuum"; "monitoring"])
  ++ pushed (falsy_number (Workers_Planned plan) && exceeds (Total_Cost plan) 100000)
       (recommend i18n "MISSED_PARALLEL" MEDIUM "missedParallel" []
          ["enableParallel"; "adjustSettings"; "reviewQuery"]).

(** The partition rule throws when no partition was removed and the node
    has no type to inspect. *)
Definition partition_rule_fails (plan : PlanNode) : bool :=
  is_zero (Partitions_Removed plan) && negb (bool_decide (is_Some (Node_Type plan))).

Definition last_findings (i18n : I18n) (plan : PlanNode) : list Recommendation :=
  pushed (is_zero (Partitions_Removed plan)
          && JS.includes (default "" (Node_Type plan)) "Partition")
    (recommend i18n "INEFFECTIVE_PARTITION" HIGH "ineffectivePartition" []
       ["reviewStrategy"; "addConstraints"; "optimizeKeys"])
  ++ pushed (JS.is_literal (Node_Type plan) "CTE Scan"
             && exceeds (Actual_Rows plan) 1
             && negb (truthy_flag (CTE_Materialized plan)))
       (recommend i18n "CTE_MATERIALIZATION" MEDIUM "cteMaterialization" []
          ["materialize"; "analyzeUsage"; "considerTemp"])
  ++ pushed (JS.is_literal (Node_Type plan) "Group Aggregate"
             && exceeds (Actual_Rows plan) 1000)
       (recommend i18n "INEFFICIENT_AGGREGATE" MEDIUM "inefficientAggregate" []
          ["useHash"; "addIndexes"; "restructure"])
  ++ pushed (JS.is_literal (Node_Type plan) "Hash Aggregate"
             && JS.gt (JS.of_undefinable (Peak_Memory_Usage plan))
                      (JS.of_undefinable (Peak_Memory_Allowed plan)))
       (recommend i18n "AGGREGATE_SPILL" HIGH "aggregateSpill" []
          ["increaseWork"; "limitGroups"; "useIndexes"])
  ++ pushed (exceeds (Actual_Loops plan) 1
             && negb (JS.is_literal (Node_Type plan) "Materialize"))
       (recommend i18n "MISSED_MATERIALIZATION" MEDIUM "missedMaterialization" []
          ["addMaterialize"; "analyzeMemory"; "considerCTE"]).

(** What is in the array when the rule calls are over, and whether a call
    threw on the way. *)
Definition findings (i18n : I18n) (plan : PlanNode) : list Recommendation :=
  first_findings i18n plan
  ++ (if index_rule_fails plan then []
      else middle_findings i18n plan
           ++ (if partition_rule_fails plan then [] else last_findings i18n plan)).

Definition failure (plan : PlanNode) : outcome unit :=
  if index_rule_fails plan || partition_rule_fails plan
  then Throw (JS.TypeError "Cannot read properties of undefined (reading 'includes')")
  else Ok tt.
End PostgreFindings.

(** ** Which types are reported

    The conditions of the pushes next to the type each one reports, in
    push order; [count_guarded] counts the pushes of a type whose
    condition holds. *)

Definition count_guarded (ty : string) (l : list (bool * string)) : nat :=
  length (List.filter fst (List.filter (fun p => String.eqb (snd p) ty) l)).

Definition mysql_guards (explainResult : MySQLAnalyzer.ExplainRow.t)
    (tableStats : list MySQLAnalyzer.TableStat.t)
    (indexes : list MySQLAnalyzer.IndexInfo.t) : list (bool * string) :=
  let extra := MySQLAnalyzer.ExplainRow.Extra explainResult in
  let key := MySQLAnalyzer.ExplainRow.key explainResult in
  let relevantTableStat :=
    find (fun stat => JS.strict_eq (MySQLAnalyzer.TableStat.table_name stat)
                        (MySQLAnalyzer.ExplainRow.table explainResult)) tableStats in
  [ (JS.is_literal (MySQLAnalyzer.ExplainRow.type explainResult) "ALL", "TABLE_SCAN");
    (existsb (JS.strict_eq (MySQLAnalyzer.ExplainRow.type explainResult))
       [Some "index"; Some "ALL"], "ACCESS_TYPE");
    (negb (JS.is_literal (MySQLAnalyzer.ExplainRow.select_type explainResult) "SIMPLE")
     && negb (JS.truthy_string key), "JOIN_OPTIMIZATION");
    (MySQLAnalyzer.mentions extra "Using join buffer", "JOIN_BUFFER");
    (MySQLAnalyzer.mentions extra "Using temporary", "TEMP_TABLE");
    (MySQLAnalyzer.mentions extra "Using filesort", "FILE_SORT");
    (JS.truthy_string (MySQLAnalyzer.ExplainRow.possible_keys explainResult)
     && negb (JS.truthy_string key), "UNUSED_INDEXES");
    (JS.truthy_string key
     && JS.truthy_string (MySQLAnalyzer.ExplainRow.key_len explainResult)
     && (0 <? length indexes)
     && bool_decide
          (is_Some (find (fun idx => JS.strict_eq (MySQLAnalyzer.IndexInfo.index_name idx)
                                       key) indexes))
     && negb (JS.is_literal (MySQLAnalyzer.ExplainRow.ref explainResult) "const"),
     "PARTIAL_INDEX_USAGE");
    (match relevantTableStat with
     | Some stat =>
         JS.gt (JS.of_nullable (MySQLAnalyzer.TableStat.table_rows stat)) (JS.of_Z 10000)
         && JS.is_literal (MySQLAnalyzer.ExplainRow.type explainResult) "ALL"
     | None => false
     end, "LARGE_TABLE_SCAN");
    (match relevantTableStat with
     | Some stat =>
         JS.gt (JS.div (JS.of_nullable (MySQLAnalyzer.TableStat.index_length stat))
                       (JS.of_nullable (MySQLAnalyzer.TableStat.data_length stat)))
               (JS.Fin (1 # 2))
     | None => false
     end, "HIGH_INDEX_RATIO");
    (MySQLAnalyzer.mentions extra "Using where", "WHERE_CLAUSE");
    (MySQLAnalyzer.mentions extra "Using temporary"
     && MySQLAnalyzer.mentions extra "Using filesort", "DISTINCT_OPTIMIZATION");
    (JS.truthy_string (MySQLAnalyzer.ExplainRow.partitions explainResult)
     && MySQLAnalyzer.mentions (MySQLAnalyzer.ExplainRow.partitions explainResult) ",",
     "PARTITION_PRUNING");
    (JS.is_literal (MySQLAnalyzer.ExplainRow.select_type explainResult) "DEPENDENT SUBQUERY",
     "DEPENDENT_SUBQUERY");
    (JS.is_literal (MySQLAnalyzer.ExplainRow.select_type explainResult) "SUBQUERY",
     "SUBQUERY_OPTIMIZATION");
    (MySQLAnalyzer.mentions extra "Using filesort"
     && JS.gt (JS.of_nullable (MySQLAnalyzer.ExplainRow.rows explainResult)) (JS.of_Z 1000),
     "LARGE_SORT");
    (MySQLAnalyzer.mentions extra "Using filesort" && JS.truthy_string key,
     "MULTI_COLUMN_SORT");
    (MySQLAnalyzer.mentions extra "Using temporary"
     && MySQLAnalyzer.mentions extra "Using filesort"
     && negb (JS.truthy_string key), "GROUP_BY_OPTIMIZATION");
    (MySQLAnalyzer.mentions extra "Using where"
     && MySQLAnalyzer.mentions extra "Using temporary"
     && JS.truthy_string key, "LOOSE_INDEX_SCAN") ].

Definition postgre_guards (plan : PostgreAnalyzer.PlanNode) : list (bool * string) :=
  let nodeType := PostgreAnalyzer.Node_Type plan in
  let rows := PostgreAnalyzer.Actual_Rows plan in
  let middle := negb (PostgreFindings.index_rule_fails plan) in
  let last := middle && negb (PostgreFindings.partition_rule_fails plan) in
  [ (JS.is_literal nodeType "Seq Scan", "SEQUENTIAL_SCAN");
    (JS.is_literal nodeType "Index Scan"
     && PostgreAnalyzer.exceeds rows 1000
     && negb (bool_decide (is_Some (PostgreAnalyzer.Index_Cond plan))),
     "INEFFICIENT_INDEX_SCAN");
    (JS.is_literal nodeType "Nested Loop" && PostgreAnalyzer.exceeds rows 1000,
     "EXPENSIVE_NESTED_LOOP");
    (JS.is_literal nodeType "Hash Join"
     && PostgreAnalyzer.exceeds (PostgreAnalyzer.Hash_Batches plan) 1, "HASH_SPILL");
    (PostgreAnalyzer.truthy_flag (PostgreAnalyzer.Temporary_File_Usage plan), "TEMP_FILES");
    (middle
     && (JS.is_literal nodeType "Hash Join"
         && negb (JS.includes (default "" (PostgreAnalyzer.Hash_Cond plan)) "=")),
     "MISSING_JOIN_INDEX");
    (middle && PostgreAnalyzer.exceeds (PostgreAnalyzer.Planning_Time plan) 1000,
     "OUTDATED_STATS");
    (middle
     && (PostgreAnalyzer.falsy_number (PostgreAnalyzer.Workers_Planned plan)
         && PostgreAnalyzer.exceeds (PostgreAnalyzer.Total_Cost plan) 100000),
     "MISSED_PARALLEL");
    (last
     && (PostgreAnalyzer.is_zero (PostgreAnalyzer.Partitions_Removed plan)
         && JS.includes (default "" nodeType) "Partition"), "INEFFECTIVE_PARTITION");
    (last
     && (JS.is_literal nodeType "CTE Scan"
         && PostgreAnalyzer.exceeds rows 1
         && negb (PostgreAnalyzer.truthy_flag (PostgreAnalyzer.CTE_Materialized plan))),
     "CTE_MATERIALIZATION");
    (last
     && (JS.is_literal nodeType "Group Aggregate" && PostgreAnalyzer.exceeds rows 1000),
     "INEFFICIENT_AGGREGATE");
    (last
     && (JS.is_literal nodeType "Hash Aggregate"
         && JS.gt (JS.of_undefinable (PostgreAnalyzer.Peak_Memory_Usage plan))
                  (JS.of_undefinable (PostgreAnalyzer.Peak_Memory_Allowed plan))),
     "AGGREGATE_SPILL");
    (last
     && (PostgreAnalyzer.exceeds (PostgreAnalyzer.Actual_Loops plan) 1
         && negb (JS.is_literal nodeType "Materialize")), "MISSED_MATERIALIZATION") ].

(** The requests sent to the database, in the order of sending. *)
Definition requests (evs : list event) : list request :=
  omap (fun e => match e with Queried r _ => Some r | _ => None end) evs.

(** ** lib/visualizers/terminalVisualizer.js

    The visualizer reads the objects of the result by property name,
    whatever analyzer they come from.  A view is such an object seen
    through the properties the visualizer reads; a property the object
    does not have, or that holds [null], is [None]. *)

Module TerminalVisualizer.

(** A table cell: a string or a number. *)
Inductive cell := Txt (s : string) | Num (z : Z).

(** What [console.log] gets: [displayHeader] prints a title between two
    rules; a table is printed with its head and its rows. *)
Inductive printed :=
| Header (text : string)
| Grid (head : list string) (rows : list (list cell)).

(** [s || fallback] for a string that may be missing *)
Definition or_else (s : option string) (fallback : string) : string :=
  if JS.truthy_string s then default "" s else fallback.

(** A number is truthy unless it is 0; a missing value is falsy. *)
Definition truthy_number (n : option Z) : bool :=
  match n with
  | Some z => negb (z =? 0)%Z
  | None => false
  end.

(** [a || b] for two properties that may be missing *)
Definition first_truthy_string (a b : option string) : option string :=
  if JS.truthy_string a then a else b.

Definition first_truthy_number (a b : option Z) : option Z :=
  if truthy_number a then a else b.

(** ['  '.repeat(level)] *)
Fixpoint repeat_string (s : string) (n : nat) : string :=
  match n with
  | O => ""
  | S n' => s +:+ repeat_string s n'
  end.

(** [details.join(', ')] *)
Definition join (sep : string) (l : list string) : string := String.concat sep l.

(** The plan object as [formatExecutionPlan] reads it. *)
Module Node.
Inductive t := {
  select_type : option string;
  rows : option Z;
  table : option string;
  type : option string;
  possible_keys : option string;
  key : option string;
  Extra : option string;
  Plans : option (list (option t));
  children : option (list (option t))
}.
End Node.

(** A row of statistics and a row of index information, with the column
    names in both spellings the visualizer tries. *)
Module StatView.
Record t := {
  TABLE_NAME : option string;
  table_name : option string;
  TABLE_ROWS : option cell;
  table_rows : option cell;
  DATA_LENGTH : option Z;
  data_length : option Z;
  INDEX_LENGTH : option Z;
  index_length : option Z
}.
End StatView.

Module IndexView.
Record t := {
  TABLE_NAME : option string;
  table_name : option string;
  INDEX_NAME : option string;
  index_name : option string;
  COLUMN_NAME : option string;
  column_name : option string;
  NON_UNIQUE : option Z;
  non_unique : option Z
}.
End IndexView.

Definition Table (A : Type) : Type := Eff (list (list cell)) A.

(** [table.push(row)] *)
Definition push_row (row : list cell) : Table unit :=
  modify (fun table => table ++ [row]).

(** The details collected for one node. *)
Definition node_details (node : Node.t) : list string :=
  (if JS.truthy_string (Node.table node)
   then ["table=" +:+ default "" (Node.table node)] else [])
  ++ (if JS.truthy_string (Node.type node)
      then ["type=" +:+ default "" (Node.type node)] else [])
  ++ (if JS.truthy_string (Node.possible_keys node)
      then ["possible_keys=" +:+ default "" (Node.possible_keys node)] else [])
  ++ (if JS.truthy_string (Node.key node)
      then ["key=" +:+ default "" (Node.key node)] else [])
  ++ (if JS.truthy_string (Node.Extra node) then [default "" (Node.Extra node)] else []).

(** The row pushed for one node. *)
Definition node_row (node : Node.t) (level : nat) : list cell :=
  let indent := repeat_string "  " level in
  let operation := or_else (Node.select_type node) "SIMPLE" in
  let cost :=
    if truthy_number (Node.rows node)
    then pretty (default 0%Z (Node.rows node)) +:+ " rows" else "N/A" in
  let rowsEstimate :=
    if truthy_number (Node.rows node) then Num (default 0%Z (Node.rows node))
    else Txt "N/A" in
  let details := node_details node in
  [ Txt (indent +:+ operation);
    Txt cost;
    rowsEstimate;
    Txt (if String.eqb (join ", " details) "" then "N/A" else join ", " details) ].

(** [formatExecutionPlan] on a node that is there; a child that is
    [null] is skipped by the test the function starts with.  With
    neither [Plans] nor [children] the loop runs over the empty array. *)
Fixpoint formatNode (node : Node.t) (level : nat) : Table unit :=
  push_row (node_row node level) ;;
  let each :=
    forEach (fun child =>
               match child with
               | Some child => formatNode child (level + 1)
               | None => ret tt
               end) in
  match Node.Plans node with
  | Some plans => each plans
  | None =>
      match Node.children node with
      | Some children => each children
      | None => ret tt
      end
  end.

Definition formatExecutionPlan (node : option Node.t) (level : nat) : Table unit :=
  match node with
  | Some node => formatNode node level
  | None => ret tt
  end.

Section Display.
Variable i18n : I18n.

(** The part of [formatBytes] that scales a size that is not 0:
    floating point, left open. *)
Variable scaled : Z -> string.

(** [formatBytes(a || b || 0)], given [a || b]: a size that is missing
    or 0 reads 0 B. *)
Definition formatBytes (bytes : option Z) : string :=
  if truthy_number bytes then scaled (default 0%Z bytes) else "0 B".

Definition displayExecutionPlan (plan : option Node.t) : list printed :=
  let head := [t i18n "visualization.table.operation" [];
               t i18n "visualization.table.cost" [];
               t i18n "visualization.table.rows" [];
               t i18n "visualization.table.details" []] in
  let table :=
    match plan with
    | Some _ => snd (formatExecutionPlan plan 0 [])
    | None => [[Txt (t i18n "visualization.noData.plan" []);
                Txt "N/A"; Txt "N/A"; Txt "N/A"]]
    end in
  [Header (t i18n "visualization.headers.plan" []); Grid head table].

Definition stat_row (stat : StatView.t) : list cell :=
  [ Txt (or_else (first_truthy_string (StatView.TABLE_NAME stat) (StatView.table_name stat))
                 "N/A");
    (let truthy_cell c :=
       match c with
       | Some (Txt s) => negb (String.eqb s "")
       | Some (Num z) => negb (z =? 0)%Z
       | None => false
       end in
     if truthy_cell (StatView.TABLE_ROWS stat) then default (Txt "") (StatView.TABLE_ROWS stat)
     else if truthy_cell (StatView.table_rows stat)
          then default (Txt "") (StatView.table_rows stat)
          else Txt "N/A");
    Txt (formatBytes (first_truthy_number (StatView.DATA_LENGTH stat)
                                          (StatView.data_length stat)));
    Txt (formatBytes (first_truthy_number (StatView.INDEX_LENGTH stat)
                                          (StatView.index_length stat))) ].

Definition displayTableStatistics (stats : list StatView.t) : list printed :=
  let head := [t i18n "visualization.table.table" [];
               t i18n "visualization.table.rows" [];
               t i18n "visualization.table.size" [];
               t i18n "visualization.table.indexSize" []] in
  let table :=
    if (0 <? length stats) then map stat_row stats
    else [[Txt (t i18n "visualization.noData.stats" []); Txt "N/A"; Txt "N/A"; Txt "N/A"]] in
  [Header (t i18n "visualization.headers.stats" []); Grid head table].

Definition index_row (index : IndexView.t) : list cell :=
  let columns :=
    or_else (first_truthy_string (IndexView.COLUMN_NAME index) (IndexView.column_name index))
            "N/A" in
  let type :=
    match IndexView.NON_UNIQUE index with
    | Some n => if (n =? 1)%Z then "Non-Unique" else "Unique"
    | None => if truthy_number (IndexView.non_unique index) then "Non-Unique" else "Unique"
    end in
  [ Txt (or_else (first_truthy_string (IndexView.TABLE_NAME index)
                                      (IndexView.table_name index)) "N/A");
    Txt (or_else (first_truthy_string (IndexView.INDEX_NAME index)
                                      (IndexView.index_name index)) "N/A");
    Txt columns;
    Txt type ].

Definition displayIndexes (indexes : list IndexView.t) : list printed :=
  let head := [t i18n "visualization.table.table" [];
               t i18n "visualization.table.indexName" [];
               t i18n "visualization.table.columns" [];
               t i18n "visualization.table.type" []] in
  let table :=
    if (0 <? length indexes) then map index_row indexes
    else [[Txt (t i18n "visualization.noData.indexes" []); Txt "-"; Txt "-"; Txt "-"]] in
  [Header (t i18n "visualization.headers.indexes" []); Grid head table].
End Display.

(** The objects of the two analyzers as the visualizer sees them: a row
    of MySQL's EXPLAIN has the properties read for the plan, and neither
    [Plans] nor [children]; the explain result of PostgreSQL has [Plan]
    and none of the properties read.  The metadata rows of both engines
    carry lower-case names; PostgreSQL's have no size under the names
    tried, no column name and no uniqueness flag. *)
Definition of_mysql_row (row : MySQLAnalyzer.ExplainRow.t) : Node.t :=
  {| Node.select_type := MySQLAnalyzer.ExplainRow.select_type row;
     Node.rows := MySQLAnalyzer.ExplainRow.rows row;
     Node.table := MySQLAnalyzer.ExplainRow.table row;
     Node.type := MySQLAnalyzer.ExplainRow.type row;
     Node.possible_keys := MySQLAnalyzer.ExplainRow.possible_keys row;
     Node.key := MySQLAnalyzer.ExplainRow.key row;
     Node.Extra := MySQLAnalyzer.ExplainRow.Extra row;
     Node.Plans := None;
     Node.children := None |}.

Definition of_postgre_result (explainResult : PostgreAnalyzer.ExplainResult) : Node.t :=
  {| Node.select_type := None; Node.rows := None; Node.table := None;
     Node.type := None; Node.possible_keys := None; Node.key := None;
     Node.Extra := None; Node.Plans := None; Node.children := None |}.

Definition of_mysql_stat (stat : MySQLAnalyzer.TableStat.t) : StatView.t :=
  {| StatView.TABLE_NAME := None;
     StatView.table_name := MySQLAnalyzer.TableStat.table_name stat;
     StatView.TABLE_ROWS := None;
     StatView.table_rows := Num <$> MySQLAnalyzer.TableStat.table_rows stat;
     StatView.DATA_LENGTH := None;
     StatView.data_length := MySQLAnalyzer.TableStat.data_length stat;
     StatView.INDEX_LENGTH := None;
     StatView.index_length := MySQLAnalyzer.TableStat.index_length stat |}.

Definition of_postgre_stat (stat : PostgreAnalyzer.TableStat.t) : StatView.t :=
  {| StatView.TABLE_NAME := None;
     StatView.table_name := Some (PostgreAnalyzer.TableStat.table_name stat);
     StatView.TABLE_ROWS := None;
     StatView.table_rows := Some (Txt (PostgreAnalyzer.TableStat.table_rows stat));
     StatView.DATA_LENGTH := None;
     StatView.data_length := None;
     StatView.INDEX_LENGTH := None;
     StatView.index_length := None |}.

Definition of_mysql_index (index : MySQLAnalyzer.IndexInfo.t) : IndexView.t :=
  {| IndexView.TABLE_NAME := None;
     IndexView.table_name := MySQLAnalyzer.IndexInfo.table_name index;
     IndexView.INDEX_NAME := None;
     IndexView.index_name := MySQLAnalyzer.IndexInfo.index_name index;
     IndexView.COLUMN_NAME := None;
     IndexView.column_name := MySQLAnalyzer.IndexInfo.column_name index;
     IndexView.NON_UNIQUE := None;
     IndexView.non_unique := MySQLAnalyzer.IndexInfo.non_unique index |}.

Definition of_postgre_index (index : PostgreAnalyzer.IndexInfo.t) : IndexView.t :=
  {| IndexView.TABLE_NAME := None;
     IndexView.table_name := Some (PostgreAnalyzer.IndexInfo.table_name index);
     IndexView.INDEX_NAME := None;
     IndexView.index_name := Some (PostgreAnalyzer.IndexInfo.index_name index);
     IndexView.COLUMN_NAME := None;
     IndexView.column_name := None;
     IndexView.NON_UNIQUE := None;
     IndexView.non_unique := None |}.

(** The nodes [formatExecutionPlan] visits, with their levels: depth
    first, a node before its children, through [Plans] where the node has
    it and through [children] otherwise. *)
Fixpoint walk (node : Node.t) (level : nat) : list (Node.t * nat) :=
  let each :=
    flat_map (fun child =>
                match child with
                | Some child => walk child (level + 1)
                | None => []
                end) in
  (node, level) ::
  match Node.Plans node with
  | Some plans => each plans
  | None =>
      match Node.children node with
      | Some children => each children
      | None => []
      end
  end.

(** The array a node is looped over, and the loop body and the visits of
    one child. *)
Definition loop_over (node : Node.t) : list (option Node.t) :=
  match Node.Plans node with
  | Some plans => plans
  | None => match Node.children node with
            | Some children => children
            | None => []
            end
  end.

Definition holds_below (P : Node.t -> Prop) (child : option Node.t) : Prop :=
  match child with
  | Some child => P child
  | None => True
  end.

Definition format_child (level : nat) (child : option Node.t) : Table unit :=
  match child with
  | Some child => formatNode child (level + 1)
  | None => ret tt
  end.

Definition walk_child (level : nat) (child : option Node.t) : list (Node.t * nat) :=
  match child with
  | Some child => walk child (level + 1)
  | None => []
  end.

End TerminalVisualizer.

(** ** bin/db-analyzer.js

    [testConnection]: the connection test that lists the databases.  The
    driver is outside the program: a [server] fixes how each of its calls
    turns out.  The errors met here carry a [code] next to their
    message. *)

Module Cli.

Module Failure.
Record t := {
  code : option string;
  message : string
}.
End Failure.

(** [new Error(message)] *)
Definition new_Error (message : string) : Failure.t :=
  {| Failure.code := None; Failure.message := message |}.

(** What the function does that can be seen from outside, in order. *)
Inductive action :=
| SpinnerStart (text : string)
| SpinnerSucceed (text : string)
| SpinnerFail (text : string)
| LoggedError (label detail : string)
| LoggedInfo (text : string)
| Created (driver host : string)
| Connected (ok : bool)
| Queried (sql : string) (ok : bool)
| Ended (ok : bool).

(** Whether the variable [connection] holds a connection, how often
    [end] was called on it, and the actions so far. *)
Record session := {
  connection : bool;
  ends : nat;
  actions : list action
}.

Inductive result (A : Type) := Done (a : A) | Failed (error : Failure.t).
Arguments Done {A} a.
Arguments Failed {A} error.

Definition Cmd (A : Type) : Type := session -> result A * session.

Definition done {A} (a : A) : Cmd A := fun s => (Done a, s).

Definition fail {A} (error : Failure.t) : Cmd A := fun s => (Failed error, s).

Definition andThen {A B} (m : Cmd A) (k : A -> Cmd B) : Cmd B :=
  fun s =>
    match m s with
    | (Done a, s') => k a s'
    | (Failed error, s') => (Failed error, s')
    end.

(** [try { m } catch (error) { h error }] *)
Definition catch {A} (m : Cmd A) (h : Failure.t -> Cmd A) : Cmd A :=
  fun s =>
    match m s with
    | (Done a, s') => (Done a, s')
    | (Failed error, s') => h error s'
    end.

(** [try { m } finally { f }]: a [finally] block that throws replaces the
    outcome of the [try] statement. *)
Definition finally {A} (m : Cmd A) (f : Cmd unit) : Cmd A :=
  fun s =>
    match m s with
    | (r, s') =>
        match f s' with
        | (Done _, s'') => (r, s'')
        | (Failed error, s'') => (Failed error, s'')
        end
    end.

Declare Scope cli_scope.
Delimit Scope cli_scope with cli.
Notation "x <~ m ;;; k" := (andThen m (fun x => k))
  (at level 100, m at next level, right associativity) : cli_scope.
Notation "m ;;; k" := (andThen m (fun _ => k))
  (at level 100, right associativity) : cli_scope.
Open Scope cli_scope.

Definition act (a : action) : Cmd unit :=
  fun s => (Done tt, {| connection := connection s; ends := ends s;
                        actions := actions s ++ [a] |}).

(** [let connection;] and [connection = ...] with a new connection *)
Definition declare_connection : Cmd unit :=
  fun s => (Done tt, {| connection := false; ends := 0; actions := actions s |}).

Definition assign_connection : Cmd unit :=
  fun s => (Done tt, {| connection := true; ends := 0; actions := actions s |}).

Definition each {A} (callback : A -> Cmd unit) : list A -> Cmd unit :=
  fix loop (l : list A) : Cmd unit :=
    match l with
    | [] => done tt
    | x :: rest => callback x ;;; loop rest
    end.

(** How the calls of the driver turn out: [createConnection] of mysql2
    (the constructor of a pg pool does not connect), [connect], the one
    query, and [end], which may be called more than once and answers by
    the number of calls before. *)
Record server := {
  createConnection : result unit;
  connect : result unit;
  query : result (list string);
  end_ : nat -> result unit
}.

Definition is_Ended (a : action) : bool :=
  match a with Ended _ => true | _ => false end.

(** How often [end] was called. *)
Definition ended (l : list action) : nat := length (List.filter is_Ended l).

(** The answers [testConnection] gets as [config]. *)
Record answers := {
  host : string;
  port : string;
  username : string;
  password : string
}.

Section Commands.
Variable i18n : I18n.

(** [i18n.t] on the two keys that hold an array of hints. *)
Variable solutions : string -> list string.

Variable srv : server.

(** [await connection.connect()] *)
Definition call_connect : Cmd unit :=
  match connect srv with
  | Done _ => act (Connected true)
  | Failed error => act (Connected false) ;;; fail error
  end.

(** [await connection.query(sql)] *)
Definition call_query (sql : string) : Cmd (list string) :=
  match query srv with
  | Done rows => act (Queried sql true) ;;; done rows
  | Failed error => act (Queried sql false) ;;; fail error
  end.

(** [await connection.end()] *)
Definition call_end : Cmd unit :=
  fun s =>
    let s' := {| connection := connection s; ends := ends s + 1; actions := actions s |} in
    match end_ srv (ends s) with
    | Done _ => act (Ended true) s'
    | Failed error => (act (Ended false) ;;; fail error) s'
    end.

Definition hostToUse (config : answers) : string :=
  if String.eqb (host config) "localhost" then "127.0.0.1" else host config.

Definition systemDatabases : list string :=
  ["information_schema"; "mysql"; "performance_schema"; "sys"].

(** The text of the query, on one line. *)
Definition listDatabasesQuery : string :=
  "SELECT datname FROM pg_database WHERE datistemplate = false AND datname NOT IN ('postgres', 'template0', 'template1')".

Definition testConnection (type : string) (config : answers)
    : Cmd (option (list string)) :=
  declare_connection ;;;
  act (SpinnerStart (t i18n "connection.testing" [])) ;;;
  finally
    (catch
       (let hostToUse := hostToUse config in
        if String.eqb type "MySQL" then
          (match createConnection srv with
           | Done _ => act (Created "mysql" hostToUse) ;;; assign_connection
           | Failed error => fail error
           end) ;;;
          call_connect ;;;
          databases <~ call_query "SHOW DATABASES" ;;;
          let dbList :=
            List.filter (fun db => negb (existsb (String.eqb db) systemDatabases))
                        databases in
          call_end ;;;
          act (SpinnerSucceed (t i18n "connection.success.mysql" [])) ;;;
          done (Some dbList)
        else if String.eqb type "PostgreSQL" then
          act (Created "pg" hostToUse) ;;; assign_connection ;;;
          call_connect ;;;
          result <~ call_query listDatabasesQuery ;;;
          let dbList := result in
          call_end ;;;
          act (SpinnerSucceed (t i18n "connection.success.postgresql" [])) ;;;
          done (Some dbList)
        else done None)
       (fun error =>
          act (SpinnerFail (t i18n "connection.failed" [] +:+ Failure.message error)) ;;;
          act (LoggedError "Detailed error:" (Failure.message error)) ;;;
          (if JS.is_literal (Failure.code error) "ECONNREFUSED" then
             act (LoggedInfo (String "010"%char
                                (t i18n "errors.connection.solutions.title" []))) ;;;
             each (fun solution => act (LoggedInfo solution))
                  (solutions "errors.connection.solutions.mysql")
           else if JS.includes (Failure.message error) "ER_ACCESS_DENIED_ERROR"
                   || JS.includes (Failure.message error) "password authentication failed"
           then
             act (LoggedInfo (String "010"%char
                                (t i18n "errors.connection.solutions.title" []))) ;;;
             each (fun solution => act (LoggedInfo solution))
                  (solutions "errors.connection.solutions.auth")
           else done tt) ;;;
          fail (new_Error (t i18n "connection.failed" [] +:+ Failure.message error))))
    (fun s => if connection s then call_end s else done tt s).

End Commands.

(** What the [catch] block logs for an error: the failure, and the hints
    that go with it. *)
Definition hints (i18n : I18n) (solutions : string -> list string) (error : Failure.t)
    : list action :=
  if JS.is_literal (Failure.code error) "ECONNREFUSED"
  then LoggedInfo (String "010"%char (t i18n "errors.connection.solutions.title" []))
       :: map LoggedInfo (solutions "errors.connection.solutions.mysql")
  else if JS.includes (Failure.message error) "ER_ACCESS_DENIED_ERROR"
          || JS.includes (Failure.message error) "password authentication failed"
  then LoggedInfo (String "010"%char (t i18n "errors.connection.solutions.title" []))
       :: map LoggedInfo (solutions "errors.connection.solutions.auth")
  else [].

Definition reported (i18n : I18n) (solutions : string -> list string) (error : Failure.t)
    : list action :=
  [SpinnerFail (t i18n "connection.failed" [] +:+ Failure.message error);
   LoggedError "Detailed error:" (Failure.message error)]
  ++ hints i18n solutions error.

Definition wrapped (i18n : I18n) (error : Failure.t) : Failure.t :=
  new_Error (t i18n "connection.failed" [] +:+ Failure.message error).


(** The [finally] block on a connection that was assigned: the call of
    [end] number [n], whose failure replaces the outcome [r]. *)
Definition closing {A} (srv : server) (n : nat) (r : result A) (done_so_far : list action)
    : result A * session :=
  match end_ srv n with
  | Done _ =>
      (r, {| connection := true; ends := n + 1;
             actions := done_so_far ++ [Ended true] |})
  | Failed error =>
      (Failed error, {| connection := true; ends := n + 1;
                        actions := done_so_far ++ [Ended false] |})
  end.

(** What happens once the connection object is there, by the way
    [connect], the query and the first [end] turn out. *)
Definition connected_run (i18n : I18n) (solutions : string -> list string) (srv : server)
    (sql success : string) (keep : list string -> list string) (start : list action)
    : result (option (list string)) * session :=
  match connect srv with
  | Failed error =>
      closing srv 0 (Failed (wrapped i18n error))
        (start ++ [Connected false] ++ reported i18n solutions error)
  | Done _ =>
      match query srv with
      | Failed error =>
          closing srv 0 (Failed (wrapped i18n error))
            (start ++ [Connected true; Queried sql false] ++ reported i18n solutions error)
      | Done rows =>
          match end_ srv 0 with
          | Failed error =>
              closing srv 1 (Failed (wrapped i18n error))
                (start ++ [Connected true; Queried sql true; Ended false]
                 ++ reported i18n solutions error)
          | Done _ =>
              closing srv 1 (Done (Some (keep rows)))
                (start ++ [Connected true; Queried sql true; Ended true;
                           SpinnerSucceed success])
          end
      end
  end.

Close Scope cli_scope.
End Cli.

(** ** lib/i18n/translations.js

    The table of translations and the class [I18n] that reads it.  An
    entry of the table is a text, an arrow function of one parameter
    whose body is a template literal with the parameter in one place
    (kept as the text before and the text after the place), an array of
    texts, or an object. *)

Module Translations.

Inductive entry :=
| Leaf (text : string)
| Arrow (before after : string)
| Items (texts : list string)
| Group (fields : list (string * entry)).

Definition english : entry :=
  Group
    [
     ("title", Leaf "DB Query Analyzer");
     ("subtitle", Leaf "Analyze and optimize your database queries");
     ("dbSelection", Group
       [
        ("type", Leaf "Select your database type:");
        ("host", Leaf "Enter database host:");
        ("port", Leaf "Enter database port:");
        ("username", Leaf "Enter database username:");
        ("password", Leaf "Enter database password:");
        ("database", Leaf "Select database:");
        ("query", Leaf "Enter your SQL query:") ]);
     ("connection", Group
       [
        ("testing", Leaf "Testing database connection...");
        ("success", Group
          [
           ("mysql", Leaf "Successfully connected to MySQL server!");
           ("postgresql", Leaf "Successfully connected to PostgreSQL server!") ]);
        ("failed", Leaf "Connection failed: ");
        ("noDb", Leaf "No available databases found") ]);
     ("analysis", Group
       [
        ("analyzing", Leaf "Analyzing query...");
        ("complete", Leaf "Analysis complete!") ]);
     ("visualization", Group
       [
        ("headers", Group
          [
           ("query", Leaf "Your SQL Query");
           ("results", Leaf "Query Analysis Results");
           ("plan", Leaf "Execution Plan");
           ("stats", Leaf "Table Statistics");
           ("indexes", Leaf "Existing Indexes");
           ("recommendations", Leaf "Recommendations") ]);
        ("table", Group
          [
           ("operation", Leaf "Operation");
           ("cost", Leaf "Cost");
           ("rows", Leaf "Rows");
           ("details", Leaf "Details");
           ("table", Leaf "Table");
           ("size", Leaf "Size");
           ("indexSize", Leaf "Index Size");
           ("indexName", Leaf "Index Name");
           ("columns", Leaf "Columns");
           ("type", Leaf "Type") ]);
        ("noData", Group
          [
           ("plan", Leaf "No execution plan available");
           ("stats", Leaf "No statistics available");
           ("indexes", Leaf "No indexes found");
           ("recommendations", Leaf "No recommendations available.") ]) ]);
     ("errors", Group
       [
        ("analysis", Leaf "Error during analysis:");
        ("display", Leaf "Error displaying results:");
        ("emptyQuery", Leaf "Query cannot be empty");
        ("connection", Group
          [
           ("solutions", Group
             [
              ("title", Leaf "Possible solutions:");
              ("mysql", Items
                ["1. Make sure MySQL server is running";
                 "2. Verify the port number (default is 3306)";
                 "3. Check if MySQL is accepting connections from your IP";
                 "4. Try the following command to check MySQL status:";
                 "   sudo service mysql status   (Linux)";
                 "   brew services list          (MacOS)"]);
              ("auth", Items
                ["1. Check if the username and password are correct";
                 "2. Verify that the user has proper privileges";
                 "3. Try using mysql_native_password authentication:";
                 "   ALTER USER 'username'@'hostname' IDENTIFIED WITH mysql_native_password BY 'password';"]) ]) ]) ]);
     ("analyzer", Group
       [
        ("errors", Group
          [
           ("recommendations", Leaf "Error generating recommendations: ") ]);
        ("recommendations", Group
          [
           ("tableScan", Group
             [
              ("message", Arrow "Full table scan detected on table " "");
              ("suggestion", Leaf "Consider adding appropriate indexes");
              ("impact", Leaf "Full table scans can significantly impact query performance");
              ("implementation", Group
                [
                 ("review", Leaf "Review WHERE clause conditions");
                 ("addIndexes", Leaf "Add indexes on frequently filtered columns");
                 ("coveringIndexes", Leaf "Consider creating covering indexes") ]) ]);
           ("accessType", Group
             [
              ("message", Arrow "Suboptimal access type '" "' detected");
              ("suggestion", Leaf "Improve table access method");
              ("impact", Leaf "Current access method may result in poor performance");
              ("implementation", Group
                [
                 ("review", Leaf "Review query conditions and table structure");
                 ("indexCoverage", Leaf "Ensure proper index coverage");
                 ("restructure", Leaf "Consider restructuring the query") ]) ]);
           ("joinOptimization", Group
             [
              ("message", Leaf "Inefficient join operation detected");
              ("suggestion", Leaf "Optimize join operations");
              ("impact", Leaf "Current join strategy may cause performance issues");
              ("implementation", Group
                [
                 ("addIndexes", Leaf "Add indexes on join columns");
                 ("reviewConditions", Leaf "Review join conditions");
                 ("denormalization", Leaf "Consider selective denormalization") ]) ]);
           ("joinBuffer", Group
             [
              ("message", Leaf "Join buffer being used for table join");
              ("suggestion", Leaf "Optimize join buffer usage");
              ("impact", Leaf "Join buffer usage may indicate missing or inefficient indexes");
              ("implementation", Group
                [
                 ("addIndexes", Leaf "Add appropriate indexes on join columns");
                 ("reviewOrder", Leaf "Review join order");
                 ("bufferSize", Leaf "Adjust join buffer size if necessary") ]) ]);
           ("tempTable", Group
             [
              ("message", Leaf "Temporary table created for query execution");
              ("suggestion", Leaf "Minimize temporary table usage");
              ("impact", Leaf "Temporary tables can consume memory and slow query execution");
              ("implementation", Group
                [
                 ("review", Leaf "Review query structure");
                 ("addIndexes", Leaf "Add appropriate indexes");
                 ("restructure", Leaf "Consider query restructuring") ]) ]);
           ("fileSort", Group
             [
              ("message", Leaf "Filesort operation detected");
              ("suggestion", Leaf "Optimize sorting operations");
              ("impact", Leaf "Filesort operations can be resource-intensive");
              ("implementation", Group
                [
                 ("addIndexes", Leaf "Add indexes matching sort order");
                 ("bufferSize", Leaf "Adjust sort buffer size");
                 ("limitResults", Leaf "Consider limiting result set") ]) ]);
           ("unusedIndexes", Group
             [
              ("message", Leaf "Potential indexes not being used");
              ("suggestion", Leaf "Review index usage");
              ("impact", Leaf "Unused indexes add overhead without benefits");
              ("implementation", Group
                [
                 ("analyze", Leaf "Analyze index usage patterns");
                 ("review", Leaf "Review and remove unused indexes");
                 ("forceIndex", Leaf "Consider force index hint if needed") ]) ]);
           ("partialIndex", Group
             [
              ("message", Leaf "Partial index usage detected");
              ("suggestion", Leaf "Optimize index coverage");
              ("impact", Leaf "Partial index usage may not provide optimal performance");
              ("implementation", Group
                [
                 ("review", Leaf "Review index structure");
                 ("covering", Leaf "Consider creating covering indexes");
                 ("analyze", Leaf "Analyze query patterns") ]) ]);
           ("dependentSubquery", Group
             [
              ("message", Leaf "Dependent subquery detected");
              ("suggestion", Leaf "Optimize or eliminate dependent subquery");
              ("impact",
               Leaf "Dependent subqueries execute once for each outer row, potentially causing performance issues");
              ("implementation", Group
                [
                 ("join", Leaf "Consider replacing with JOIN");
                 ("rewrite", Leaf "Rewrite as uncorrelated subquery");
                 ("indexes", Leaf "Add indexes to support subquery execution") ]) ]);
           ("subquery", Group
             [
              ("message", Leaf "Uncorrelated subquery detected");
              ("suggestion", Leaf "Review and optimize subquery implementation");
              ("impact", Leaf "Subquery execution might not be using optimal execution plan");
              ("implementation", Group
                [
                 ("join", Leaf "Consider replacing with JOIN");
                 ("rewrite", Leaf "Rewrite using derived tables");
                 ("indexes", Leaf "Ensure proper indexing for subquery");
                 ("limit", Leaf "Consider adding LIMIT if applicable") ]) ]);
           ("groupBy", Group
             [
              ("message", Leaf "Inefficient GROUP BY operation detected");
              ("suggestion", Leaf "Optimize grouping operations");
              ("impact",
               Leaf "Unoptimized GROUP BY operations can create temporary tables and require filesorts");
              ("implementation", Group
                [
                 ("index", Leaf "Add indexes on grouped columns");
                 ("composite", Leaf "Consider composite indexes for group and filter columns");
                 ("review", Leaf "Review grouping criteria necessity") ]) ]);
           ("looseIndexScan", Group
             [
              ("message", Leaf "Potential for loose index scan optimization");
              ("suggestion", Leaf "Consider rewriting query to use loose index scan");
              ("impact", Leaf "Query could benefit from loose index scan optimization");
              ("implementation", Group
                [
                 ("rewrite", Leaf "Rewrite query to enable loose index scan");
                 ("index", Leaf "Ensure proper index structure");
                 ("min_max", Leaf "Use MIN/MAX optimizations where applicable") ]) ]);
           ("largeSort", Group
             [
              ("message", Arrow "Large sort operation detected (" " rows)");
              ("suggestion", Leaf "Optimize sorting for large result sets");
              ("impact",
               Leaf "Sorting large result sets can consume significant memory and CPU resources");
              ("implementation", Group
                [
                 ("indexSort", Leaf "Create indexes matching the sort columns");
                 ("limit", Leaf "Consider limiting the result set size");
                 ("buffer", Leaf "Adjust sort buffer size if necessary") ]) ]);
           ("largeTableScan", Group
             [
              ("message", Arrow "Large table scan detected (" " rows)");
              ("suggestion", Leaf "Optimize access pattern for large tables");
              ("impact", Leaf "Scanning large tables can severely impact performance");
              ("implementation", Group
                [
                 ("addIndexes", Leaf "Add appropriate indexes");
                 ("partition", Leaf "Consider table partitioning");
                 ("optimize", Leaf "Optimize table statistics") ]) ]);
           ("highIndexRatio", Group
             [
              ("message", Leaf "High index to data ratio detected");
              ("suggestion", Leaf "Review index strategy");
              ("impact", Leaf "Excessive indexes can impact write performance");
              ("implementation", Group
                [
                 ("review", Leaf "Review existing indexes");
                 ("remove", Leaf "Remove redundant indexes");
                 ("covering", Leaf "Optimize covering indexes") ]) ]);
           ("whereClause", Group
             [
              ("message", Leaf "Inefficient WHERE clause processing");
              ("suggestion", Leaf "Optimize WHERE clause execution");
              ("impact", Leaf "Inefficient WHERE clauses can slow query execution");
              ("implementation", Group
                [
                 ("review", Leaf "Review WHERE conditions");
                 ("addIndexes", Leaf "Add selective indexes");
                 ("restructure", Leaf "Consider query restructuring") ]) ]);
           ("distinct", Group
             [
              ("message", Leaf "Inefficient DISTINCT operation detected");
              ("suggestion", Leaf "Optimize DISTINCT processing");
              ("impact", Leaf "DISTINCT operations may create temporary tables");
              ("implementation", Group
                [
                 ("groupBy", Leaf "Consider using GROUP BY");
                 ("covering", Leaf "Use covering indexes");
                 ("review", Leaf "Review necessity of DISTINCT") ]) ]);
           ("partitioning", Group
             [
              ("message", Leaf "Suboptimal partition pruning detected");
              ("suggestion", Leaf "Optimize partition strategy");
              ("impact", Leaf "Poor partition pruning can impact performance");
              ("implementation", Group
                [
                 ("review", Leaf "Review partitioning scheme");
                 ("ensure", Leaf "Ensure partition key usage in queries");
                 ("consider", Leaf "Consider alternative partitioning strategies") ]) ]) ]) ]) ].

Definition indonesian : entry :=
  Group
    [
     ("title", Leaf "DB Query Analyzer");
     ("subtitle", Leaf "Analisis dan optimalkan query database Anda");
     ("dbSelection", Group
       [
        ("type", Leaf "Pilih tipe database:");
        ("host", Leaf "Masukkan host database:");
        ("port", Leaf "Masukkan port database:");
        ("username", Leaf "Masukkan username database:");
        ("password", Leaf "Masukkan password database:");
        ("database", Leaf "Pilih database:");
        ("query", Leaf "Masukkan query SQL Anda:") ]);
     ("connection", Group
       [
        ("testing", Leaf "Menguji koneksi database...");
        ("success", Group
          [
           ("mysql", Leaf "Berhasil terhubung ke server MySQL!");
           ("postgresql", Leaf "Berhasil terhubung ke server PostgreSQL!") ]);
        ("failed", Leaf "Koneksi gagal: ");
        ("noDb", Leaf "Tidak ada database yang tersedia") ]);
     ("analysis", Group
       [
        ("analyzing", Leaf "Menganalisis query...");
        ("complete", Leaf "Analisis selesai!") ]);
     ("visualization", Group
       [
        ("headers", Group
          [
           ("query", Leaf "Query SQL Anda");
           ("results", Leaf "Hasil Analisis Query");
           ("plan", Leaf "Rencana Eksekusi");
           ("stats", Leaf "Statistik Tabel");
           ("indexes", Leaf "Index Yang Ada");
           ("recommendations", Leaf "Rekomendasi") ]);
        ("table", Group
          [
           ("operation", Leaf "Operasi");
           ("cost", Leaf "Biaya");
           ("rows", Leaf "Baris");
           ("details", Leaf "Detail");
           ("table", Leaf "Tabel");
           ("size", Leaf "Ukuran");
           ("indexSize", Leaf "Ukuran Index");
           ("indexName", Leaf "Nama Index");
           ("columns", Leaf "Kolom");
           ("type", Leaf "Tipe") ]);
        ("noData", Group
          [
           ("plan", Leaf "Tidak ada rencana eksekusi tersedia");
           ("stats", Leaf "Tidak ada statistik tersedia");
           ("indexes", Leaf "Tidak ada index ditemukan");
           ("recommendations", Leaf "Tidak ada rekomendasi tersedia.") ]) ]);
     ("errors", Group
       [
        ("analysis", Leaf "Error selama analisis:");
        ("display", Leaf "Error menampilkan hasil:");
        ("emptyQuery", Leaf "Query tidak boleh kosong");
        ("connection", Group
          [
           ("solutions", Group
             [
              ("title", Leaf "Solusi yang mungkin:");
              ("mysql", Items
                ["1. Pastikan server MySQL berjalan";
                 "2. Verifikasi nomor port (default adalah 3306)";
                 "3. Periksa apakah MySQL menerima koneksi dari IP Anda";
                 "4. Coba perintah bFull table scan terdeteksi pada tabelerikut untuk memeriksa status MySQL:";
                 "   sudo service mysql status   (Linux)";
                 "   brew services list          (MacOS)"]);
              ("auth", Items
                ["1. Periksa apakah username dan password sudah benar";
                 "2. Verifikasi bahwa pengguna memiliki hak akses yang sesuai";
                 "3. Coba gunakan autentikasi mysql_native_password:";
                 "   ALTER USER 'username'@'hostname' IDENTIFIED WITH mysql_native_password BY 'password';"]) ]) ]) ]);
     ("analyzer", Group
       [
        ("errors", Group
          [
           ("recommendations", Leaf "Error menghasilkan rekomendasi: ") ]);
        ("recommendations", Group
          [
           ("tableScan", Group
             [
              ("message", Arrow "Full table scan terdeteksi pada tabel " "");
              ("suggestion", Leaf "Pertimbangkan untuk menambahkan indeks yang sesuai");
              ("impact", Leaf "Full table scan dapat berdampak signifikan pada kinerja query");
              ("implementation", Group
                [
                 ("review", Leaf "Tinjau kondisi klausa WHERE");
                 ("addIndexes", Leaf "Tambahkan indeks pada kolom yang sering difilter");
                 ("coveringIndexes", Leaf "Pertimbangkan membuat covering indexes") ]) ]);
           ("accessType", Group
             [
              ("message", Arrow "Tipe akses suboptimal '" "' terdeteksi");
              ("suggestion", Leaf "Tingkatkan metode akses tabel");
              ("impact", Leaf "Metode akses saat ini dapat mengakibatkan kinerja buruk");
              ("implementation", Group
                [
                 ("review", Leaf "Tinjau kondisi query dan struktur tabel");
                 ("indexCoverage", Leaf "Pastikan cakupan indeks yang tepat");
                 ("restructure", Leaf "Pertimbangkan restrukturisasi query") ]) ]);
           ("joinOptimization", Group
             [
              ("message", Leaf "Operasi join tidak efisien terdeteksi");
              ("suggestion", Leaf "Optimalkan operasi join");
              ("impact", Leaf "Strategi join saat ini dapat menyebabkan masalah kinerja");
              ("implementation", Group
                [
                 ("addIndexes", Leaf "Tambahkan indeks pada kolom join");
                 ("reviewConditions", Leaf "Tinjau kondisi join");
                 ("denormalization", Leaf "Pertimbangkan denormalisasi selektif") ]) ]);
           ("joinBuffer", Group
             [
              ("message", Leaf "Buffer join digunakan untuk join tabel");
              ("suggestion", Leaf "Optimalkan penggunaan buffer join");
              ("impact",
               Leaf "Penggunaan buffer join dapat menunjukkan indeks yang hilang atau tidak efisien");
              ("implementation", Group
                [
                 ("addIndexes", Leaf "Tambahkan indeks yang sesuai pada kolom join");
                 ("reviewOrder", Leaf "Tinjau urutan join");
                 ("bufferSize", Leaf "Sesuaikan ukuran buffer join jika perlu") ]) ]);
           ("tempTable", Group
             [
              ("message", Leaf "Tabel temporary dibuat untuk eksekusi query");
              ("suggestion", Leaf "Minimalkan penggunaan tabel temporary");
              ("impact",
               Leaf "Tabel temporary dapat mengonsumsi memori dan memperlambat eksekusi query");
              ("implementation", Group
                [
                 ("review", Leaf "Tinjau struktur query");
                 ("addIndexes", Leaf "Tambahkan indeks yang sesuai");
                 ("restructure", Leaf "Pertimbangkan restrukturisasi query") ]) ]);
           ("fileSort", Group
             [
              ("message", Leaf "Operasi filesort terdeteksi");
              ("suggestion", Leaf "Optimalkan operasi pengurutan");
              ("impact", Leaf "Operasi filesort dapat mengonsumsi banyak sumber daya");
              ("implementation", Group
                [
                 ("addIndexes", Leaf "Tambahkan indeks sesuai urutan pengurutan");
                 ("bufferSize", Leaf "Sesuaikan ukuran buffer pengurutan");
                 ("limitResults", Leaf "Pertimbangkan pembatasan hasil") ]) ]);
           ("unusedIndexes", Group
             [
              ("message", Leaf "Indeks potensial tidak digunakan");
              ("suggestion", Leaf "Tinjau penggunaan indeks");
              ("impact", Leaf "Indeks yang tidak digunakan menambah beban tanpa manfaat");
              ("implementation", Group
                [
                 ("analyze", Leaf "Analisis pola penggunaan indeks");
                 ("review", Leaf "Tinjau dan hapus indeks yang tidak digunakan");
                 ("forceIndex", Leaf "Pertimbangkan penggunaan force index jika diperlukan") ]) ]);
           ("partialIndex", Group
             [
              ("message", Leaf "Penggunaan indeks parsial terdeteksi");
              ("suggestion", Leaf "Optimalkan cakupan indeks");
              ("impact",
               Leaf "Penggunaan indeks parsial mungkin tidak memberikan kinerja optimal");
              ("implementation", Group
                [
                 ("review", Leaf "Tinjau struktur indeks");
                 ("covering", Leaf "Pertimbangkan pembuatan covering indexes");
                 ("analyze", Leaf "Analisis pola query") ]) ]);
           ("largeSort", Group
             [
              ("message", Arrow "Operasi pengurutan besar terdeteksi (" " baris)");
              ("suggestion", Leaf "Optimalkan pengurutan untuk hasil yang besar");
              ("impact",
               Leaf "Mengurutkan hasil yang besar dapat mengonsumsi banyak memori dan CPU");
              ("implementation", Group
                [
                 ("indexSort", Leaf "Buat indeks yang sesuai dengan kolom pengurutan");
                 ("limit", Leaf "Pertimbangkan untuk membatasi ukuran hasil");
                 ("buffer", Leaf "Sesuaikan ukuran buffer pengurutan jika perlu") ]) ]);
           ("dependentSubquery", Group
             [
              ("message", Leaf "Subquery dependen terdeteksi");
              ("suggestion", Leaf "Optimalkan atau hilangkan subquery dependen");
              ("impact",
               Leaf "Subquery dependen dieksekusi sekali untuk setiap baris luar, berpotensi menyebabkan masalah kinerja");
              ("implementation", Group
                [
                 ("join", Leaf "Pertimbangkan mengganti dengan JOIN");
                 ("rewrite", Leaf "Tulis ulang sebagai subquery tidak berkorelasi");
                 ("indexes", Leaf "Tambahkan indeks untuk mendukung eksekusi subquery") ]) ]);
           ("subquery", Group
             [
              ("message", Leaf "Subquery tidak berkorelasi terdeteksi");
              ("suggestion", Leaf "Tinjau dan optimalkan implementasi subquery");
              ("impact",
               Leaf "Eksekusi subquery mungkin tidak menggunakan rencana eksekusi optimal");
              ("implementation", Group
                [
                 ("join", Leaf "Pertimbangkan mengganti dengan JOIN");
                 ("rewrite", Leaf "Tulis ulang menggunakan derived tables");
                 ("indexes", Leaf "Pastikan pengindeksan yang tepat untuk subquery");
                 ("limit", Leaf "Pertimbangkan menambahkan LIMIT jika memungkinkan") ]) ]);
           ("groupBy", Group
             [
              ("message", Leaf "Operasi GROUP BY tidak efisien terdeteksi");
              ("suggestion", Leaf "Optimalkan operasi pengelompokan");
              ("impact",
               Leaf "Operasi GROUP BY yang tidak optimal dapat membuat tabel temporary dan memerlukan filesort");
              ("implementation", Group
                [
                 ("index", Leaf "Tambahkan indeks pada kolom yang dikelompokkan");
                 ("composite", Leaf "Pertimbangkan indeks komposit untuk kolom group dan filter");
                 ("review", Leaf "Tinjau kebutuhan kriteria pengelompokan") ]) ]);
           ("looseIndexScan", Group
             [
              ("message", Leaf "Potensi untuk optimasi loose index scan");
              ("suggestion",
               Leaf "Pertimbangkan menulis ulang query untuk menggunakan loose index scan");
              ("impact", Leaf "Query bisa mendapat manfaat dari optimasi loose index scan");
              ("implementation", Group
                [
                 ("rewrite", Leaf "Tulis ulang query untuk mengaktifkan loose index scan");
                 ("index", Leaf "Pastikan struktur indeks yang tepat");
                 ("min_max", Leaf "Gunakan optimasi MIN/MAX jika memungkinkan") ]) ]);
           ("largeTableScan", Group
             [
              ("message", Arrow "Pemindaian tabel besar terdeteksi (" " baris)");
              ("suggestion", Leaf "Optimalkan pola akses untuk tabel besar");
              ("impact", Leaf "Memindai tabel besar dapat sangat mempengaruhi kinerja");
              ("implementation", Group
                [
                 ("addIndexes", Leaf "Tambahkan indeks yang sesuai");
                 ("partition", Leaf "Pertimbangkan partisi tabel");
                 ("optimize", Leaf "Optimalkan statistik tabel") ]) ]);
           ("highIndexRatio", Group
             [
              ("message", Leaf "Rasio indeks ke data yang tinggi terdeteksi");
              ("suggestion", Leaf "Tinjau strategi pengindeksan");
              ("impact", Leaf "Indeks berlebihan dapat mempengaruhi kinerja penulisan");
              ("implementation", Group
                [
                 ("review", Leaf "Tinjau indeks yang ada");
                 ("remove", Leaf "Hapus indeks yang redundan");
                 ("covering", Leaf "Optimalkan covering indexes") ]) ]);
           ("whereClause", Group
             [
              ("message", Leaf "Pemrosesan klausa WHERE tidak efisien");
              ("suggestion", Leaf "Optimalkan eksekusi klausa WHERE");
              ("impact", Leaf "Klausa WHERE yang tidak efisien dapat memperlambat eksekusi query");
              ("implementation", Group
                [
                 ("review", Leaf "Tinjau kondisi WHERE");
                 ("addIndexes", Leaf "Tambahkan indeks selektif");
                 ("restructure", Leaf "Pertimbangkan restrukturisasi query") ]) ]);
           ("distinct", Group
             [
              ("message", Leaf "Operasi DISTINCT tidak efisien terdeteksi");
              ("suggestion", Leaf "Optimalkan pemrosesan DISTINCT");
              ("impact", Leaf "Operasi DISTINCT dapat membuat tabel temporary");
              ("implementation", Group
                [
                 ("groupBy", Leaf "Pertimbangkan penggunaan GROUP BY");
                 ("covering", Leaf "Gunakan covering indexes");
                 ("review", Leaf "Tinjau kebutuhan DISTINCT") ]) ]);
           ("partitioning", Group
             [
              ("message", Leaf "Pemangkasan partisi suboptimal terdeteksi");
              ("suggestion", Leaf "Optimalkan strategi partisi");
              ("impact", Leaf "Pemangkasan partisi yang buruk dapat mempengaruhi kinerja");
              ("implementation", Group
                [
                 ("review", Leaf "Tinjau skema partisi");
                 ("ensure", Leaf "Pastikan penggunaan kunci partisi dalam query");
                 ("consider", Leaf "Pertimbangkan strategi partisi alternatif") ]) ]) ]) ]) ].

Definition translations : entry := Group [("en", english); ("id", indonesian)].

(** The properties every object inherits from [Object.prototype]. *)
Definition inherited : list string :=
  ["constructor"; "__proto__"; "hasOwnProperty"; "isPrototypeOf";
   "propertyIsEnumerable"; "toLocaleString"; "toString"; "valueOf";
   "__defineGetter__"; "__defineSetter__"; "__lookupGetter__"; "__lookupSetter__"].

(** What a property access comes to: a truthy entry of the table, a
    falsy value ([undefined], [null], the empty text), or a value from
    beyond the table, about which the model says nothing: an inherited
    property of an object, or any property of a text, an array or a
    function. *)
Inductive found := Value (e : entry) | Falsy | Beyond.

Definition truthy (e : entry) : bool :=
  match e with
  | Leaf text => negb (String.eqb text "")
  | _ => true
  end.

Fixpoint own (fields : list (string * entry)) (name : string) : option entry :=
  match fields with
  | [] => None
  | (key, e) :: rest => if String.eqb key name then Some e else own rest name
  end.

(** [(p && p[c]) ? p[c] : null] for a truthy [p] *)
Definition property (p : entry) (c : string) : found :=
  match p with
  | Group fields =>
      match own fields c with
      | Some e => if truthy e then Value e else Falsy
      | None => if existsb (String.eqb c) inherited then Beyond else Falsy
      end
  | _ => Beyond
  end.

(** [path.split('.')] *)
Fixpoint split (path : string) : list string :=
  match path with
  | EmptyString => [EmptyString]
  | String c rest =>
      if Ascii.eqb c "."%char then EmptyString :: split rest
      else match split rest with
           | first :: others => String c first :: others
           | [] => [String c EmptyString]
           end
  end.

Definition getNestedValue (obj : found) (path : string) : found :=
  fold_left (fun p c =>
               match p with
               | Value e => property e c
               | Falsy => Falsy
               | Beyond => Beyond
               end)
            (split path) obj.

(** What [t] returns. *)
Inductive answer :=
| Said (text : string)
| Listed (texts : list string)
| Grouped (fields : list (string * entry)).

(** [t(key, params)] with [this.currentLang = lang].  The second argument
    is an object at every call site, and an arrow function of the table
    gets this object for its parameter: the template renders it as
    [[object Object]].  No answer where the lookup leaves the table. *)
Definition t (lang key : string) (params : list (string * param)) : option answer :=
  match getNestedValue (property translations lang) key with
  | Value (Arrow before after) => Some (Said (before +:+ "[object Object]" +:+ after))
  | Value (Leaf text) => Some (Said text)
  | Value (Items texts) => Some (Listed texts)
  | Value (Group fields) => Some (Grouped fields)
  | Falsy => Some (Said key)
  | Beyond => None
  end.

(** [setLanguage(lang)]: the new value of [currentLang], or the error. *)
Definition setLanguage (lang : string) : option (string + JS.exn) :=
  match property translations lang with
  | Value _ => Some (inl lang)
  | Falsy => Some (inr (JS.Error ("Language '" +:+ lang +:+ "' not supported")))
  | Beyond => None
  end.

(** The service handed to the analyzers and the visualizer, which ask
    for texts. *)
Definition service (lang : string) : I18n :=
  Build_I18n (fun key params =>
                match t lang key params with
                | Some (Said text) => text
                | _ => ""
                end).

(** Whether [b] has every key of [a], with an entry of the same kind. *)
Fixpoint covers (a b : entry) : bool :=
  match a, b with
  | Leaf _, Leaf _ | Arrow _ _, Arrow _ _ | Items _, Items _ => true
  | Group fields, Group others =>
      (fix each (l : list (string * entry)) : bool :=
         match l with
         | [] => true
         | (key, e) :: rest =>
             match own others key with
             | Some e' => covers e e'
             | None => false
             end && each rest
         end) fields
  | _, _ => false
  end.

(** Whether [t] finds a text for the key, one that is not the key itself;
    and the keys asked for the texts of a recommendation, which a service
    that answers with the key leaves in their place. *)
Definition translated (lang key : string) : bool :=
  match t lang key [] with
  | Some (Said text) => negb (String.eqb text key)
  | _ => false
  end.

Definition asked (r : Recommendation) : list string :=
  message r :: suggestion r :: impact (details r) :: implementation (details r).
End Translations.

(** * Properties *)

(** ** The comparator and the sort *)

Lemma gt_sub_of_Z (x y : Z) :
  JS.gt (JS.sub (JS.of_Z x) (JS.of_Z y)) (JS.of_Z 0) = bool_decide (y < x)%Z.
Proof.
  unfold JS.of_Z; simpl.
  destruct (Qle_bool (inject_Z x - inject_Z y) (inject_Z 0)) eqn:E; simpl.
  - apply Qle_bool_iff in E. symmetry. apply bool_decide_eq_false.
    unfold Qle, Qminus, Qplus, Qopp, inject_Z in E; simpl in E. lia.
  - symmetry. apply bool_decide_eq_true.
    destruct (Z_lt_le_dec y x) as [H|H]; [exact H|].
    assert (Qle_bool (inject_Z x - inject_Z y) (inject_Z 0) = true); [|congruence].
    apply Qle_bool_iff. unfold Qle, Qminus, Qplus, Qopp, inject_Z; simpl. lia.
Qed.

Section SortByRank.
Context {A : Type}.
Variable compareFn : A -> A -> JS.number.
Variable rk : A -> Z.
Hypothesis compare_rank :
  forall a b, sorts_after compareFn a b = bool_decide (rk b < rk a)%Z.

Lemma insert_sorted_perm x l : Permutation (x :: l) (insert_sorted compareFn x l).
Proof.
  induction l as [|y l IH]; simpl; [reflexivity|].
  destruct (sorts_after compareFn x y); [|reflexivity].
  rewrite perm_swap. by constructor.
Qed.

Lemma array_sort_perm l : Permutation l (array_sort compareFn l).
Proof.
  induction l as [|x l IH]; simpl; [constructor|].
  etrans; [|apply insert_sorted_perm]. by constructor.
Qed.

Lemma insert_sorted_sorted x l :
  StronglySorted (fun a b => rk a <= rk b)%Z l ->
  StronglySorted (fun a b => rk a <= rk b)%Z (insert_sorted compareFn x l).
Proof.
  induction 1 as [|y l Hl IH Hy]; simpl.
  - repeat constructor.
  - rewrite compare_rank. case_bool_decide as Hxy.
    + constructor; [exact IH|].
      rewrite <- (insert_sorted_perm x l). constructor; [lia|exact Hy].
    + constructor; [by constructor|].
      constructor; [lia|].
      eapply Forall_impl; [exact Hy|]. intros; simpl in *. lia.
Qed.

Lemma array_sort_sorted l :
  StronglySorted (fun a b => rk a <= rk b)%Z (array_sort compareFn l).
Proof.
  induction l as [|x l IH]; simpl; [constructor|]. by apply insert_sorted_sorted.
Qed.

Lemma insert_sorted_stable k x (l : list A) :
  filter (fun a => rk a = k) (insert_sorted compareFn x l)
  = filter (fun a => rk a = k) (x :: l).
Proof.
  induction l as [|y l IH]; simpl; [reflexivity|].
  rewrite compare_rank. case_bool_decide as Hxy; [|reflexivity].
  rewrite !filter_cons in *.
  rewrite IH.
  destruct (decide (rk y = k)), (decide (rk x = k)); try reflexivity. lia.
Qed.

Lemma array_sort_stable k (l : list A) :
  filter (fun a => rk a = k) (array_sort compareFn l) = filter (fun a => rk a = k) l.
Proof.
  induction l as [|x l IH]; simpl; [reflexivity|].
  rewrite insert_sorted_stable, !filter_cons, IH. reflexivity.
Qed.

Lemma array_sort_sorted_id l :
  StronglySorted (fun a b => rk a <= rk b)%Z l -> array_sort compareFn l = l.
Proof.
  induction 1 as [|x l Hl IH Hx]; simpl; [reflexivity|].
  rewrite IH. destruct l as [|y l]; simpl; [reflexivity|].
  rewrite compare_rank. inversion Hx; subst.
  case_bool_decide; [lia|reflexivity].
Qed.
End SortByRank.

Section PriorityOrder.
Variable priorityTypes : list string.

Lemma position_bound l x i : position l x = Some i -> i < length l.
Proof.
  revert i. induction l as [|y l IH]; intros i; simpl; [discriminate|].
  destruct (String.eqb y x).
  - intros [= <-]. lia.
  - destruct (position l x) as [j|]; simpl; [|discriminate].
    intros [= <-]. specialize (IH j eq_refl). lia.
Qed.

(** [position] is the index of the first occurrence. *)
Lemma position_first l x i :
  position l x = Some i <->
  l !! i = Some x /\ forall j, j < i -> l !! j <> Some x.
Proof.
  revert i. induction l as [|y l IH]; intros i; simpl.
  - split; [discriminate|]. intros [H _]. destruct i; discriminate.
  - destruct (String.eqb_spec y x) as [->|Hne].
    + split.
      * intros [= <-]. split; [reflexivity|]. intros j Hj. lia.
      * intros [Hi Hfirst]. destruct i as [|i]; [reflexivity|].
        exfalso. apply (Hfirst 0); [lia|reflexivity].
    + destruct (position l x) as [k|] eqn:E; simpl.
      * split.
        -- intros [= <-]. destruct (proj1 (IH k) eq_refl) as [Hk Hfirst].
           split; [exact Hk|]. intros [|j] Hj; simpl; [congruence|].
           apply Hfirst. lia.
        -- intros [Hi Hfirst]. destruct i as [|i]; simpl in Hi; [congruence|].
           f_equal. assert (Some k = Some i) as [= ->]; [|reflexivity].
           apply IH. split; [exact Hi|]. intros j Hj. apply (Hfirst (S j)). lia.
      * split; [discriminate|]. intros [Hi Hfirst].
        destruct i as [|i]; simpl in Hi; [congruence|].
        assert (None = Some i); [|discriminate].
        apply IH. split; [exact Hi|]. intros j Hj. apply (Hfirst (S j)). lia.
Qed.

Lemma position_absent l x : position l x = None <-> x ∉ l.
Proof.
  induction l as [|y l IH]; simpl.
  - split; [intros _; apply not_elem_of_nil|reflexivity].
  - rewrite not_elem_of_cons. destruct (String.eqb_spec y x) as [->|Hne].
    + split; [discriminate|]. intros [H _]. congruence.
    + destruct (position l x); simpl.
      * split; [discriminate|]. intros [_ H]. apply IH in H. discriminate.
      * split; [|reflexivity]. intros _. split; [congruence|]. by apply IH.
Qed.

Lemma indexOf_from_position i l x :
  indexOf_from i l x
  = match position l x with Some n => (i + Z.of_nat n)%Z | None => (-1)%Z end.
Proof.
  revert i. induction l as [|y l IH]; intros i; simpl; [reflexivity|].
  destruct (String.eqb y x); [f_equal; lia|].
  rewrite IH. destruct (position l x); simpl; [lia|reflexivity].
Qed.

Lemma indexOf_position l x :
  indexOf l x = match position l x with Some n => Z.of_nat n | None => (-1)%Z end.
Proof. unfold indexOf. rewrite indexOf_from_position. by destruct (position l x). Qed.

Lemma typeRank_bound r :
  (0 <= typeRank priorityTypes r <= Z.of_nat (length priorityTypes))%Z.
Proof.
  unfold typeRank. destruct (position priorityTypes (type r)) as [i|] eqn:E; [|lia].
  apply position_bound in E. lia.
Qed.

Lemma severityOrder_inj a b : severityOrder a = severityOrder b -> a = b.
Proof. by destruct a, b. Qed.

Lemma compare_rank a b :
  sorts_after (compareRecommendations priorityTypes) a b
  = bool_decide (rank priorityTypes b < rank priorityTypes a)%Z.
Proof.
  unfold sorts_after, compareRecommendations, rank.
  destruct (Z.eqb_spec (severityOrder (severity a)) (severityOrder (severity b)))
    as [Hs|Hs]; cbn [negb].
  - rewrite Hs, !indexOf_position. unfold typeRank.
    destruct (position priorityTypes (type a)) as [i|] eqn:Ei,
             (position priorityTypes (type b)) as [j|] eqn:Ej.
    + assert (0 <= Z.of_nat i)%Z as Hi by lia.
      assert (0 <= Z.of_nat j)%Z as Hj by lia.
      revert Hi Hj. generalize (Z.of_nat i) (Z.of_nat j). intros zi zj Hi Hj.
      destruct (Z.eqb_spec zi zj) as [Hij|Hij]; cbn [negb].
      * subst zj. symmetry. apply bool_decide_eq_false. lia.
      * destruct (Z.eqb_spec zi (-1)); [lia|].
        destruct (Z.eqb_spec zj (-1)); [lia|].
        rewrite gt_sub_of_Z. apply bool_decide_ext. lia.
    + apply position_bound in Ei.
      assert (0 <= Z.of_nat i < Z.of_nat (length priorityTypes))%Z as Hi by lia.
      revert Hi. generalize (Z.of_nat i). intros zi Hi.
      destruct (Z.eqb_spec zi (-1)); [lia|]. cbn.
      symmetry. apply bool_decide_eq_false. lia.
    + apply position_bound in Ej.
      assert (0 <= Z.of_nat j < Z.of_nat (length priorityTypes))%Z as Hj by lia.
      revert Hj. generalize (Z.of_nat j). intros zj Hj.
      destruct (Z.eqb_spec (-1) zj); [lia|].
      destruct (Z.eqb_spec zj (-1)); [lia|]. cbn.
      symmetry. apply bool_decide_eq_true. lia.
    + cbn. symmetry. apply bool_decide_eq_false. lia.
  - rewrite gt_sub_of_Z. apply bool_decide_ext.
    pose proof (typeRank_bound a) as Ha. pose proof (typeRank_bound b) as Hb.
    destruct (severity a), (severity b); simpl in *; try congruence; lia.
Qed.

Lemma rank_lt a b :
  (rank priorityTypes a < rank priorityTypes b)%Z <-> comes_before priorityTypes a b.
Proof.
  unfold rank, comes_before, typeRank.
  destruct (position priorityTypes (type a)) as [i|] eqn:Ei,
           (position priorityTypes (type b)) as [j|] eqn:Ej;
    try (apply position_bound in Ei); try (apply position_bound in Ej);
    destruct (severity a), (severity b); cbn [severityOrder];
    split;
    try (intros [H|[H1 H2]]; try discriminate; try contradiction; lia);
    intros H;
    first [left; lia | right; split; [reflexivity|first [lia | exact I]] | exfalso; lia].
Qed.

Lemma rank_eq a b :
  rank priorityTypes a = rank priorityTypes b <-> tied priorityTypes a b.
Proof.
  unfold rank, tied, typeRank.
  destruct (position priorityTypes (type a)) as [i|] eqn:Ei,
           (position priorityTypes (type b)) as [j|] eqn:Ej;
    try (apply position_bound in Ei); try (apply position_bound in Ej);
    destruct (severity a), (severity b); cbn [severityOrder];
    split;
    try (intros [H1 H2]; try discriminate; try (injection H2 as H2); lia);
    intros H;
    first [exfalso; lia | split; [reflexivity|first [reflexivity | f_equal; lia]]].
Qed.

Lemma rank_le a b :
  (rank priorityTypes a <= rank priorityTypes b)%Z <-> in_order priorityTypes a b.
Proof.
  unfold in_order. rewrite <- rank_lt, <- rank_eq. lia.
Qed.

Lemma sorted_in_order l :
  StronglySorted (fun a b => rank priorityTypes a <= rank priorityTypes b)%Z l
  <-> StronglySorted (in_order priorityTypes) l.
Proof.
  split; induction 1 as [|x l Hl IH Hx]; constructor; try exact IH;
    (eapply Forall_impl; [exact Hx|]); intros y Hy; by apply rank_le.
Qed.

Lemma filter_tied x (l : list Recommendation) :
  filter (tied priorityTypes x) l
  = filter (fun a => rank priorityTypes a = rank priorityTypes x) l.
Proof.
  apply list_filter_iff. intros y. rewrite rank_eq. unfold tied. intuition congruence.
Qed.
End PriorityOrder.

(** ** The prioritizer *)

Lemma sort_in_place_run compareFn (a : loc) (st : state) (l : list Recommendation) :
  arrays st !! a = Some l ->
  sort_in_place compareFn a st
  = (Ok a, set_arrays (insert a (array_sort compareFn l)) st).
Proof. intros H. unfold sort_in_place. by rewrite H. Qed.

(** C5: prioritizing sorts the array the reference points to: the result
    is a permutation of the input, ordered by severity rank (HIGH = 0,
    MEDIUM = 1, LOW = 2) and then by the position of the type in the
    priority list, types outside the list after all listed ones; the
    recommendations equal on both keys keep their relative order; a
    one-element array is left as it is.  The statement holds for every
    priority list, so for the MySQL and the PostgreSQL lists alike. *)
Theorem C5_prioritize_sorted_stable (priorityTypes : list string)
    (st : state) (a : loc) (l : list Recommendation) :
  arrays st !! a = Some l ->
  exists out,
    prioritizeRecommendations priorityTypes a st = (Ok a, set_arrays (insert a out) st)
    /\ Permutation l out
    /\ StronglySorted (in_order priorityTypes) out
    /\ (forall x, filter (tied priorityTypes x) out = filter (tied priorityTypes x) l)
    /\ (forall x, l = [x] -> out = [x])
    /\ severityOrder HIGH = 0%Z /\ severityOrder MEDIUM = 1%Z /\ severityOrder LOW = 2%Z.
Proof.
  intros Ha.
  exists (array_sort (compareRecommendations priorityTypes) l).
  split; [by apply sort_in_place_run|].
  split; [apply array_sort_perm|].
  split.
  { apply sorted_in_order. apply array_sort_sorted. apply compare_rank. }
  split.
  { intros x. rewrite !filter_tied. apply array_sort_stable. apply compare_rank. }
  split; [by intros x ->|].
  by repeat split.
Qed.

Lemma C5_prioritize_sorted_stable_witness :
  arrays Samples.unsorted !! 1%positive
  = Some [Samples.finding "TEMP_TABLE" MEDIUM; Samples.finding "TABLE_SCAN" HIGH]
  /\ exists out,
       MySQLAnalyzer.prioritizeRecommendations 1%positive Samples.unsorted
       = (Ok 1%positive, set_arrays (insert 1%positive out) Samples.unsorted)
       /\ Permutation [Samples.finding "TEMP_TABLE" MEDIUM; Samples.finding "TABLE_SCAN" HIGH] out
       /\ StronglySorted (in_order MySQLAnalyzer.priorityTypes) out.
Proof.
  split; [reflexivity|].
  destruct (C5_prioritize_sorted_stable MySQLAnalyzer.priorityTypes Samples.unsorted
              1%positive _ eq_refl) as (out & H1 & H2 & H3 & _).
  exists out. auto.
Defined.




(** ** Rule calls only append to the shared array *)

Section Appends.
Lemma appends_ret {A} (a : A) : appends (ret a).
Proof. intros s. unfold ret; simpl. by rewrite app_nil_r. Qed.

Lemma appends_throw {A} e : appends (@throw _ A e).
Proof. intros s. unfold throw; simpl. by rewrite app_nil_r. Qed.

Lemma appends_push r : appends (push r).
Proof. intros s. reflexivity. Qed.

Lemma appends_bind {A B} (m : Rules A) (k : A -> Rules B) :
  appends m -> (forall a, appends (k a)) -> appends (bind m k).
Proof.
  intros Hm Hk s. unfold bind. rewrite (Hm s).
  destruct (m []) as [[a|e] ext]; simpl.
  - rewrite (Hk a (s ++ ext)), (Hk a ext); simpl. by rewrite app_assoc.
  - reflexivity.
Qed.

Lemma appends_when c (m : Rules unit) : appends m -> appends (when c m).
Proof. destruct c; simpl; [done|intros _; apply appends_ret]. Qed.

Lemma appends_deref {A} (o : option A) : appends (deref o).
Proof. destruct o; [apply appends_ret|apply appends_throw]. Qed.

Lemma appends_call_includes o sub : appends (call_includes o sub).
Proof. destruct o; [apply appends_ret|apply appends_throw]. Qed.

Lemma appends_and_then a (b : Rules bool) : appends b -> appends (and_then a b).
Proof. destruct a; simpl; [done|intros _; apply appends_ret]. Qed.

Lemma appends_run_rules calls : Forall appends calls -> appends (run_rules calls).
Proof.
  induction 1 as [|call calls Hc _ IH]; simpl; [apply appends_ret|].
  apply appends_bind; [exact Hc|intros _; exact IH].
Qed.

End Appends.

Create HintDb rules.
#[local] Hint Resolve appends_ret appends_throw appends_push appends_when
  appends_deref appends_call_includes appends_and_then : rules.

Ltac solve_appends :=
  repeat first
    [ progress intros
    | apply appends_bind
    | apply appends_when
    | apply appends_and_then
    | solve [auto with rules]
    | match goal with
      | |- appends (if ?c then _ else _) => destruct c
      | |- appends (match ?o with _ => _ end) => destruct o
      end ].

Lemma bind_ret_tt {S} (m : Eff S unit) s : bind m (fun _ => ret tt) s = m s.
Proof. unfold bind, ret. by destruct (m s) as [[[]|e] s']. Qed.

Lemma bind_ext {S A B} (m : Eff S A) (k k' : A -> Eff S B) s :
  (forall a s', k a s' = k' a s') -> bind m k s = bind m k' s.
Proof. intros H. unfold bind. destruct (m s) as [[a|e] s']; [apply H|reflexivity]. Qed.

Module PostgreFacts.
Import PostgreAnalyzer.


Lemma postgre_generate_shape i18n ex ts ix :
  generateRecommendations i18n ex ts ix
  = generate (t i18n "analyzer.errors.recommendations" []) priorityTypes
      (match ex with
       | Some ex =>
           Some (analyzeScanMethods i18n (Plan ex) ;;
                 analyzeJoinOperations i18n (Plan ex) ;;
                 analyzeTemporaryStructures i18n (Plan ex) ;;
                 analyzeIndexUsage i18n (Plan ex) ix ;;
                 analyzeTableStatistics i18n (Plan ex) ts ;;
                 analyzeParallelExecution i18n (Plan ex) ;;
                 analyzePartitioning i18n (Plan ex) ;;
                 analyzeCTEUsage i18n (Plan ex) ;;
                 analyzeAggregationOperations i18n (Plan ex) ;;
                 analyzeMaterialization i18n (Plan ex))
       | None => None
       end).
Proof. by destruct ex. Qed.

Lemma postgre_body_run_rules i18n ex ts ix s :
  (analyzeScanMethods i18n (Plan ex) ;;
   analyzeJoinOperations i18n (Plan ex) ;;
   analyzeTemporaryStructures i18n (Plan ex) ;;
   analyzeIndexUsage i18n (Plan ex) ix ;;
   analyzeTableStatistics i18n (Plan ex) ts ;;
   analyzeParallelExecution i18n (Plan ex) ;;
   analyzePartitioning i18n (Plan ex) ;;
   analyzeCTEUsage i18n (Plan ex) ;;
   analyzeAggregationOperations i18n (Plan ex) ;;
   analyzeMaterialization i18n (Plan ex)) s
  = run_rules (rule_calls i18n ex ts ix) s.
Proof.
  unfold run_rules, rule_calls; simpl foldr.
  do 9 (apply bind_ext; intros _ ?).
  symmetry. apply bind_ret_tt.
Qed.
End PostgreFacts.

(** ** What [generateRecommendations] returns *)

Lemma generate_run label priorityTypes body st :
  generate label priorityTypes body st
  = (Ok (fresh (dom (arrays st))),
     match body with
     | None => set_arrays (insert (fresh (dom (arrays st))) []) st
     | Some rules =>
         {| arrays :=
              <[fresh (dom (arrays st)) :=
                  array_sort (compareRecommendations priorityTypes) (snd (rules []))]>
                (arrays st);
            client := client st;
            events := events st ++ rule_warning label (fst (rules [])) |}
     end).
Proof.
  unfold generate, new_array, bind at 1. 
  destruct body as [rules|]; [|reflexivity].
  unfold bind, try_catch, on_array, set_arrays; simpl.
  rewrite lookup_insert_eq.
  destruct (rules []) as [[[]|e] recs]; simpl;
    unfold prioritizeRecommendations, sort_in_place, set_arrays; simpl;
    rewrite lookup_insert_eq, !insert_insert_eq; try rewrite app_nil_r; reflexivity.
Qed.

(** The array of a fresh call is a new one: nothing that was in the store
    before is touched. *)
Lemma generate_frame label priorityTypes body st a st' :
  generate label priorityTypes body st = (Ok a, st') ->
  arrays st !! a = None
  /\ (forall b, b <> a -> arrays st' !! b = arrays st !! b)
  /\ client st' = client st
  /\ exists warnings, events st' = events st ++ warnings /\ Forall is_warning warnings.
Proof.
  rewrite generate_run. intros [= <- <-].
  split; [apply not_elem_of_dom, is_fresh|].
  destruct body as [rules|]; simpl.
  - split; [intros b Hb; by apply lookup_insert_ne|]. split; [reflexivity|].
    eexists; split; [reflexivity|].
    destruct (fst (rules [])); simpl; repeat constructor.
  - split; [intros b Hb; by apply lookup_insert_ne|]. split; [reflexivity|].
    exists []. split; [by rewrite app_nil_r|constructor].
Qed.

Section NeverThrows.
Lemma never_throws_ret {A} (a : A) : never_throws (ret a).
Proof. intros s. by exists a, s. Qed.

Lemma never_throws_push r : never_throws (push r).
Proof. intros s. by eexists _, _. Qed.

Lemma never_throws_bind {A B} (m : Rules A) (k : A -> Rules B) :
  never_throws m -> (forall a, never_throws (k a)) -> never_throws (bind m k).
Proof.
  intros Hm Hk s. unfold bind. destruct (Hm s) as (a & s' & ->). apply Hk.
Qed.

Lemma never_throws_when c (m : Rules unit) : never_throws m -> never_throws (when c m).
Proof. destruct c; simpl; [done|intros _; apply never_throws_ret]. Qed.

Lemma never_throws_run_rules calls :
  Forall never_throws calls -> never_throws (run_rules calls).
Proof.
  induction 1 as [|call calls Hc _ IH]; simpl; [apply never_throws_ret|].
  apply never_throws_bind; [exact Hc|intros _; exact IH].
Qed.
End NeverThrows.

#[local] Hint Resolve never_throws_ret never_throws_push never_throws_when : rules.

Ltac solve_never_throws :=
  repeat first
    [ progress intros
    | apply never_throws_bind
    | apply never_throws_when
    | solve [auto with rules]
    | match goal with
      | |- never_throws (if ?c then _ else _) => destruct c
      | |- never_throws (match ?o with _ => _ end) => destruct o
      end ].

Module MySQLFacts.
Import MySQLAnalyzer.

Ltac unfold_rules :=
  unfold analyzeTableAccessMethod, analyzeJoinOperations, analyzeTemporaryStructures,
    analyzeIndexUsage, analyzeTableStatistics, analyzeQueryStructure,
    analyzePartitioning, analyzeSubqueries, analyzeSortOperations,
    analyzeGroupOperations.


(** On a row of the EXPLAIN table no rule of the MySQL analyzer throws. *)
Lemma mysql_rule_calls_never_throw i18n ex ts ix :
  Forall never_throws (rule_calls i18n ex ts ix).
Proof. unfold rule_calls. repeat constructor; unfold_rules; solve_never_throws. Qed.

Lemma mysql_generate_shape i18n ex ts ix :
  generateRecommendations i18n ex ts ix
  = generate (t i18n "analyzer.errors.recommendations" []) priorityTypes
      (match ex with
       | Some ex =>
           Some (analyzeTableAccessMethod i18n ex ;;
                 analyzeJoinOperations i18n ex ;;
                 analyzeTemporaryStructures i18n ex ;;
                 analyzeIndexUsage i18n ex ix ;;
                 analyzeTableStatistics i18n ex ts ;;
                 analyzeQueryStructure i18n ex ;;
                 analyzePartitioning i18n ex ;;
                 analyzeSubqueries i18n ex ;;
                 analyzeSortOperations i18n ex ;;
                 analyzeGroupOperations i18n ex)
       | None => None
       end).
Proof. by destruct ex. Qed.

Lemma mysql_body_run_rules i18n ex ts ix s :
  (analyzeTableAccessMethod i18n ex ;;
   analyzeJoinOperations i18n ex ;;
   analyzeTemporaryStructures i18n ex ;;
   analyzeIndexUsage i18n ex ix ;;
   analyzeTableStatistics i18n ex ts ;;
   analyzeQueryStructure i18n ex ;;
   analyzePartitioning i18n ex ;;
   analyzeSubqueries i18n ex ;;
   analyzeSortOperations i18n ex ;;
   analyzeGroupOperations i18n ex) s
  = run_rules (rule_calls i18n ex ts ix) s.
Proof.
  unfold run_rules, rule_calls; simpl foldr.
  do 9 (apply bind_ext; intros _ ?).
  symmetry. apply bind_ret_tt.
Qed.
End MySQLFacts.

(** ** Failing rules *)



Lemma run_rules_ok calls s :
  Forall never_throws calls -> exists s', run_rules calls s = (Ok tt, s').
Proof.
  intros H. destruct (never_throws_run_rules calls H s) as ([] & s' & E). eauto.
Qed.

Lemma generate_total label priorityTypes body st :
  exists a st', generate label priorityTypes body st = (Ok a, st').
Proof. rewrite generate_run. eauto. Qed.


Lemma generate_ext label priorityTypes (b b' : Rules unit) st :
  (forall s, b s = b' s) ->
  generate label priorityTypes (Some b) st = generate label priorityTypes (Some b') st.
Proof. intros H. by rewrite !generate_run, H. Qed.



(** ** The plan tree *)

Lemma bind_assoc {S A B C} (m : Eff S A) (k : A -> Eff S B) (k' : B -> Eff S C) s :
  bind m (fun a => bind (k a) k') s = bind (bind m k) k' s.
Proof. unfold bind. by destruct (m s) as [[a|e] s']. Qed.

Module TreeFacts.
Import PostgreAnalyzer.

(** Induction on a plan with the hypothesis for every sub-plan. *)
Fixpoint PlanNode_tree_ind (P : PlanNode -> Prop)
    (step : forall node,
        match Plans node with
        | Some children => Forall P children
        | None => True
        end -> P node)
    (node : PlanNode) : P node :=
  step node
    (match Plans node as o
           return match o with Some children => Forall P children | None => True end
     with
     | Some children =>
         (fix each (l : list PlanNode) : Forall P l :=
            match l with
            | [] => @List.Forall_nil _ P
            | childPlan :: rest =>
                @List.Forall_cons _ P childPlan rest (PlanNode_tree_ind P step childPlan) (each rest)
            end) children
     | None => I
     end).

Lemma node_rules_append i18n node : appends (node_rules i18n node).
Proof.
  unfold node_rules, analyzeScanMethods, analyzeJoinOperations,
    analyzeTemporaryStructures. solve_appends.
Qed.

Lemma node_rules_never_throw i18n node : never_throws (node_rules i18n node).
Proof.
  unfold node_rules, analyzeScanMethods, analyzeJoinOperations,
    analyzeTemporaryStructures, deref. solve_never_throws.
Qed.

Lemma node_rules_run i18n node s :
  node_rules i18n node s = (Ok tt, s ++ snd (node_rules i18n node [])).
Proof.
  rewrite (node_rules_append i18n node s).
  destruct (node_rules_never_throw i18n node []) as ([] & s' & ->). reflexivity.
Qed.

Lemma analyzePlanNode_unfold i18n node s :
  analyzePlanNode i18n node s
  = (node_rules i18n node ;;
     match Plans node with
     | Some children => forEach (analyzePlanNode i18n) children
     | None => ret tt
     end) s.
Proof.
  destruct node. unfold node_rules. cbn [analyzePlanNode].
  rewrite <- bind_assoc. apply bind_ext. intros _ s1.
  rewrite <- bind_assoc. reflexivity.
Qed.

(** The helper visits every node of the tree once, parents before
    children and children in the order of [Plans], and appends at each
    node what its three rules find there. *)
Lemma analyzePlanNode_preorder i18n node :
  forall s,
    analyzePlanNode i18n node s
    = (Ok tt, s ++ flat_map (fun n => snd (node_rules i18n n [])) (preorder node)).
Proof.
  induction node as [node IH] using PlanNode_tree_ind. intros s.
  rewrite analyzePlanNode_unfold. unfold bind at 1. rewrite node_rules_run.
  destruct node as [ty rel rows icond batches tmp hcond ptime workers cost
                      removed cte used allowed loops children].
  cbn [preorder Plans flat_map] in *. rewrite app_assoc.
  generalize (snd (node_rules i18n
                     (Build_PlanNode ty rel rows icond batches tmp hcond ptime workers cost
                        removed cte used allowed loops children) [])).
  intros here. generalize (s ++ here). clear s here.
  destruct children as [children|]; [|intros s; by rewrite app_nil_r].
  induction IH as [|childPlan rest Hc _ IHrest]; intros s.
  - by rewrite app_nil_r.
  - cbn [forEach flat_map]. unfold bind. rewrite Hc.
    change ((fix each (l : list PlanNode) : Eff (list Recommendation) unit :=
               match l with
               | [] => ret tt
               | x :: rest0 => bind (analyzePlanNode i18n x) (fun _ => each rest0)
               end) rest)
      with (forEach (analyzePlanNode i18n) rest).
    rewrite IHrest, flat_map_app, app_assoc. reflexivity.
Qed.

(** [generateRecommendations] never looks below the root. *)
Lemma generateRecommendations_ignores_children i18n root ts ix :
  generateRecommendations i18n (Some {| Plan := Some root |}) ts ix
  = generateRecommendations i18n (Some {| Plan := Some (without_children root) |}) ts ix.
Proof. destruct root. reflexivity. Qed.
End TreeFacts.

(** C1 fails on the code: for a nested loop over a sequential scan the
    returned array is empty, although the scan rule fires at the child,
    as the unused helper [analyzePlanNode] finds when run on the same
    root. *)
Theorem C1_child_findings_are_missed (i18n : I18n) :
  let scan := recommend i18n "SEQUENTIAL_SCAN" HIGH "sequentialScan"
                [("tableName", Text (Some "orders"))]
                ["createIndex"; "analyzeTable"; "reviewWhere"] in
  (exists st,
     PostgreAnalyzer.generateRecommendations i18n (Some Samples.loop_over_scan) [] [] initial
     = (Ok 1%positive, st)
     /\ arrays st !! 1%positive = Some [])
  /\ PostgreAnalyzer.analyzeScanMethods i18n (Some Samples.seq_scan_orders) []
     = (Ok tt, [scan])
  /\ PostgreAnalyzer.analyzePlanNode i18n Samples.loop_root [] = (Ok tt, [scan]).
Proof.
  cbv zeta. split; [|split].
  - eexists. split; [vm_compute; reflexivity|]. reflexivity.
  - reflexivity.
  - reflexivity.
Qed.

(** C2 fails on the code: for the hash join in two batches over a
    sequential scan the returned array holds the HASH_SPILL finding alone;
    the finding of the child scan, which walking the tree and sorting
    would place first, is absent. *)
Theorem C2_two_level_plan_yields_spill_only (i18n : I18n) :
  let scan := recommend i18n "SEQUENTIAL_SCAN" HIGH "sequentialScan"
                [("tableName", Text (Some "orders"))]
                ["createIndex"; "analyzeTable"; "reviewWhere"] in
  let spill := recommend i18n "HASH_SPILL" MEDIUM "hashSpill" []
                 ["increaseMemory"; "optimizeJoin"; "partitionData"] in
  (exists st,
     PostgreAnalyzer.generateRecommendations i18n
       (Some {| PostgreAnalyzer.Plan := Some Samples.spilled_join |}) [] [] initial
     = (Ok 1%positive, st)
     /\ arrays st !! 1%positive = Some [spill])
  /\ array_sort (compareRecommendations PostgreAnalyzer.priorityTypes)
       (snd (PostgreAnalyzer.analyzePlanNode i18n Samples.spilled_join []))
     = [scan; spill].
Proof.
  cbv zeta. split.
  - eexists. split; [vm_compute; reflexivity|]. reflexivity.
  - reflexivity.
Qed.

(** ** The statistics rule of the MySQL analyzer *)

Lemma strict_eq_true a b : JS.strict_eq a b = true <-> a = b.
Proof.
  destruct a as [x|], b as [y|]; simpl; try (split; [discriminate|congruence]).
  - rewrite String.eqb_eq. split; congruence.
  - split; reflexivity.
Qed.



Module StatisticsFacts.
Import MySQLAnalyzer.

End StatisticsFacts.



(** The example of C7 end to end: the array [generateRecommendations]
    returns for a full scan of "orders" with its statistics. *)
Example orders_scan_recommendations :
  exists st,
    MySQLAnalyzer.generateRecommendations keys (Some Samples.scan_orders)
      [Samples.orders_stat] [] initial = (Ok 1%positive, st)
    /\ (map (fun r => (type r, severity r)) <$> arrays st !! 1%positive)
       = Some [("TABLE_SCAN", HIGH); ("LARGE_TABLE_SCAN", HIGH);
               ("ACCESS_TYPE", MEDIUM); ("HIGH_INDEX_RATIO", LOW)].
Proof. eexists. split; [vm_compute; reflexivity|]. reflexivity. Qed.

(** ** The analysis entry point *)

Lemma trimEnd_blank s : only_whitespace s = true -> JS.trimEnd s = "".
Proof.
  induction s as [|c s IH]; simpl; [reflexivity|].
  intros [Hc Hs]%andb_prop. by rewrite (IH Hs), Hc.
Qed.

Lemma trimEnd_empty s : JS.trimEnd s = "" -> only_whitespace s = true.
Proof.
  induction s as [|c s IH]; simpl; [reflexivity|].
  destruct (JS.trimEnd s) eqn:E; [|discriminate].
  destruct (JS.isWhiteSpace c); [intros _; by rewrite IH|discriminate].
Qed.

Lemma trimStart_blank s :
  only_whitespace (JS.trimStart s) = only_whitespace s.
Proof.
  induction s as [|c s IH]; simpl; [reflexivity|].
  destruct (JS.isWhiteSpace c) eqn:E; simpl; [exact IH|by rewrite E].
Qed.

(** Trimming leaves nothing exactly of the texts made of white space. *)
Lemma trim_empty s : JS.trim s = "" <-> only_whitespace s = true.
Proof.
  unfold JS.trim. split.
  - intros H. rewrite <- trimStart_blank. by apply trimEnd_empty.
  - intros H. apply trimEnd_blank. by rewrite trimStart_blank.
Qed.

Lemma eqb_empty s : String.eqb s "" = true <-> s = "".
Proof. apply String.eqb_eq. Qed.

Section AnalyzeFacts.
Context {Explain Stat Index : Type}.
Variable engine : string.
Variable explainStatement : string -> string.
Variable scope : config -> option string.
Variable releaseWarning : string.
Variable generateRecommendations : option Explain -> list Stat -> list Index -> M loc.
Variable w : world Explain Stat Index.
Variable cfg : config.

(** What the rule engine is known to do: return an array, leave the
    connection variable alone and log nothing but warnings. *)
Hypothesis generate_contained :
  forall ex ts ix st,
    exists a st',
      generateRecommendations ex ts ix st = (Ok a, st')
      /\ client st' = client st
      /\ exists warnings, events st' = events st ++ warnings /\ Forall is_warning warnings.

Abbreviation analysis :=
  (analyze engine explainStatement scope releaseWarning generateRecommendations w cfg).

Lemma validate_accepted query trimmedQuery st :
  accepted query trimmedQuery -> validate query st = (Ok trimmedQuery, st).
Proof.
  intros (text & -> & -> & Hne & Hsel). unfold validate.
  destruct (String.eqb_spec text "") as [->|_]; [by destruct Hne|].
  destruct (String.eqb_spec (JS.trim text) "") as [E|_]; [by destruct Hne|].
  by rewrite Hsel.
Qed.

(** Validation either accepts the query or throws one of three errors,
    and never touches the state. *)
Lemma validate_cases query :
  (exists trimmedQuery, accepted query trimmedQuery
                        /\ forall st : state, validate query st = (Ok trimmedQuery, st))
  \/ (exists detail,
        (forall st : state, validate query st = (Throw (JS.Error detail), st))
        /\ (forall trimmedQuery, ~ accepted query trimmedQuery)
        /\ match query with
           | NotAString => detail = "Invalid query provided"
           | Str text =>
               (text = "" /\ detail = "Invalid query provided")
               \/ (text <> "" /\ only_whitespace text = true
                   /\ detail = "Empty query provided")
               \/ (only_whitespace text = false
                   /\ JS.startsWith (JS.toLowerCase (JS.trim text)) "select" = false
                   /\ detail = "Only SELECT queries can be analyzed")
           end).
Proof.
  destruct query as [text|]; simpl.
  - destruct (String.eqb_spec text "") as [->|Hne].
    { right. eexists. split; [reflexivity|]. split; [|by left].
      intros tq (text & [= <-] & -> & H & _). by apply H. }
    destruct (String.eqb_spec (JS.trim text) "") as [E|Htrim].
    { right. eexists. split; [reflexivity|]. split.
      - intros tq (text' & [= <-] & -> & H & _). by apply H.
      - right; left. split; [exact Hne|]. split; [by apply trim_empty|reflexivity]. }
    destruct (JS.startsWith (JS.toLowerCase (JS.trim text)) "select") eqn:Hsel; simpl.
    + left. eexists. split; [|reflexivity]. exists text. auto.
    + right. eexists. split; [reflexivity|]. split.
      * intros tq (text' & [= <-] & -> & _ & H). congruence.
      * right; right. split; [|by split].
        destruct (only_whitespace text) eqn:Hw; [|reflexivity].
        apply trim_empty in Hw. contradiction.
  - right. eexists. split; [reflexivity|]. split; [|reflexivity].
    intros tq (text & [=] & _).
Qed.

Lemma cleanup_held c st :
  client st = Some c ->
  cleanup releaseWarning w st = (Ok tt, add_events (release_events w releaseWarning c) st).
Proof.
  intros Hc. unfold cleanup, bind, get, release_events. rewrite Hc.
  unfold try_catch, add_events.
  destruct (release w c); unfold bind, warn, emit, modify, throw; simpl;
    rewrite <- ?app_assoc; reflexivity.
Qed.

Lemma cleanup_idle st :
  client st = None -> cleanup releaseWarning w st = (Ok tt, st).
Proof. intros Hc. unfold cleanup, bind, get. by rewrite Hc. Qed.

(** The connection cannot be established: nothing else happens. *)
Lemma analyze_unreachable query st e :
  connect w = Throw e ->
  analysis query st
  = (Throw (analysis_error engine (JS.message e)),
     {| arrays := arrays st; client := None; events := events st ++ [ConnectFailed] |}).
Proof.
  intros Hc. unfold analyze, try_finally, try_catch, acquire.
  unfold bind at 1. unfold modify at 1. unfold bind at 1. rewrite Hc.
  unfold bind at 1. simpl. reflexivity.
Qed.

(** The query is rejected after the connection was established. *)
Lemma analyze_rejected query st c detail :
  connect w = Ok c ->
  (forall s : state, validate query s = (Throw (JS.Error detail), s)) ->
  analysis query st
  = (Throw (analysis_error engine detail),
     {| arrays := arrays st; client := Some c;
        events := events st ++ [Acquired c] ++ release_events w releaseWarning c |}).
Proof.
  intros Hc Hv. unfold analyze, try_finally, try_catch, acquire.
  unfold bind at 1. unfold modify at 1. unfold bind at 1. rewrite Hc.
  unfold bind at 1 2. simpl. unfold bind at 1.
  rewrite Hv.
  unfold throw. rewrite (cleanup_held c) by reflexivity.
  unfold add_events, analysis_error; simpl. by rewrite <- app_assoc.
Qed.

(** No plan can be obtained. *)
Lemma analyze_no_plan query st c trimmedQuery e :
  connect w = Ok c ->
  accepted query trimmedQuery ->
  run_explain w (explainStatement trimmedQuery) = Throw e ->
  analysis query st
  = (Throw (analysis_error engine ("Failed to get execution plan: " +:+ JS.message e)),
     {| arrays := arrays st; client := Some c;
        events := events st
                  ++ [Acquired c; Queried (ExplainPlan (explainStatement trimmedQuery)) false]
                  ++ release_events w releaseWarning c |}).
Proof.
  intros Hc Hv He. unfold analyze, try_finally, try_catch, acquire.
  unfold bind at 1. unfold modify at 1. unfold bind at 1. rewrite Hc.
  unfold bind at 1 2. simpl. unfold bind at 1.
  rewrite (validate_accepted _ _ _ Hv).
  unfold bind at 1. unfold perform. rewrite He. unfold bind at 1. simpl.
  unfold throw. rewrite (cleanup_held c) by reflexivity.
  unfold add_events, analysis_error; simpl. by rewrite <- !app_assoc.
Qed.

(** The plan is there: the analysis completes. *)
Lemma analyze_completes query st c trimmedQuery plan :
  connect w = Ok c ->
  accepted query trimmedQuery ->
  run_explain w (explainStatement trimmedQuery) = Ok plan ->
  exists a st1 st2 warnings,
    generateRecommendations plan (collected (run_tableStatistics w (scope cfg)))
      (collected (run_indexInformation w (scope cfg))) st1 = (Ok a, st2)
    /\ arrays st1 = arrays st
    /\ Forall is_warning warnings
    /\ analysis query st
       = (Ok {| query := trimmedQuery;
                executionPlan := plan;
                tableStatistics := collected (run_tableStatistics w (scope cfg));
                indexes := collected (run_indexInformation w (scope cfg));
                recommendations := a |},
          {| arrays := arrays st2; client := Some c;
             events :=
               events st
               ++ [Acquired c; Queried (ExplainPlan (explainStatement trimmedQuery)) true]
               ++ metadata_events (TableStatistics (scope cfg))
                    "Failed to get table statistics:" (run_tableStatistics w (scope cfg))
               ++ metadata_events (IndexInformation (scope cfg))
                    "Failed to get index information:" (run_indexInformation w (scope cfg))
               ++ warnings
               ++ release_events w releaseWarning c |}).
Proof.
  intros Hc Hv He.
  set (st1 := {| arrays := arrays st; client := Some c;
                 events :=
                   events st
                   ++ [Acquired c; Queried (ExplainPlan (explainStatement trimmedQuery)) true]
                   ++ metadata_events (TableStatistics (scope cfg))
                        "Failed to get table statistics:" (run_tableStatistics w (scope cfg))
                   ++ metadata_events (IndexInformation (scope cfg))
                        "Failed to get index information:"
                        (run_indexInformation w (scope cfg)) |}).
  destruct (generate_contained plan (collected (run_tableStatistics w (scope cfg)))
              (collected (run_indexInformation w (scope cfg))) st1)
    as (a & st2 & Hgen & Hclient & warnings & Hevents & Hwarn).
  exists a, st1, st2, warnings.
  split; [exact Hgen|]. split; [reflexivity|]. split; [exact Hwarn|].
  unfold analyze, try_finally, try_catch, acquire.
  unfold bind at 1. unfold modify at 1. unfold bind at 1. rewrite Hc.
  unfold bind at 1 2. simpl. unfold bind at 1.
  rewrite (validate_accepted _ _ _ Hv).
  unfold bind at 1. unfold perform. rewrite He. unfold bind at 1. simpl.
  unfold st1 in *. clear st1.
  destruct (run_tableStatistics w (scope cfg)) as [ts|e1],
           (run_indexInformation w (scope cfg)) as [ix|e2];
    unfold collected, metadata_events in *;
    unfold bind, emit, modify, ret, throw, warn, emit, modify; simpl;
    rewrite <- ?app_assoc; simpl app; simpl in Hgen, Hclient, Hevents;
    rewrite Hgen, (cleanup_held c) by exact Hclient;
    unfold add_events; rewrite Hevents, Hclient, <- ?app_assoc; reflexivity.
Qed.

(** Validation comes after the connection. *)
Lemma analyze_validation text st c :
  connect w = Ok c ->
  (only_whitespace text = true ->
     exists e st', analysis (Str text) st = (Throw e, st') /\ InvalidQueryError engine e)
  /\ (only_whitespace text = false ->
      JS.startsWith (JS.toLowerCase (JS.trim text)) "select" = false ->
      exists e st',
        analysis (Str text) st = (Throw e, st') /\ UnsupportedQueryError engine e).
Proof.
  intros Hc.
  destruct (validate_cases (Str text))
    as [(tq & (text' & [= <-] & -> & Hne & Hsel) & _)
       |(detail & Hv & _ & [[-> ->]|[(Hne & Hw & ->)|(Hw & Hsel & ->)]])].
  - split.
    + intros Hw. apply trim_empty in Hw. contradiction.
    + intros _ Hsel'. congruence.
  - rewrite (analyze_rejected _ st c _ Hc Hv). split; [|discriminate].
    intros _. eexists _, _. split; [reflexivity|]. by left.
  - rewrite (analyze_rejected _ st c _ Hc Hv). split; [|congruence].
    intros _. eexists _, _. split; [reflexivity|]. by right.
  - rewrite (analyze_rejected _ st c _ Hc Hv). split; [congruence|].
    intros _ _. eexists _, _. split; reflexivity.
Qed.

(** The plan goes into the result as the database returned it. *)
Lemma analyze_keeps_plan q st c trimmedQuery payload :
  connect w = Ok c ->
  accepted q trimmedQuery ->
  run_explain w (explainStatement trimmedQuery) = Ok payload ->
  exists res st',
    analysis q st = (Ok res, st')
    /\ executionPlan res = payload
    /\ query res = trimmedQuery.
Proof.
  intros Hc Hv He.
  destruct (analyze_completes q st c trimmedQuery payload Hc Hv He)
    as (a & st1 & st2 & warnings & _ & _ & _ & ->).
  eexists _, _. split; [reflexivity|]. split; reflexivity.
Qed.


(** The new events of a call, by the way the call went. *)
Lemma analyze_trace query st :
  match connect w with
  | Throw e =>
      analysis query st
      = (Throw (analysis_error engine (JS.message e)),
         {| arrays := arrays st; client := None;
            events := events st ++ [ConnectFailed] |})
  | Ok c =>
      (exists detail,
         (forall trimmedQuery, ~ accepted query trimmedQuery)
         /\ analysis query st
            = (Throw (analysis_error engine detail),
               {| arrays := arrays st; client := Some c;
                  events := events st ++ [Acquired c]
                            ++ release_events w releaseWarning c |}))
      \/ (exists trimmedQuery e,
            accepted query trimmedQuery
            /\ run_explain w (explainStatement trimmedQuery) = Throw e
            /\ analysis query st
               = (Throw (analysis_error engine
                           ("Failed to get execution plan: " +:+ JS.message e)),
                  {| arrays := arrays st; client := Some c;
                     events :=
                       events st
                       ++ [Acquired c;
                           Queried (ExplainPlan (explainStatement trimmedQuery)) false]
                       ++ release_events w releaseWarning c |}))
      \/ (exists trimmedQuery plan a st1 st2 warnings,
            accepted query trimmedQuery
            /\ run_explain w (explainStatement trimmedQuery) = Ok plan
            /\ generateRecommendations plan
                 (collected (run_tableStatistics w (scope cfg)))
                 (collected (run_indexInformation w (scope cfg))) st1 = (Ok a, st2)
            /\ arrays st1 = arrays st
            /\ Forall is_warning warnings
            /\ analysis query st
               = (Ok {| query := trimmedQuery;
                        executionPlan := plan;
                        tableStatistics := collected (run_tableStatistics w (scope cfg));
                        indexes := collected (run_indexInformation w (scope cfg));
                        recommendations := a |},
                  {| arrays := arrays st2; client := Some c;
                     events :=
                       events st
                       ++ [Acquired c;
                           Queried (ExplainPlan (explainStatement trimmedQuery)) true]
                       ++ metadata_events (TableStatistics (scope cfg))
                            "Failed to get table statistics:"
                            (run_tableStatistics w (scope cfg))
                       ++ metadata_events (IndexInformation (scope cfg))
                            "Failed to get index information:"
                            (run_indexInformation w (scope cfg))
                       ++ warnings
                       ++ release_events w releaseWarning c |}))
  end.
Proof.
  destruct (connect w) as [c|e] eqn:Hc; [|by apply analyze_unreachable].
  destruct (validate_cases query) as [(tq & Hacc & _)|(detail & Hv & Hrej & _)].
  - destruct (run_explain w (explainStatement tq)) as [plan|e] eqn:He.
    + right; right.
      destruct (analyze_completes query st c tq plan Hc Hacc He)
        as (a & st1 & st2 & warnings & Hgen & Harr & Hwarn & Hrun).
      exists tq, plan, a, st1, st2, warnings. auto 10.
    + right; left. exists tq, e. split; [exact Hacc|]. split; [exact He|].
      by apply analyze_no_plan.
  - left. exists detail. split; [exact Hrej|]. by apply analyze_rejected.
Qed.









End AnalyzeFacts.

(** ** The two analyzers *)

Lemma postgre_generate_contained i18n ex ts ix st :
  exists a st',
    PostgreAnalyzer.generateRecommendations i18n ex ts ix st = (Ok a, st')
    /\ client st' = client st
    /\ exists warnings, events st' = events st ++ warnings /\ Forall is_warning warnings.
Proof.
  rewrite PostgreFacts.postgre_generate_shape.
  match goal with |- context [generate ?l ?p ?b st] =>
    destruct (generate_total l p b st) as (a & st' & H) end.
  exists a, st'. split; [exact H|].
  by destruct (generate_frame _ _ _ _ _ _ H) as (_ & _ & ? & ?).
Qed.

Lemma mysql_generate_contained i18n ex ts ix st :
  exists a st',
    MySQLAnalyzer.generateRecommendations i18n ex ts ix st = (Ok a, st')
    /\ client st' = client st
    /\ exists warnings, events st' = events st ++ warnings /\ Forall is_warning warnings.
Proof.
  rewrite MySQLFacts.mysql_generate_shape.
  match goal with |- context [generate ?l ?p ?b st] =>
    destruct (generate_total l p b st) as (a & st' & H) end.
  exists a, st'. split; [exact H|].
  by destruct (generate_frame _ _ _ _ _ _ H) as (_ & _ & ? & ?).
Qed.

(** C3, as stated, fails: the connection is opened before the query is
    looked at, so with an unreachable database [analyze("")] fails with
    the connection error, which is not the error of an invalid query. *)
Lemma C3_unreachable_database_masks_validation :
  only_whitespace "" = true
  /\ fst (PostgreAnalyzer.analyze keys Samples.unreachable no_database (Str "") initial)
     = Throw (JS.Error "PostgreSQL Analysis Error: connect ECONNREFUSED 127.0.0.1:5432")
  /\ ~ InvalidQueryError "PostgreSQL"
         (JS.Error "PostgreSQL Analysis Error: connect ECONNREFUSED 127.0.0.1:5432").
Proof.
  split; [reflexivity|]. split; [reflexivity|].
  intros [H|H]; discriminate H.
Qed.

(** C3, amended: once the connection is established, a text that is empty
    or white space only makes [analyze] fail with the error of an invalid
    query, and a text whose trimmed form does not start with "select",
    whatever the case, makes it fail with the error of an unsupported
    query; for both analyzers. *)
Theorem C3_validation_once_connected (i18n : I18n) (cfg : config) (st : state)
    (text : string) :
  (forall (w : world PostgreAnalyzer.ExplainResult PostgreAnalyzer.TableStat.t
                 PostgreAnalyzer.IndexInfo.t) c,
     connect w = Ok c ->
     (only_whitespace text = true ->
        exists e st',
          PostgreAnalyzer.analyze i18n w cfg (Str text) st = (Throw e, st')
          /\ InvalidQueryError "PostgreSQL" e)
     /\ (only_whitespace text = false ->
         JS.startsWith (JS.toLowerCase (JS.trim text)) "select" = false ->
         exists e st',
           PostgreAnalyzer.analyze i18n w cfg (Str text) st = (Throw e, st')
           /\ UnsupportedQueryError "PostgreSQL" e))
  /\ (forall (w : world MySQLAnalyzer.ExplainRow.t MySQLAnalyzer.TableStat.t
                    MySQLAnalyzer.IndexInfo.t) c,
        connect w = Ok c ->
        (only_whitespace text = true ->
           exists e st',
             MySQLAnalyzer.analyze i18n w cfg (Str text) st = (Throw e, st')
             /\ InvalidQueryError "MySQL" e)
        /\ (only_whitespace text = false ->
            JS.startsWith (JS.toLowerCase (JS.trim text)) "select" = false ->
            exists e st',
              MySQLAnalyzer.analyze i18n w cfg (Str text) st = (Throw e, st')
              /\ UnsupportedQueryError "MySQL" e)).
Proof.
  split; intros w c Hc.
  - exact (analyze_validation "PostgreSQL" PostgreAnalyzer.explainStatement
             PostgreAnalyzer.scope "Error releasing client:"
             (PostgreAnalyzer.generateRecommendations i18n) w cfg text st c Hc).
  - exact (analyze_validation "MySQL" MySQLAnalyzer.explainStatement
             MySQLAnalyzer.scope "Error closing connection:"
             (MySQLAnalyzer.generateRecommendations i18n) w cfg text st c Hc).
Qed.

Lemma C3_validation_once_connected_witness :
  let w := Samples.plan_only {| PostgreAnalyzer.Plan := None |} in
  connect w = Ok 7%positive
  /\ only_whitespace "" = true
  /\ only_whitespace "   " = true
  /\ only_whitespace "UPDATE t SET x=1" = false
  /\ JS.startsWith (JS.toLowerCase (JS.trim "UPDATE t SET x=1")) "select" = false
  /\ (exists e st',
        PostgreAnalyzer.analyze keys w no_database (Str "") initial = (Throw e, st')
        /\ InvalidQueryError "PostgreSQL" e)
  /\ (exists e st',
        PostgreAnalyzer.analyze keys w no_database (Str "   ") initial = (Throw e, st')
        /\ InvalidQueryError "PostgreSQL" e)
  /\ (exists e st',
        PostgreAnalyzer.analyze keys w no_database (Str "UPDATE t SET x=1") initial
        = (Throw e, st')
        /\ UnsupportedQueryError "PostgreSQL" e).
Proof.
  cbv zeta. repeat (split; [reflexivity|]).
  split; [|split].
  - exact (proj1 (proj1 (C3_validation_once_connected keys no_database initial "")
                    (Samples.plan_only {| PostgreAnalyzer.Plan := None |}) 7%positive eq_refl)
             eq_refl).
  - exact (proj1 (proj1 (C3_validation_once_connected keys no_database initial "   ")
                    (Samples.plan_only {| PostgreAnalyzer.Plan := None |}) 7%positive eq_refl)
             eq_refl).
  - exact (proj2 (proj1 (C3_validation_once_connected keys no_database initial
                           "UPDATE t SET x=1")
                    (Samples.plan_only {| PostgreAnalyzer.Plan := None |}) 7%positive eq_refl)
             eq_refl eq_refl).
Defined.

(** C4, as stated, fails: a plan whose root has no node type goes through
    the analysis unchanged; the call returns a result with that plan and
    an empty array of recommendations. *)
Lemma C4_plan_without_node_type_is_accepted :
  let payload := {| PostgreAnalyzer.Plan := Some PostgreAnalyzer.empty_node |} in
  PostgreAnalyzer.Node_Type PostgreAnalyzer.empty_node = None
  /\ exists res st',
       PostgreAnalyzer.analyze keys (Samples.plan_only payload) no_database
         (Str "select * from orders") initial = (Ok res, st')
       /\ executionPlan res = Some payload
       /\ arrays st' !! recommendations res = Some [].
Proof.
  cbv zeta. split; [reflexivity|].
  eexists _, _. split; [vm_compute; reflexivity|]. split; reflexivity.
Qed.

(** C4, amended: there is no normalization step and no error for a
    malformed plan.  Whatever payload the database returns for an accepted
    query, with or without a node type and whatever its other fields
    hold, the analysis returns a result that carries the payload as it
    is; for both analyzers. *)
Theorem C4_native_plan_is_never_rejected (i18n : I18n) (cfg : config) (st : state) :
  (forall (w : world PostgreAnalyzer.ExplainResult PostgreAnalyzer.TableStat.t
                 PostgreAnalyzer.IndexInfo.t) c q trimmedQuery payload,
     connect w = Ok c ->
     accepted q trimmedQuery ->
     run_explain w (PostgreAnalyzer.explainStatement trimmedQuery) = Ok payload ->
     exists res st',
       PostgreAnalyzer.analyze i18n w cfg q st = (Ok res, st')
       /\ executionPlan res = payload)
  /\ (forall (w : world MySQLAnalyzer.ExplainRow.t MySQLAnalyzer.TableStat.t
                    MySQLAnalyzer.IndexInfo.t) c q trimmedQuery payload,
        connect w = Ok c ->
        accepted q trimmedQuery ->
        run_explain w (MySQLAnalyzer.explainStatement trimmedQuery) = Ok payload ->
        exists res st',
          MySQLAnalyzer.analyze i18n w cfg q st = (Ok res, st')
          /\ executionPlan res = payload).
Proof.
  split; intros w c q tq payload Hc Hq He.
  - destruct (analyze_keeps_plan "PostgreSQL" PostgreAnalyzer.explainStatement
                PostgreAnalyzer.scope "Error releasing client:"
                (PostgreAnalyzer.generateRecommendations i18n) w cfg
                (postgre_generate_contained i18n) q st c tq payload Hc Hq He)
      as (res & st' & H1 & H2 & _).
    by exists res, st'.
  - destruct (analyze_keeps_plan "MySQL" MySQLAnalyzer.explainStatement
                MySQLAnalyzer.scope "Error closing connection:"
                (MySQLAnalyzer.generateRecommendations i18n) w cfg
                (mysql_generate_contained i18n) q st c tq payload Hc Hq He)
      as (res & st' & H1 & H2 & _).
    by exists res, st'.
Qed.

Lemma select_orders_accepted : accepted (Str "select * from orders") "select * from orders".
Proof.
  exists "select * from orders".
  split; [reflexivity|]. split; [reflexivity|]. split; [discriminate|reflexivity].
Defined.

Lemma C4_native_plan_is_never_rejected_witness :
  let payload := {| PostgreAnalyzer.Plan := Some PostgreAnalyzer.empty_node |} in
  let w : world PostgreAnalyzer.ExplainResult PostgreAnalyzer.TableStat.t
            PostgreAnalyzer.IndexInfo.t := Samples.plan_only payload in
  connect w = Ok 7%positive
  /\ accepted (Str "select * from orders") "select * from orders"
  /\ run_explain w (PostgreAnalyzer.explainStatement "select * from orders")
     = Ok (Some payload)
  /\ exists res st',
       PostgreAnalyzer.analyze keys w no_database (Str "select * from orders") initial
       = (Ok res, st')
       /\ executionPlan res = Some payload.
Proof.
  cbv zeta. split; [reflexivity|]. split; [exact select_orders_accepted|].
  split; [reflexivity|].
  exact (proj1 (C4_native_plan_is_never_rejected keys no_database initial)
           (Samples.plan_only {| PostgreAnalyzer.Plan := Some PostgreAnalyzer.empty_node |})
           7%positive (Str "select * from orders") "select * from orders" _
           eq_refl select_orders_accepted eq_refl).
Defined.




(** The three ways out of a call with a connection, as event logs. *)
Example trace_of_success :
  events (snd (PostgreAnalyzer.analyze keys
                 (Samples.plan_only {| PostgreAnalyzer.Plan := Some Samples.seq_scan_orders |})
                 no_database (Str "select * from orders") initial))
  = [Acquired 7%positive;
     Queried (ExplainPlan
                "EXPLAIN (FORMAT JSON, ANALYZE, VERBOSE, BUFFERS, COSTS, TIMING) select * from orders")
             true;
     Queried (TableStatistics (Some "public")) false;
     Warned "Failed to get table statistics:" "permission denied";
     Queried (IndexInformation (Some "public")) false;
     Warned "Failed to get index information:" "permission denied";
     Released 7%positive true].
Proof. vm_compute. reflexivity. Qed.

Example trace_of_rejected_query :
  events (snd (MySQLAnalyzer.analyze keys (Samples.plan_only Samples.scan_orders)
                 no_database (Str "UPDATE t SET x=1") initial))
  = [Acquired 7%positive; Released 7%positive true].
Proof. vm_compute. reflexivity. Qed.

Example trace_of_missing_plan :
  events (snd (MySQLAnalyzer.analyze keys
                 {| connect := Ok 7%positive;
                    run_explain := fun _ => Throw (JS.Error "Table 'shop.orders' doesn't exist");
                    run_tableStatistics := fun _ => Ok [];
                    run_indexInformation := fun _ => Ok [];
                    release := fun _ => Throw (JS.Error "socket closed") |}
                 no_database (Str "select * from orders") initial))
  = [Acquired 7%positive;
     Queried (ExplainPlan "EXPLAIN select * from orders") false;
     Released 7%positive false;
     Warned "Error closing connection:" "socket closed"].
Proof. vm_compute. reflexivity. Qed.

(** * Further properties *)

(** ** The rule calls, written out *)

Lemma when_push_run c r (s : list Recommendation) :
  when c (push r) s = (Ok tt, s ++ pushed c r).
Proof. destruct c; simpl; [reflexivity|]. unfold ret. by rewrite app_nil_r. Qed.

Lemma when_when_push_run c1 c2 r (s : list Recommendation) :
  when c1 (when c2 (push r)) s = (Ok tt, s ++ pushed (c1 && c2) r).
Proof. destruct c1; simpl; [apply when_push_run|]. unfold ret. by rewrite app_nil_r. Qed.

Lemma bind_run {A B} (m : Rules A) (k : A -> Rules B) s a s' :
  m s = (Ok a, s') -> bind m k s = k a s'.
Proof. intros H. unfold bind. by rewrite H. Qed.

Lemma bind_throw {A B} (m : Rules A) (k : A -> Rules B) s e s' :
  m s = (Throw e, s') -> bind m k s = (Throw e, s').
Proof. intros H. unfold bind. by rewrite H. Qed.

Ltac step_rules :=
  repeat first
    [ erewrite bind_run by first [apply when_push_run | apply when_when_push_run]; cbv beta
    | rewrite <- bind_assoc; cbv beta ].

Lemma mysql_statistics_run i18n e ts s :
  MySQLAnalyzer.analyzeTableStatistics i18n e ts s
  = (Ok tt, s ++ MySQLFindings.statistics_findings i18n e ts).
Proof.
  unfold MySQLAnalyzer.analyzeTableStatistics, MySQLFindings.statistics_findings.
  destruct ts as [|stat ts]; [unfold ret; simpl; by rewrite app_nil_r|].
  change (length (stat :: ts) =? 0) with false. cbv iota.
  destruct (find _ (stat :: ts)) as [relevant|]; [|unfold ret; by rewrite app_nil_r].
  step_rules. by rewrite when_push_run, <- app_assoc.
Qed.

Lemma mysql_rules_run i18n e ts ix s :
  run_rules (MySQLAnalyzer.rule_calls i18n e ts ix) s
  = (Ok tt, s ++ MySQLFindings.findings i18n e ts ix).
Proof.
  unfold MySQLAnalyzer.rule_calls, run_rules; simpl foldr.
  erewrite (bind_run (MySQLAnalyzer.analyzeTableAccessMethod i18n e)); cycle 1.
  { unfold MySQLAnalyzer.analyzeTableAccessMethod. step_rules. apply when_push_run. }
  erewrite (bind_run (MySQLAnalyzer.analyzeJoinOperations i18n e)); cycle 1.
  { unfold MySQLAnalyzer.analyzeJoinOperations. step_rules. apply when_push_run. }
  erewrite (bind_run (MySQLAnalyzer.analyzeTemporaryStructures i18n e)); cycle 1.
  { unfold MySQLAnalyzer.analyzeTemporaryStructures. step_rules. apply when_push_run. }
  erewrite (bind_run (MySQLAnalyzer.analyzeIndexUsage i18n e ix)); cycle 1.
  { unfold MySQLAnalyzer.analyzeIndexUsage. step_rules. cbv zeta. apply when_when_push_run. }
  erewrite (bind_run (MySQLAnalyzer.analyzeTableStatistics i18n e ts))
    by apply mysql_statistics_run.
  erewrite (bind_run (MySQLAnalyzer.analyzeQueryStructure i18n e)); cycle 1.
  { unfold MySQLAnalyzer.analyzeQueryStructure. step_rules. apply when_push_run. }
  erewrite (bind_run (MySQLAnalyzer.analyzePartitioning i18n e))
    by apply when_push_run.
  erewrite (bind_run (MySQLAnalyzer.analyzeSubqueries i18n e)); cycle 1.
  { unfold MySQLAnalyzer.analyzeSubqueries. step_rules. apply when_push_run. }
  erewrite (bind_run (MySQLAnalyzer.analyzeSortOperations i18n e)); cycle 1.
  { unfold MySQLAnalyzer.analyzeSortOperations. step_rules. apply when_push_run. }
  erewrite (bind_run (MySQLAnalyzer.analyzeGroupOperations i18n e)); cycle 1.
  { unfold MySQLAnalyzer.analyzeGroupOperations. step_rules. apply when_push_run. }
  unfold ret, MySQLFindings.findings. rewrite <- !app_assoc, <- !andb_assoc. reflexivity.
Qed.

Lemma deref_run {A} (a : A) (s : list Recommendation) : deref (Some a) s = (Ok a, s).
Proof. reflexivity. Qed.

Ltac step_plan :=
  repeat first
    [ erewrite bind_run by first [apply deref_run | apply when_push_run]; cbv beta
    | rewrite <- bind_assoc; cbv beta ].

Module PostgreFindingsFacts.
Import PostgreAnalyzer PostgreFindings.

Lemma first_rules_run i18n plan s :
  bind (bind (analyzeScanMethods i18n (Some plan))
              (fun _ => analyzeJoinOperations i18n (Some plan)))
       (fun _ => analyzeTemporaryStructures i18n (Some plan)) s
  = (Ok tt, s ++ first_findings i18n plan).
Proof.
  unfold analyzeScanMethods, analyzeJoinOperations, analyzeTemporaryStructures.
  step_plan. rewrite when_push_run. unfold first_findings.
  rewrite <- !app_assoc. reflexivity.
Qed.

Lemma index_rule_run i18n plan ix s :
  analyzeIndexUsage i18n (Some plan) ix s
  = if index_rule_fails plan
    then (Throw (JS.TypeError "Cannot read properties of undefined (reading 'includes')"), s)
    else (Ok tt,
          s ++ pushed (JS.is_literal (Node_Type plan) "Hash Join"
                       && negb (JS.includes (default "" (Hash_Cond plan)) "="))
                 (recommend i18n "MISSING_JOIN_INDEX" HIGH "missingJoinIndex" []
                    ["createIndex"; "analyzeJoin"; "considerFK"])).
Proof.
  unfold analyzeIndexUsage, index_rule_fails. step_plan.
  destruct (JS.is_literal (Node_Type plan) "Hash Join"); simpl and_then.
  - destruct (Hash_Cond plan) as [cond|]; simpl.
    + unfold bind, ret; simpl. apply when_push_run.
    + reflexivity.
  - unfold bind, ret; simpl. by rewrite app_nil_r.
Qed.

Lemma partition_rule_run i18n plan s :
  analyzePartitioning i18n (Some plan) s
  = if partition_rule_fails plan
    then (Throw (JS.TypeError "Cannot read properties of undefined (reading 'includes')"), s)
    else (Ok tt,
          s ++ pushed (is_zero (Partitions_Removed plan)
                       && JS.includes (default "" (Node_Type plan)) "Partition")
                 (recommend i18n "INEFFECTIVE_PARTITION" HIGH "ineffectivePartition" []
                    ["reviewStrategy"; "addConstraints"; "optimizeKeys"])).
Proof.
  unfold analyzePartitioning, partition_rule_fails. step_plan.
  destruct (is_zero (Partitions_Removed plan)); simpl and_then.
  - destruct (Node_Type plan) as [ty|]; simpl.
    + unfold bind, ret; simpl. apply when_push_run.
    + reflexivity.
  - unfold bind, ret; simpl. by rewrite app_nil_r.
Qed.

Lemma middle_rules_run i18n plan ts s :
  (analyzeTableStatistics i18n (Some plan) ts ;;
   analyzeParallelExecution i18n (Some plan)) s
  = (Ok tt,
     s ++ pushed (exceeds (Planning_Time plan) 1000)
            (recommend i18n "OUTDATED_STATS" MEDIUM "outdatedStats" []
               ["runAnalyze"; "autoVacuum"; "monitoring"])
       ++ pushed (falsy_number (Workers_Planned plan) && exceeds (Total_Cost plan) 100000)
            (recommend i18n "MISSED_PARALLEL" MEDIUM "missedParallel" []
               ["enableParallel"; "adjustSettings"; "reviewQuery"])).
Proof.
  unfold analyzeTableStatistics, analyzeParallelExecution.
  step_plan. rewrite when_push_run, <- !app_assoc. reflexivity.
Qed.

Lemma last_rules_run i18n plan s :
  bind (bind (analyzeCTEUsage i18n (Some plan))
              (fun _ => analyzeAggregationOperations i18n (Some plan)))
       (fun _ => analyzeMaterialization i18n (Some plan)) s
  = (Ok tt,
     s ++ pushed (JS.is_literal (Node_Type plan) "CTE Scan"
                  && exceeds (Actual_Rows plan) 1
                  && negb (truthy_flag (CTE_Materialized plan)))
            (recommend i18n "CTE_MATERIALIZATION" MEDIUM "cteMaterialization" []
               ["materialize"; "analyzeUsage"; "considerTemp"])
       ++ pushed (JS.is_literal (Node_Type plan) "Group Aggregate"
                  && exceeds (Actual_Rows plan) 1000)
            (recommend i18n "INEFFICIENT_AGGREGATE" MEDIUM "inefficientAggregate" []
               ["useHash"; "addIndexes"; "restructure"])
       ++ pushed (JS.is_literal (Node_Type plan) "Hash Aggregate"
                  && JS.gt (JS.of_undefinable (Peak_Memory_Usage plan))
                           (JS.of_undefinable (Peak_Memory_Allowed plan)))
            (recommend i18n "AGGREGATE_SPILL" HIGH "aggregateSpill" []
               ["increaseWork"; "limitGroups"; "useIndexes"])
       ++ pushed (exceeds (Actual_Loops plan) 1
                  && negb (JS.is_literal (Node_Type plan) "Materialize"))
            (recommend i18n "MISSED_MATERIALIZATION" MEDIUM "missedMaterialization" []
               ["addMaterialize"; "analyzeMemory"; "considerCTE"])).
Proof.
  unfold analyzeCTEUsage, analyzeAggregationOperations, analyzeMaterialization.
  step_plan. rewrite when_push_run, <- !app_assoc. reflexivity.
Qed.

(** The ten rule calls on a plan object: the array they leave and whether
    one of them threw. *)
Lemma rules_run i18n plan ts ix s :
  run_rules (rule_calls i18n {| Plan := Some plan |} ts ix) s
  = (failure plan, s ++ findings i18n plan).
Proof.
  unfold rule_calls, run_rules; simpl foldr. cbn [Plan].
  rewrite bind_assoc, bind_assoc.
  erewrite bind_run by apply first_rules_run.
  unfold findings, failure.
  unfold bind at 1. rewrite index_rule_run.
  destruct (index_rule_fails plan); [by rewrite app_nil_r|]. cbn [orb].
  rewrite bind_assoc. erewrite bind_run by apply middle_rules_run.
  unfold bind at 1. rewrite partition_rule_run.
  destruct (partition_rule_fails plan).
  - unfold middle_findings. rewrite app_nil_r, <- !app_assoc. reflexivity.
  - rewrite bind_assoc, bind_assoc. erewrite bind_run by apply last_rules_run.
    unfold ret, middle_findings, last_findings. rewrite <- !app_assoc. reflexivity.
Qed.
End PostgreFindingsFacts.

(** ** The array [generateRecommendations] returns, written out *)

Lemma mysql_generate_findings i18n e ts ix st :
  MySQLAnalyzer.generateRecommendations i18n (Some e) ts ix st
  = (Ok (fresh (dom (arrays st))),
     {| arrays :=
          <[fresh (dom (arrays st)) :=
              array_sort (compareRecommendations MySQLAnalyzer.priorityTypes)
                (MySQLFindings.findings i18n e ts ix)]> (arrays st);
        client := client st;
        events := events st |}).
Proof.
  rewrite MySQLFacts.mysql_generate_shape.
  rewrite (generate_ext _ _ _ (run_rules (MySQLAnalyzer.rule_calls i18n e ts ix)))
    by apply MySQLFacts.mysql_body_run_rules.
  rewrite generate_run, mysql_rules_run. simpl. by rewrite app_nil_r.
Qed.

Lemma postgre_generate_findings i18n plan ts ix st :
  PostgreAnalyzer.generateRecommendations i18n
    (Some {| PostgreAnalyzer.Plan := Some plan |}) ts ix st
  = (Ok (fresh (dom (arrays st))),
     {| arrays :=
          <[fresh (dom (arrays st)) :=
              array_sort (compareRecommendations PostgreAnalyzer.priorityTypes)
                (PostgreFindings.findings i18n plan)]> (arrays st);
        client := client st;
        events := events st
                  ++ rule_warning (t i18n "analyzer.errors.recommendations" [])
                       (PostgreFindings.failure plan) |}).
Proof.
  rewrite PostgreFacts.postgre_generate_shape.
  rewrite (generate_ext _ _ _
             (run_rules (PostgreAnalyzer.rule_calls i18n
                           {| PostgreAnalyzer.Plan := Some plan |} ts ix)))
    by apply PostgreFacts.postgre_body_run_rules.
  by rewrite generate_run, PostgreFindingsFacts.rules_run.
Qed.

Lemma count_type_app ty l1 l2 :
  count_type ty (l1 ++ l2) = count_type ty l1 + count_type ty l2.
Proof. unfold count_type. by rewrite List.filter_app, length_app. Qed.

Lemma count_type_pushed ty c r :
  count_type ty (pushed c r) = if c && String.eqb (type r) ty then 1 else 0.
Proof. unfold count_type. destruct c; simpl; [|reflexivity]. by destruct (String.eqb _ _). Qed.

Lemma count_type_perm ty l l' : Permutation l l' -> count_type ty l = count_type ty l'.
Proof.
  unfold count_type. induction 1 as [|x l l' _ IH|x y l|l l' l'' _ IH1 _ IH2]; simpl.
  - reflexivity.
  - destruct (String.eqb _ _); simpl; congruence.
  - by destruct (String.eqb (type x) ty), (String.eqb (type y) ty).
  - congruence.
Qed.

Lemma count_type_sorted compareFn ty l :
  count_type ty (array_sort compareFn l) = count_type ty l.
Proof. symmetry. apply count_type_perm, array_sort_perm. Qed.

Lemma in_pushed r c x : In r (pushed c x) -> c = true /\ r = x.
Proof. destruct c; simpl; intros H; [|contradiction]. destruct H as [<-|[]]. auto. Qed.

(** X1: the helper [analyzePlanNode] walks the whole tree: it never
    throws, visits every node once in depth-first pre-order (children in
    the order of [Plans]), and appends at each node what the scan, join
    and temporary-structure rules find there. *)
Theorem X1_analyzePlanNode_walks_the_tree (i18n : I18n) (node : PostgreAnalyzer.PlanNode)
    (recommendations : list Recommendation) :
  PostgreAnalyzer.analyzePlanNode i18n node recommendations
  = (Ok tt,
     recommendations
     ++ flat_map (PostgreFindings.first_findings i18n) (PostgreAnalyzer.preorder node)).
Proof.
  rewrite TreeFacts.analyzePlanNode_preorder. do 2 f_equal.
  apply flat_map_ext. intros n.
  unfold PostgreAnalyzer.node_rules.
  pose proof (PostgreFindingsFacts.first_rules_run i18n n []) as H.
  rewrite <- bind_assoc in H. cbv beta in H. by rewrite H.
Qed.

(** X2: the PostgreSQL rule engine looks at the root of the plan only and
    never at the metadata: the outcome is the same for the root cut off
    from its sub-plans and for any other table statistics and indexes. *)
Theorem X2_postgre_engine_reads_the_root_only (i18n : I18n)
    (root : PostgreAnalyzer.PlanNode)
    (tableStats tableStats' : list PostgreAnalyzer.TableStat.t)
    (indexes indexes' : list PostgreAnalyzer.IndexInfo.t) (st : state) :
  PostgreAnalyzer.generateRecommendations i18n
    (Some {| PostgreAnalyzer.Plan := Some root |}) tableStats indexes st
  = PostgreAnalyzer.generateRecommendations i18n
      (Some {| PostgreAnalyzer.Plan := Some (PostgreAnalyzer.without_children root) |})
      tableStats' indexes' st.
Proof. destruct root. reflexivity. Qed.

(** X3: [generateRecommendations] returns a new array: its reference was
    not in use before the call, every array that existed is left as it
    was, and the connection variable is untouched; for both analyzers. *)
Theorem X3_recommendations_in_a_new_array (i18n : I18n) (st : state) :
  (forall ex ts ix,
     exists a st',
       PostgreAnalyzer.generateRecommendations i18n ex ts ix st = (Ok a, st')
       /\ arrays st !! a = None
       /\ is_Some (arrays st' !! a)
       /\ (forall b, b <> a -> arrays st' !! b = arrays st !! b)
       /\ client st' = client st)
  /\ (forall ex ts ix,
        exists a st',
          MySQLAnalyzer.generateRecommendations i18n ex ts ix st = (Ok a, st')
          /\ arrays st !! a = None
          /\ is_Some (arrays st' !! a)
          /\ (forall b, b <> a -> arrays st' !! b = arrays st !! b)
          /\ client st' = client st).
Proof.
  assert (forall label pt body,
            exists a st',
              generate label pt body st = (Ok a, st')
              /\ arrays st !! a = None
              /\ is_Some (arrays st' !! a)
              /\ (forall b, b <> a -> arrays st' !! b = arrays st !! b)
              /\ client st' = client st) as Hgen.
  { intros label pt body. eexists _, _. split; [apply generate_run|].
    split; [apply not_elem_of_dom, is_fresh|].
    destruct body; simpl;
      (split; [rewrite lookup_insert_eq; eauto|]);
      (split; [intros b Hb; by apply lookup_insert_ne|reflexivity]). }
  split; intros ex ts ix.
  - rewrite PostgreFacts.postgre_generate_shape. apply Hgen.
  - rewrite MySQLFacts.mysql_generate_shape. apply Hgen.
Qed.

(** X4: with no explain result at all, both analyzers return an empty
    array and log nothing; a PostgreSQL explain result that has no [Plan]
    makes the first rule throw on the missing plan, which leaves an empty
    array and one warning. *)
Theorem X4_absent_plan_gives_no_recommendation (i18n : I18n) (st : state) :
  (forall ts ix,
     exists a st',
       PostgreAnalyzer.generateRecommendations i18n None ts ix st = (Ok a, st')
       /\ arrays st' !! a = Some [] /\ events st' = events st)
  /\ (forall ts ix,
        exists a st',
          MySQLAnalyzer.generateRecommendations i18n None ts ix st = (Ok a, st')
          /\ arrays st' !! a = Some [] /\ events st' = events st)
  /\ (forall ts ix,
        exists a st',
          PostgreAnalyzer.generateRecommendations i18n
            (Some {| PostgreAnalyzer.Plan := None |}) ts ix st = (Ok a, st')
          /\ arrays st' !! a = Some []
          /\ exists detail,
               events st'
               = events st ++ [Warned (t i18n "analyzer.errors.recommendations" []) detail]).
Proof.
  split; [|split]; intros ts ix.
  - rewrite PostgreFacts.postgre_generate_shape, generate_run.
    eexists _, _. split; [reflexivity|]. simpl. split; [apply lookup_insert_eq|reflexivity].
  - rewrite MySQLFacts.mysql_generate_shape, generate_run.
    eexists _, _. split; [reflexivity|]. simpl. split; [apply lookup_insert_eq|reflexivity].
  - rewrite PostgreFacts.postgre_generate_shape, generate_run.
    eexists _, _. split; [reflexivity|]. simpl. split; [apply lookup_insert_eq|].
    eexists. reflexivity.
Qed.

(** X5: whenever there is an explain result, the array returned is in
    prioritized order: severity first, then the position of the type in
    the analyzer's priority list; for both analyzers. *)
Theorem X5_recommendations_come_prioritized (i18n : I18n) (st : state) :
  (forall ex ts ix,
     exists a st' out,
       PostgreAnalyzer.generateRecommendations i18n (Some ex) ts ix st = (Ok a, st')
       /\ arrays st' !! a = Some out
       /\ StronglySorted (in_order PostgreAnalyzer.priorityTypes) out)
  /\ (forall ex ts ix,
        exists a st' out,
          MySQLAnalyzer.generateRecommendations i18n (Some ex) ts ix st = (Ok a, st')
          /\ arrays st' !! a = Some out
          /\ StronglySorted (in_order MySQLAnalyzer.priorityTypes) out).
Proof.
  split; intros ex ts ix.
  - rewrite PostgreFacts.postgre_generate_shape, generate_run.
    eexists _, _, _. split; [reflexivity|]. simpl. split; [apply lookup_insert_eq|].
    apply sorted_in_order, array_sort_sorted, compare_rank.
  - rewrite MySQLFacts.mysql_generate_shape, generate_run.
    eexists _, _, _. split; [reflexivity|]. simpl. split; [apply lookup_insert_eq|].
    apply sorted_in_order, array_sort_sorted, compare_rank.
Qed.

(** ** What comes first, and how often a type is reported *)

Section FirstBySort.
Context {A : Type}.
Variable compareFn : A -> A -> JS.number.
Variable rk : A -> Z.
Hypothesis compare_rank :
  forall a b, sorts_after compareFn a b = bool_decide (rk b < rk a)%Z.

(** An element that nothing ranks below, and that alone has its rank, is
    the first after sorting. *)
Lemma array_sort_least_first x l :
  In x l ->
  (forall y, In y l -> (rk x <= rk y)%Z) ->
  (forall y, In y l -> rk y = rk x -> y = x) ->
  exists rest, array_sort compareFn l = x :: rest /\ Permutation l (x :: rest).
Proof.
  intros Hin Hleast Huniq.
  pose proof (array_sort_perm compareFn l) as Hperm.
  pose proof (array_sort_sorted compareFn rk compare_rank l) as Hsorted.
  destruct (array_sort compareFn l) as [|h rest] eqn:E.
  - apply Permutation_sym, Permutation_nil in Hperm. subst l. contradiction.
  - assert (In h l) as Hh by (eapply Permutation_in; [symmetry; exact Hperm|by left]).
    assert (In x (h :: rest)) as Hx by (eapply Permutation_in; [exact Hperm|exact Hin]).
    assert (h = x) as ->.
    { apply Huniq; [exact Hh|]. apply Z.le_antisymm; [|by apply Hleast].
      destruct Hx as [->|Hx]; [lia|].
      inversion Hsorted as [|? ? _ Hall]; subst.
      rewrite List.Forall_forall in Hall. by apply Hall. }
    exists rest. split; [reflexivity|exact Hperm].
Qed.
End FirstBySort.

Lemma rank_nonneg priorityTypes r : (0 <= rank priorityTypes r)%Z.
Proof.
  unfold rank. pose proof (typeRank_bound priorityTypes r).
  destruct (severity r); simpl; lia.
Qed.

(** Rank 0 is the rank of a HIGH recommendation of the first listed type. *)
Lemma rank_zero first others r :
  rank (first :: others) r = 0%Z -> severity r = HIGH /\ type r = first.
Proof.
  unfold rank, typeRank. simpl position.
  destruct (String.eqb_spec first (type r)) as [->|Hne].
  - destruct (severity r); simpl; try lia. auto.
  - destruct (position others (type r)) as [i|]; simpl;
      destruct (severity r); simpl; lia.
Qed.

Lemma count_guarded_cons ty c name l :
  count_guarded ty ((c, name) :: l)
  = (if c && String.eqb name ty then 1 else 0) + count_guarded ty l.
Proof.
  unfold count_guarded. simpl. destruct (String.eqb name ty), c; simpl;
    rewrite ?andb_false_r; reflexivity.
Qed.

(** The array of the MySQL rules holds a type as often as its guards say. *)
Lemma mysql_count_findings ty i18n e ts ix :
  count_type ty (MySQLFindings.findings i18n e ts ix)
  = count_guarded ty (mysql_guards e ts ix).
Proof.
  unfold MySQLFindings.findings, MySQLFindings.statistics_findings, mysql_guards.
  cbv zeta. rewrite !count_guarded_cons.
  destruct (find _ ts); rewrite !count_type_app, !count_type_pushed;
    cbn [type recommend count_type List.filter length count_guarded andb]; lia.
Qed.

(** Evaluates [count_guarded] on a literal type: the conditions of the
    pushes of that type are what is left. *)
Ltac count_types :=
  unfold mysql_guards, postgre_guards, count_guarded;
  cbn [List.filter fst snd String.eqb Ascii.eqb Bool.eqb length].

Lemma in_mysql_findings i18n e ts ix r :
  In r (MySQLFindings.findings i18n e ts ix) ->
  type r = "TABLE_SCAN" ->
  r = recommend i18n "TABLE_SCAN" HIGH "tableScan"
        [("tableName", Text (MySQLAnalyzer.ExplainRow.table e))]
        ["review"; "addIndexes"; "coveringIndexes"].
Proof.
  unfold MySQLFindings.findings, MySQLFindings.statistics_findings.
  destruct (find _ ts);
    intros H; repeat (apply in_app_or in H; destruct H as [H|H]);
    try contradiction;
    apply in_pushed in H as [_ ->]; (reflexivity || discriminate).
Qed.

(** X6: when the row of EXPLAIN shows a full table scan (type ALL), the
    array the MySQL analyzer returns starts with the TABLE_SCAN
    recommendation, of severity HIGH and with the message asked for the
    table name; the rest holds no second one, and holds the ACCESS_TYPE
    recommendation once. *)
Theorem X6_mysql_full_scan_is_reported_first (i18n : I18n)
    (explainResult : MySQLAnalyzer.ExplainRow.t) (tableStats : list MySQLAnalyzer.TableStat.t)
    (indexes : list MySQLAnalyzer.IndexInfo.t) (st : state) :
  MySQLAnalyzer.ExplainRow.type explainResult = Some "ALL" ->
  exists a st' rest,
    MySQLAnalyzer.generateRecommendations i18n (Some explainResult) tableStats indexes st
    = (Ok a, st')
    /\ arrays st' !! a
       = Some (recommend i18n "TABLE_SCAN" HIGH "tableScan"
                 [("tableName", Text (MySQLAnalyzer.ExplainRow.table explainResult))]
                 ["review"; "addIndexes"; "coveringIndexes"] :: rest)
    /\ count_type "TABLE_SCAN" rest = 0
    /\ count_type "ACCESS_TYPE" rest = 1.
Proof.
  intros Hall.
  rewrite mysql_generate_findings.

  set (scan := recommend i18n "TABLE_SCAN" HIGH "tableScan" _ _).
  destruct (array_sort_least_first
              (compareRecommendations MySQLAnalyzer.priorityTypes)
              (rank MySQLAnalyzer.priorityTypes)
              (compare_rank MySQLAnalyzer.priorityTypes)
              scan (MySQLFindings.findings i18n explainResult tableStats indexes))
    as (rest & Hsort & Hperm).
  - unfold MySQLFindings.findings. apply in_or_app. left.
    unfold JS.is_literal. rewrite Hall. by left.
  - intros y _. change (rank MySQLAnalyzer.priorityTypes scan) with 0%Z.
    apply rank_nonneg.
  - intros y Hy Hrank. change (rank MySQLAnalyzer.priorityTypes scan) with 0%Z in Hrank.
    apply rank_zero in Hrank as [_ Hty].
    by apply (in_mysql_findings i18n explainResult tableStats indexes).
  - exists (fresh (dom (arrays st))). eexists. exists rest.
    split; [reflexivity|]. cbn [arrays].
    split; [rewrite lookup_insert_eq; by rewrite Hsort|].
    assert (forall ty, count_type ty rest
                       = count_type ty (MySQLFindings.findings i18n explainResult
                                          tableStats indexes)
                         - count_type ty [scan]) as Hcount.
    { intros ty. rewrite (count_type_perm ty _ _ Hperm).
      change (scan :: rest) with ([scan] ++ rest). rewrite count_type_app. lia. }
    rewrite !Hcount, !mysql_count_findings. count_types.
    unfold JS.is_literal. rewrite Hall. split; reflexivity.
Qed.

Lemma X6_mysql_full_scan_is_reported_first_witness :
  MySQLAnalyzer.ExplainRow.type Samples.scan_orders = Some "ALL"
  /\ exists a st' rest,
       MySQLAnalyzer.generateRecommendations keys (Some Samples.scan_orders)
         [Samples.orders_stat] [] initial = (Ok a, st')
       /\ arrays st' !! a
          = Some (recommend keys "TABLE_SCAN" HIGH "tableScan"
                    [("tableName", Text (MySQLAnalyzer.ExplainRow.table Samples.scan_orders))]
                    ["review"; "addIndexes"; "coveringIndexes"] :: rest)
       /\ count_type "TABLE_SCAN" rest = 0
       /\ count_type "ACCESS_TYPE" rest = 1.
Proof.
  split; [reflexivity|].
  exact (X6_mysql_full_scan_is_reported_first keys Samples.scan_orders
           [Samples.orders_stat] [] initial eq_refl).
Defined.

Lemma postgre_count_findings ty i18n plan :
  count_type ty (PostgreFindings.findings i18n plan)
  = count_guarded ty (postgre_guards plan).
Proof.
  unfold PostgreFindings.findings, PostgreFindings.first_findings,
    PostgreFindings.middle_findings, PostgreFindings.last_findings, postgre_guards.
  cbv zeta. rewrite !count_guarded_cons.
  destruct (PostgreFindings.index_rule_fails plan),
           (PostgreFindings.partition_rule_fails plan);
    rewrite ?count_type_app, ?count_type_pushed;
    cbn [type recommend count_type List.filter length count_guarded andb negb]; lia.
Qed.

Lemma count_guarded_absent ty l : ty ∉ map snd l -> count_guarded ty l = 0.
Proof.
  unfold count_guarded. induction l as [|[c name] l IH]; simpl; [reflexivity|].
  intros H. apply not_elem_of_cons in H as [Hne Hl].
  destruct (String.eqb_spec name ty) as [->|_]; [contradiction|]. by apply IH.
Qed.

(** Guards with pairwise different types report no type twice. *)
Lemma count_guarded_once ty l : NoDup (map snd l) -> count_guarded ty l <= 1.
Proof.
  induction l as [|[c name] l IH]; [unfold count_guarded; simpl; lia|].
  cbn [map snd]. intros [Hnot Hnd]%NoDup_cons. rewrite count_guarded_cons.
  destruct (String.eqb_spec name ty) as [->|_].
  - rewrite (count_guarded_absent _ _ Hnot). destruct c; simpl; lia.
  - rewrite andb_false_r. by apply IH.
Qed.

(** X7: no type is reported twice: whatever the explain result, the array
    either analyzer returns holds at most one recommendation of a type. *)
Theorem X7_no_type_is_reported_twice (i18n : I18n) (st : state) :
  (forall ex ts ix,
     exists a st' out,
       PostgreAnalyzer.generateRecommendations i18n ex ts ix st = (Ok a, st')
       /\ arrays st' !! a = Some out
       /\ forall ty, count_type ty out <= 1)
  /\ (forall ex ts ix,
        exists a st' out,
          MySQLAnalyzer.generateRecommendations i18n ex ts ix st = (Ok a, st')
          /\ arrays st' !! a = Some out
          /\ forall ty, count_type ty out <= 1).
Proof.
  split; intros ex ts ix.
  - destruct ex as [[[plan|]]|].
    + rewrite postgre_generate_findings. eexists _, _, _.
      split; [reflexivity|]. split; [apply lookup_insert_eq|].
      intros ty. rewrite count_type_sorted, postgre_count_findings.
      apply count_guarded_once. unfold postgre_guards. cbn [map snd].
      apply (bool_decide_unpack _). vm_compute. reflexivity.
    + rewrite PostgreFacts.postgre_generate_shape, generate_run. eexists _, _, _.
      split; [reflexivity|]. split; [apply lookup_insert_eq|].
      intros ty. simpl. unfold count_type. simpl. lia.
    + rewrite PostgreFacts.postgre_generate_shape, generate_run. eexists _, _, _.
      split; [reflexivity|]. split; [apply lookup_insert_eq|].
      intros ty. unfold count_type. simpl. lia.
  - destruct ex as [e|].
    + rewrite mysql_generate_findings. eexists _, _, _.
      split; [reflexivity|]. split; [apply lookup_insert_eq|].
      intros ty. rewrite count_type_sorted, mysql_count_findings.
      apply count_guarded_once. unfold mysql_guards. cbn [map snd].
      apply (bool_decide_unpack _). vm_compute. reflexivity.
    + rewrite MySQLFacts.mysql_generate_shape, generate_run. eexists _, _, _.
      split; [reflexivity|]. split; [apply lookup_insert_eq|].
      intros ty. unfold count_type. simpl. lia.
Qed.

(** Splits the goal on every condition of the form [extra?.includes(..)]
    and on whether a key is in use. *)
Ltac split_conditions :=
  repeat match goal with
         | |- context [MySQLAnalyzer.mentions ?a ?b] =>
             generalize (MySQLAnalyzer.mentions a b); intros []
         | |- context [JS.truthy_string ?a] =>
             generalize (JS.truthy_string a); intros []
         end;
  cbn [andb negb length].

(** X8: how the findings of the MySQL analyzer on temporary tables and
    sorting hang together.  DISTINCT_OPTIMIZATION is reported exactly when
    TEMP_TABLE and FILE_SORT both are; GROUP_BY_OPTIMIZATION, LARGE_SORT,
    MULTI_COLUMN_SORT and LOOSE_INDEX_SCAN only come with the findings
    whose condition they repeat. *)
Theorem X8_mysql_sort_findings_come_together (i18n : I18n)
    (explainResult : MySQLAnalyzer.ExplainRow.t) (tableStats : list MySQLAnalyzer.TableStat.t)
    (indexes : list MySQLAnalyzer.IndexInfo.t) (st : state) :
  exists a st' out,
    MySQLAnalyzer.generateRecommendations i18n (Some explainResult) tableStats indexes st
    = (Ok a, st')
    /\ arrays st' !! a = Some out
    /\ count_type "DISTINCT_OPTIMIZATION" out
       = Nat.min (count_type "TEMP_TABLE" out) (count_type "FILE_SORT" out)
    /\ count_type "GROUP_BY_OPTIMIZATION" out <= count_type "DISTINCT_OPTIMIZATION" out
    /\ count_type "LARGE_SORT" out <= count_type "FILE_SORT" out
    /\ count_type "MULTI_COLUMN_SORT" out <= count_type "FILE_SORT" out
    /\ count_type "LOOSE_INDEX_SCAN" out
       <= Nat.min (count_type "WHERE_CLAUSE" out) (count_type "TEMP_TABLE" out).
Proof.
  rewrite mysql_generate_findings. eexists _, _, _.
  split; [reflexivity|]. split; [apply lookup_insert_eq|].
  rewrite !count_type_sorted, !mysql_count_findings. count_types.
  generalize (JS.gt (JS.of_nullable (MySQLAnalyzer.ExplainRow.rows explainResult)) (JS.of_Z 1000)).
  intros large. split_conditions; destruct large; cbn [andb length Nat.min]; lia.
Qed.

(** X9: findings of the MySQL analyzer that exclude each other.  What is
    reported for a row that uses no index (JOIN_OPTIMIZATION,
    UNUSED_INDEXES, GROUP_BY_OPTIMIZATION) never comes with what is
    reported for a row that uses one (PARTIAL_INDEX_USAGE,
    MULTI_COLUMN_SORT, LOOSE_INDEX_SCAN); and a row is reported as a
    dependent subquery or as a subquery, never as both. *)
Theorem X9_mysql_findings_exclude_each_other (i18n : I18n)
    (explainResult : MySQLAnalyzer.ExplainRow.t) (tableStats : list MySQLAnalyzer.TableStat.t)
    (indexes : list MySQLAnalyzer.IndexInfo.t) (st : state) :
  exists a st' out,
    MySQLAnalyzer.generateRecommendations i18n (Some explainResult) tableStats indexes st
    = (Ok a, st')
    /\ arrays st' !! a = Some out
    /\ (forall without_key with_key,
          In without_key ["JOIN_OPTIMIZATION"; "UNUSED_INDEXES"; "GROUP_BY_OPTIMIZATION"] ->
          In with_key ["PARTIAL_INDEX_USAGE"; "MULTI_COLUMN_SORT"; "LOOSE_INDEX_SCAN"] ->
          count_type without_key out + count_type with_key out <= 1)
    /\ count_type "DEPENDENT_SUBQUERY" out + count_type "SUBQUERY_OPTIMIZATION" out <= 1.
Proof.
  rewrite mysql_generate_findings. eexists _, _, _.
  split; [reflexivity|]. split; [apply lookup_insert_eq|].
  split.
  - intros without_key with_key Hwithout Hwith.
    rewrite !count_type_sorted, !mysql_count_findings.
    simpl in Hwithout, Hwith.
    destruct Hwithout as [<-|[<-|[<-|[]]]], Hwith as [<-|[<-|[<-|[]]]];
      count_types;
      generalize (JS.truthy_string (MySQLAnalyzer.ExplainRow.key explainResult)); intros [];
      rewrite ?andb_false_r; cbn [andb negb length];
      repeat match goal with
             | |- context [if ?c then _ else _] => destruct c
             end; simpl; lia.
  - rewrite !count_type_sorted, !mysql_count_findings. count_types.
    unfold JS.is_literal, JS.strict_eq.
    destruct (MySQLAnalyzer.ExplainRow.select_type explainResult) as [s|]; [|simpl; lia].
    destruct (String.eqb_spec s "DEPENDENT SUBQUERY") as [->|_]; simpl; [lia|].
    destruct (String.eqb s "SUBQUERY"); simpl; lia.
Qed.

(** ** The statistics rule of the MySQL analyzer, off the usual path *)

Lemma find_first_match {A} (p : A -> bool) pre x post :
  (forall y, In y pre -> p y = false) -> p x = true ->
  find p (pre ++ x :: post) = Some x.
Proof.
  intros Hpre Hx. induction pre as [|y pre IH]; simpl; [by rewrite Hx|].
  rewrite (Hpre y) by (by left). apply IH. intros z Hz. apply Hpre. by right.
Qed.

Lemma strict_eq_false a b : a <> b -> JS.strict_eq a b = false.
Proof.
  intros H. destruct (JS.strict_eq a b) eqn:E; [|reflexivity].
  by apply strict_eq_true in E.
Qed.

(** X10: which statistics row the statistics rule reads.  The rows
    ahead of the first one that carries the name of the table of the
    EXPLAIN row are not looked at: the rule does on the whole array what
    it does on the rest; with no row of that name it leaves the
    recommendations as they are; and the first row of that name decides:
    the rows after it, further rows of the same name among them, change
    nothing. *)
Theorem X10_first_statistics_row_of_the_table_decides (i18n : I18n)
    (explainResult : MySQLAnalyzer.ExplainRow.t)
    (before rest : list MySQLAnalyzer.TableStat.t)
    (recommendations : list Recommendation) :
  (forall other, In other before ->
     MySQLAnalyzer.TableStat.table_name other <> MySQLAnalyzer.ExplainRow.table explainResult) ->
  MySQLAnalyzer.analyzeTableStatistics i18n explainResult (before ++ rest) recommendations
  = MySQLAnalyzer.analyzeTableStatistics i18n explainResult rest recommendations
  /\ MySQLAnalyzer.analyzeTableStatistics i18n explainResult before recommendations
     = (Ok tt, recommendations)
  /\ (forall stat after,
        MySQLAnalyzer.TableStat.table_name stat = MySQLAnalyzer.ExplainRow.table explainResult ->
        MySQLAnalyzer.analyzeTableStatistics i18n explainResult (before ++ stat :: after)
          recommendations
        = MySQLAnalyzer.analyzeTableStatistics i18n explainResult [stat] recommendations).
Proof.
  intros Hbefore.
  assert (forall l,
            find (fun stat => JS.strict_eq (MySQLAnalyzer.TableStat.table_name stat)
                                (MySQLAnalyzer.ExplainRow.table explainResult)) (before ++ l)
            = find (fun stat => JS.strict_eq (MySQLAnalyzer.TableStat.table_name stat)
                                  (MySQLAnalyzer.ExplainRow.table explainResult)) l) as Hfind.
  { intros l. induction before as [|other before IH]; [reflexivity|].
    cbn [app find]. rewrite strict_eq_false by (apply Hbefore; by left).
    apply IH. intros x Hx. apply Hbefore. by right. }
  rewrite !mysql_statistics_run. unfold MySQLFindings.statistics_findings.
  split; [by rewrite Hfind|]. split.
  - rewrite <- (app_nil_r before) at 1. rewrite Hfind. cbn [find]. by rewrite app_nil_r.
  - intros stat after Hstat. rewrite !mysql_statistics_run.
    unfold MySQLFindings.statistics_findings. rewrite Hfind. cbn [find].
    by rewrite (proj2 (strict_eq_true _ _) Hstat).
Qed.

Lemma X10_first_statistics_row_of_the_table_decides_witness :
  let customers :=
    {| MySQLAnalyzer.TableStat.table_name := Some "customers";
       MySQLAnalyzer.TableStat.table_rows := Some 200%Z;
       MySQLAnalyzer.TableStat.data_length := Some 16384%Z;
       MySQLAnalyzer.TableStat.index_length := Some 16384%Z |} in
  let stale :=
    {| MySQLAnalyzer.TableStat.table_name := Some "orders";
       MySQLAnalyzer.TableStat.table_rows := Some 10%Z;
       MySQLAnalyzer.TableStat.data_length := Some 16384%Z;
       MySQLAnalyzer.TableStat.index_length := Some 0%Z |} in
  MySQLAnalyzer.analyzeTableStatistics keys Samples.scan_orders [customers] [] = (Ok tt, [])
  /\ MySQLAnalyzer.analyzeTableStatistics keys Samples.scan_orders
       ([customers] ++ Samples.orders_stat :: [stale]) []
     = MySQLAnalyzer.analyzeTableStatistics keys Samples.scan_orders [Samples.orders_stat] [].
Proof.
  intros customers stale.
  assert (forall other, In other [customers] ->
            MySQLAnalyzer.TableStat.table_name other
            <> MySQLAnalyzer.ExplainRow.table Samples.scan_orders) as Hbefore
    by (intros other [<-|[]]; discriminate).
  destruct (X10_first_statistics_row_of_the_table_decides keys Samples.scan_orders
              [customers] [] [] Hbefore) as (_ & Hnone & Hfirst).
  split; [exact Hnone|]. by apply Hfirst.
Defined.

(** X11: a table whose data size is 0 or NULL is reported with
    HIGH_INDEX_RATIO exactly when its index size is positive: the ratio is
    then Infinity, and NaN, which exceeds nothing, when the index size is
    0 or NULL as well. *)
Theorem X11_index_ratio_of_a_table_without_data (i18n : I18n)
    (explainResult : MySQLAnalyzer.ExplainRow.t) (stat : MySQLAnalyzer.TableStat.t)
    (recommendations : list Recommendation) :
  MySQLAnalyzer.TableStat.table_name stat = MySQLAnalyzer.ExplainRow.table explainResult ->
  default 0%Z (MySQLAnalyzer.TableStat.data_length stat) = 0%Z ->
  exists out,
    MySQLAnalyzer.analyzeTableStatistics i18n explainResult [stat] recommendations
    = (Ok tt, recommendations ++ out)
    /\ count_type "HIGH_INDEX_RATIO" out
       = if bool_decide (0 < default 0 (MySQLAnalyzer.TableStat.index_length stat))%Z
         then 1 else 0.
Proof.
  intros Hname Hdata. rewrite mysql_statistics_run. eexists. split; [reflexivity|].
  unfold MySQLFindings.statistics_findings.
  rewrite (find_first_match _ [] stat []); [|intros ? []|by apply strict_eq_true].
  rewrite count_type_app, !count_type_pushed.
  cbn [type recommend]. rewrite andb_false_r, andb_true_r. cbn [Nat.add].
  assert (JS.of_nullable (MySQLAnalyzer.TableStat.data_length stat) = JS.of_Z 0) as ->.
  { destruct (MySQLAnalyzer.TableStat.data_length stat); simpl in *; by subst. }
  assert (JS.of_nullable (MySQLAnalyzer.TableStat.index_length stat)
          = JS.of_Z (default 0%Z (MySQLAnalyzer.TableStat.index_length stat))) as ->
    by (by destruct (MySQLAnalyzer.TableStat.index_length stat)).
  generalize (default 0%Z (MySQLAnalyzer.TableStat.index_length stat)). intros size.
  unfold JS.div, JS.of_Z. change (Qeq_bool (inject_Z 0) 0) with true. cbv iota.
  destruct (Qeq_bool (inject_Z size) 0) eqn:Ezero.
  - apply Qeq_bool_iff in Ezero. unfold Qeq, inject_Z in Ezero. simpl in Ezero.
    rewrite bool_decide_eq_false_2 by lia. reflexivity.
  - destruct (Qle_bool 0 (inject_Z size)) eqn:Epos.
    + apply Qle_bool_iff in Epos. change 0%Q with (inject_Z 0) in Epos.
      rewrite <- Zle_Qle in Epos.
      assert (size <> 0%Z) as Hne.
      { intros ->. by rewrite Qeq_bool_refl in Ezero. }
      rewrite bool_decide_eq_true_2 by lia. reflexivity.
    + rewrite bool_decide_eq_false_2; [reflexivity|].
      intros Hpos. assert (Qle_bool 0 (inject_Z size) = true) as E; [|congruence].
      apply Qle_bool_iff. change 0%Q with (inject_Z 0). rewrite <- Zle_Qle. lia.
Qed.

Lemma X11_index_ratio_of_a_table_without_data_witness :
  let empty_table :=
    {| MySQLAnalyzer.TableStat.table_name := Some "orders";
       MySQLAnalyzer.TableStat.table_rows := Some 0%Z;
       MySQLAnalyzer.TableStat.data_length := Some 0%Z;
       MySQLAnalyzer.TableStat.index_length := Some 1024%Z |} in
  exists out,
    MySQLAnalyzer.analyzeTableStatistics keys Samples.scan_orders [empty_table] []
    = (Ok tt, out)
    /\ count_type "HIGH_INDEX_RATIO" out = 1.
Proof.
  intros empty_table.
  destruct (X11_index_ratio_of_a_table_without_data keys Samples.scan_orders empty_table []
              eq_refl eq_refl) as (out & Hrun & Hcount).
  exists out. split; [exact Hrun|exact Hcount].
Defined.

(** ** The PostgreSQL rules on the root of a plan *)

Lemma in_postgre_findings i18n plan r :
  In r (PostgreFindings.findings i18n plan) ->
  type r = "SEQUENTIAL_SCAN" ->
  r = recommend i18n "SEQUENTIAL_SCAN" HIGH "sequentialScan"
        [("tableName", Text (PostgreAnalyzer.Relation_Name plan))]
        ["createIndex"; "analyzeTable"; "reviewWhere"].
Proof.
  unfold PostgreFindings.findings, PostgreFindings.first_findings,
    PostgreFindings.middle_findings, PostgreFindings.last_findings.
  destruct (PostgreFindings.index_rule_fails plan),
           (PostgreFindings.partition_rule_fails plan);
    intros H; repeat (apply in_app_or in H; destruct H as [H|H]);
    try contradiction;
    apply in_pushed in H as [_ ->]; (reflexivity || discriminate).
Qed.

(** X12: when the rule engines log a warning.  On a row of EXPLAIN no
    rule of the MySQL analyzer throws, whatever the row, the statistics
    and the indexes hold: all ten rules run and nothing is logged.  On a
    plan object the PostgreSQL rules throw in two cases only, both a
    property read on a missing value: a hash join without a hash
    condition, and a node without a type whose 'Partitions Removed' is 0;
    then one warning is logged, and in every other case all ten rules run
    and nothing is logged. *)
Theorem X12_when_the_rule_engines_warn (i18n : I18n) (st : state) :
  (forall (explainResult : MySQLAnalyzer.ExplainRow.t) tableStats indexes,
     exists a st',
       MySQLAnalyzer.generateRecommendations i18n (Some explainResult) tableStats indexes st
       = (Ok a, st')
       /\ events st' = events st
       /\ fst (run_rules (MySQLAnalyzer.rule_calls i18n explainResult tableStats indexes) [])
          = Ok tt)
  /\ (forall (plan : PostgreAnalyzer.PlanNode) tableStats indexes,
        let fails :=
          (JS.is_literal (PostgreAnalyzer.Node_Type plan) "Hash Join"
           && negb (bool_decide (is_Some (PostgreAnalyzer.Hash_Cond plan))))
          || (PostgreAnalyzer.is_zero (PostgreAnalyzer.Partitions_Removed plan)
              && negb (bool_decide (is_Some (PostgreAnalyzer.Node_Type plan)))) in
        exists a st' detail,
          PostgreAnalyzer.generateRecommendations i18n
            (Some {| PostgreAnalyzer.Plan := Some plan |}) tableStats indexes st
          = (Ok a, st')
          /\ events st'
             = events st
               ++ (if fails
                   then [Warned (t i18n "analyzer.errors.recommendations" []) detail]
                   else [])
          /\ (fails = true ->
              exists e,
                fst (run_rules (PostgreAnalyzer.rule_calls i18n
                                  {| PostgreAnalyzer.Plan := Some plan |} tableStats indexes)
                       [])
                = Throw e /\ detail = JS.message e)
          /\ (fails = false ->
              fst (run_rules (PostgreAnalyzer.rule_calls i18n
                                {| PostgreAnalyzer.Plan := Some plan |} tableStats indexes) [])
              = Ok tt)).
Proof.
  split.
  - intros explainResult tableStats indexes.
    rewrite mysql_generate_findings, mysql_rules_run.
    eexists _, _. split; [reflexivity|]. split; reflexivity.
  - intros plan tableStats indexes. cbv zeta.
    rewrite postgre_generate_findings, PostgreFindingsFacts.rules_run.
    exists (fresh (dom (arrays st))). eexists.
    exists "Cannot read properties of undefined (reading 'includes')".
    split; [reflexivity|]. cbn [events fst].
    unfold PostgreFindings.failure, PostgreFindings.index_rule_fails,
      PostgreFindings.partition_rule_fails.
    destruct (_ || _); (split; [reflexivity|]); split; intros [=]; eauto.
Qed.

(** X13: when the root of the plan is a sequential scan, the array the
    PostgreSQL analyzer returns starts with the SEQUENTIAL_SCAN
    recommendation, of severity HIGH and with the message asked for the
    relation name; the rest holds no second one, and no rule fails. *)
Theorem X13_postgre_sequential_scan_is_reported_first (i18n : I18n)
    (plan : PostgreAnalyzer.PlanNode) (tableStats : list PostgreAnalyzer.TableStat.t)
    (indexes : list PostgreAnalyzer.IndexInfo.t) (st : state) :
  PostgreAnalyzer.Node_Type plan = Some "Seq Scan" ->
  exists a st' rest,
    PostgreAnalyzer.generateRecommendations i18n
      (Some {| PostgreAnalyzer.Plan := Some plan |}) tableStats indexes st = (Ok a, st')
    /\ arrays st' !! a
       = Some (recommend i18n "SEQUENTIAL_SCAN" HIGH "sequentialScan"
                 [("tableName", Text (PostgreAnalyzer.Relation_Name plan))]
                 ["createIndex"; "analyzeTable"; "reviewWhere"] :: rest)
    /\ count_type "SEQUENTIAL_SCAN" rest = 0
    /\ events st' = events st.
Proof.
  intros Hscan.
  rewrite postgre_generate_findings.
  set (scan := recommend i18n "SEQUENTIAL_SCAN" HIGH "sequentialScan" _ _).
  destruct (array_sort_least_first
              (compareRecommendations PostgreAnalyzer.priorityTypes)
              (rank PostgreAnalyzer.priorityTypes)
              (compare_rank PostgreAnalyzer.priorityTypes)
              scan (PostgreFindings.findings i18n plan))
    as (rest & Hsort & Hperm).
  - unfold PostgreFindings.findings, PostgreFindings.first_findings.
    apply in_or_app. left. apply in_or_app. left.
    unfold JS.is_literal. rewrite Hscan. by left.
  - intros y _. change (rank PostgreAnalyzer.priorityTypes scan) with 0%Z.
    apply rank_nonneg.
  - intros y Hy Hrank. change (rank PostgreAnalyzer.priorityTypes scan) with 0%Z in Hrank.
    apply rank_zero in Hrank as [_ Hty].
    by apply (in_postgre_findings i18n plan).
  - exists (fresh (dom (arrays st))). eexists. exists rest.
    split; [reflexivity|]. cbn [arrays events].
    split; [rewrite lookup_insert_eq; by rewrite Hsort|].
    split.
    + assert (count_type "SEQUENTIAL_SCAN" (scan :: rest) = 1) as Hcount.
      { rewrite <- (count_type_perm _ _ _ Hperm), postgre_count_findings. count_types.
        unfold JS.is_literal. by rewrite Hscan. }
      change (scan :: rest) with ([scan] ++ rest) in Hcount.
      rewrite count_type_app in Hcount. change (count_type _ [scan]) with 1 in Hcount. lia.
    + unfold PostgreFindings.failure, PostgreFindings.index_rule_fails,
        PostgreFindings.partition_rule_fails, JS.is_literal.
      rewrite Hscan. simpl. rewrite andb_false_r. simpl. by rewrite app_nil_r.
Qed.

Lemma X13_postgre_sequential_scan_is_reported_first_witness :
  PostgreAnalyzer.Node_Type Samples.seq_scan_orders = Some "Seq Scan"
  /\ exists a st' rest,
       PostgreAnalyzer.generateRecommendations keys
         (Some {| PostgreAnalyzer.Plan := Some Samples.seq_scan_orders |}) [] [] initial
       = (Ok a, st')
       /\ arrays st' !! a
          = Some (recommend keys "SEQUENTIAL_SCAN" HIGH "sequentialScan"
                    [("tableName", Text (Some "orders"))]
                    ["createIndex"; "analyzeTable"; "reviewWhere"] :: rest)
       /\ count_type "SEQUENTIAL_SCAN" rest = 0
       /\ events st' = events initial.
Proof.
  split; [reflexivity|].
  exact (X13_postgre_sequential_scan_is_reported_first keys Samples.seq_scan_orders
           [] [] initial eq_refl).
Defined.

(** X14: the findings of the PostgreSQL analyzer that are tied to one
    node type exclude each other: of SEQUENTIAL_SCAN,
    INEFFICIENT_INDEX_SCAN, EXPENSIVE_NESTED_LOOP, CTE_MATERIALIZATION,
    INEFFICIENT_AGGREGATE, AGGREGATE_SPILL and the hash join findings at
    most one kind is in the array, the two hash join findings, HASH_SPILL
    and MISSING_JOIN_INDEX, being the only ones that can come together. *)
Theorem X14_postgre_node_findings_exclude_each_other (i18n : I18n)
    (plan : PostgreAnalyzer.PlanNode) (tableStats : list PostgreAnalyzer.TableStat.t)
    (indexes : list PostgreAnalyzer.IndexInfo.t) (st : state) :
  exists a st' out,
    PostgreAnalyzer.generateRecommendations i18n
      (Some {| PostgreAnalyzer.Plan := Some plan |}) tableStats indexes st = (Ok a, st')
    /\ arrays st' !! a = Some out
    /\ count_type "SEQUENTIAL_SCAN" out
       + count_type "INEFFICIENT_INDEX_SCAN" out
       + count_type "EXPENSIVE_NESTED_LOOP" out
       + Nat.max (count_type "HASH_SPILL" out) (count_type "MISSING_JOIN_INDEX" out)
       + count_type "CTE_MATERIALIZATION" out
       + count_type "INEFFICIENT_AGGREGATE" out
       + count_type "AGGREGATE_SPILL" out
       <= 1.
Proof.
  rewrite postgre_generate_findings. eexists _, _, _.
  split; [reflexivity|]. split; [apply lookup_insert_eq|].
  rewrite !count_type_sorted, !postgre_count_findings. count_types.
  unfold JS.is_literal, JS.strict_eq.
  destruct (PostgreAnalyzer.Node_Type plan) as [nodeType|];
    [|rewrite ?andb_false_r; cbn [andb length Nat.add Nat.max]; lia].
  destruct (String.eqb_spec nodeType "Seq Scan") as [->|_];
    [|destruct (String.eqb_spec nodeType "Index Scan") as [->|_];
      [|destruct (String.eqb_spec nodeType "Nested Loop") as [->|_];
        [|destruct (String.eqb_spec nodeType "Hash Join") as [->|_];
          [|destruct (String.eqb_spec nodeType "CTE Scan") as [->|_];
            [|destruct (String.eqb_spec nodeType "Group Aggregate") as [->|_];
              [|destruct (String.eqb nodeType "Hash Aggregate")]]]]]];
    cbn [String.eqb Ascii.eqb Bool.eqb andb]; rewrite ?andb_false_r;
    repeat match goal with
           | |- context [if ?c then _ else _] => destruct c
           end;
    cbn [length Nat.add Nat.max]; lia.
Qed.

(** ** What a call of [analyze] sends and throws *)

Section AnalyzeRequests.
Context {Explain Stat Index : Type}.
Variable engine : string.
Variable explainStatement : string -> string.
Variable scope : config -> option string.
Variable releaseWarning : string.
Variable generateRecommendations : option Explain -> list Stat -> list Index -> M loc.
Variable w : world Explain Stat Index.
Variable cfg : config.

Hypothesis generate_contained :
  forall ex ts ix st,
    exists a st',
      generateRecommendations ex ts ix st = (Ok a, st')
      /\ client st' = client st
      /\ exists warnings, events st' = events st ++ warnings /\ Forall is_warning warnings.

Lemma requests_app evs evs' : requests (evs ++ evs') = requests evs ++ requests evs'.
Proof. apply omap_app. Qed.

Lemma requests_cons e evs :
  requests (e :: evs)
  = match e with Queried r _ => [r] | _ => [] end ++ requests evs.
Proof. by destruct e. Qed.

Lemma requests_warnings warnings : Forall is_warning warnings -> requests warnings = [].
Proof.
  induction 1 as [|e l He _ IH]; [reflexivity|].
  destruct e; try contradiction. exact IH.
Qed.

Lemma requests_release c : requests (release_events w releaseWarning c) = [].
Proof. unfold release_events. by destruct (release w c). Qed.

Lemma requests_metadata {A} r label (o : outcome A) :
  requests (metadata_events r label o) = [r].
Proof. by destruct o. Qed.

(** The requests of one call: none, the EXPLAIN statement alone, or the
    EXPLAIN statement and the two metadata queries after it. *)
Lemma analyze_requests q o st st' new :
  analyze engine explainStatement scope releaseWarning generateRecommendations w cfg
    q st = (o, st') ->
  events st' = events st ++ new ->
  (requests new = [] /\ exists e, o = Throw e)
  \/ exists trimmedQuery,
       accepted q trimmedQuery
       /\ ((requests new = [ExplainPlan (explainStatement trimmedQuery)]
            /\ exists e, o = Throw e)
           \/ (requests new = [ExplainPlan (explainStatement trimmedQuery);
                               TableStatistics (scope cfg);
                               IndexInformation (scope cfg)]
               /\ exists res, o = Ok res /\ query res = trimmedQuery)).
Proof.
  intros Hrun Hnew.
  pose proof (analyze_trace engine explainStatement scope releaseWarning
                generateRecommendations w cfg generate_contained q st) as Htrace.
  rewrite Hrun in Htrace.
  destruct (connect w) as [c|cause].
  - destruct Htrace as [(detail & Hrej & [= -> ->])
                       |[(tq & cause & Hacc & He & [= -> ->])
                        |(tq & plan & a & st1 & st2 & warnings & Hacc & He & _ & _
                          & Hwarn & [= -> ->])]];
      cbn [events] in Hnew; apply app_inv_head in Hnew; subst new.
    + left. split; [|eauto]. by rewrite requests_cons, requests_release.
    + right. exists tq. split; [exact Hacc|]. left. split; [|eauto].
      by rewrite !requests_cons, requests_release.
    + right. exists tq. split; [exact Hacc|]. right. split; [|eauto].
      rewrite !requests_cons, !requests_app, !requests_metadata, requests_release,
        (requests_warnings _ Hwarn). reflexivity.
  - injection Htrace as -> ->. cbn [events] in Hnew. apply app_inv_head in Hnew. subst new.
    left. split; [reflexivity|eauto].
Qed.
End AnalyzeRequests.

(** X15: every error [analyze] throws is an [Error] whose message is the
    engine's name, " Analysis Error: " and a detail; and a call that
    throws leaves every array as it was: no recommendation array is
    created.  For both analyzers. *)
Theorem X15_analyze_errors_name_the_engine (i18n : I18n) (cfg : config) (st : state) :
  (forall (w : world PostgreAnalyzer.ExplainResult PostgreAnalyzer.TableStat.t
                 PostgreAnalyzer.IndexInfo.t) q e st',
     PostgreAnalyzer.analyze i18n w cfg q st = (Throw e, st') ->
     (exists detail, e = JS.Error ("PostgreSQL Analysis Error: " +:+ detail))
     /\ arrays st' = arrays st)
  /\ (forall (w : world MySQLAnalyzer.ExplainRow.t MySQLAnalyzer.TableStat.t
                    MySQLAnalyzer.IndexInfo.t) q e st',
        MySQLAnalyzer.analyze i18n w cfg q st = (Throw e, st') ->
        (exists detail, e = JS.Error ("MySQL Analysis Error: " +:+ detail))
        /\ arrays st' = arrays st).
Proof.
  split; intros w q e st' Hrun.
  - pose proof (analyze_trace "PostgreSQL" PostgreAnalyzer.explainStatement
                  PostgreAnalyzer.scope "Error releasing client:"
                  (PostgreAnalyzer.generateRecommendations i18n) w cfg
                  (postgre_generate_contained i18n) q st) as Htrace.
    fold (PostgreAnalyzer.analyze i18n w cfg q st) in Htrace. rewrite Hrun in Htrace.
    destruct (connect w) as [c|cause].
    + destruct Htrace as [(detail & _ & [= -> ->])
                         |[(tq & cause & _ & _ & [= -> ->])
                          |(tq & plan & a & st1 & st2 & warnings & _ & _ & _ & _ & _ & [=])]];
        (split; [eexists; reflexivity|reflexivity]).
    + injection Htrace as -> ->. split; [eexists; reflexivity|reflexivity].
  - pose proof (analyze_trace "MySQL" MySQLAnalyzer.explainStatement
                  MySQLAnalyzer.scope "Error closing connection:"
                  (MySQLAnalyzer.generateRecommendations i18n) w cfg
                  (mysql_generate_contained i18n) q st) as Htrace.
    fold (MySQLAnalyzer.analyze i18n w cfg q st) in Htrace. rewrite Hrun in Htrace.
    destruct (connect w) as [c|cause].
    + destruct Htrace as [(detail & _ & [= -> ->])
                         |[(tq & cause & _ & _ & [= -> ->])
                          |(tq & plan & a & st1 & st2 & warnings & _ & _ & _ & _ & _ & [=])]];
        (split; [eexists; reflexivity|reflexivity]).
    + injection Htrace as -> ->. split; [eexists; reflexivity|reflexivity].
Qed.

Lemma X15_analyze_errors_name_the_engine_witness :
  exists e st',
    PostgreAnalyzer.analyze keys Samples.unreachable no_database
      (Str "select * from orders") initial = (Throw e, st')
    /\ (exists detail, e = JS.Error ("PostgreSQL Analysis Error: " +:+ detail))
    /\ arrays st' = arrays initial.
Proof.
  eexists _, _. split; [vm_compute; reflexivity|].
  apply (proj1 (X15_analyze_errors_name_the_engine keys no_database initial)
           Samples.unreachable (Str "select * from orders")).
  vm_compute. reflexivity.
Defined.

(** X16: what one call of [analyze] sends to the database.  Nothing at
    all unless the query passes validation; then the EXPLAIN statement
    made of the engine's prefix and the trimmed query; and, only when
    that one succeeded, the statistics query and the index query, in this
    order, with the schema (or database) of the configuration.  A result
    is returned exactly when all three were sent, and it carries the
    trimmed query. *)
Theorem X16_only_a_validated_query_is_sent (i18n : I18n) (cfg : config) (st : state) :
  (forall (w : world PostgreAnalyzer.ExplainResult PostgreAnalyzer.TableStat.t
                 PostgreAnalyzer.IndexInfo.t) q o st' new,
     PostgreAnalyzer.analyze i18n w cfg q st = (o, st') ->
     events st' = events st ++ new ->
     (requests new = [] /\ exists e, o = Throw e)
     \/ exists trimmedQuery,
          accepted q trimmedQuery
          /\ ((requests new
               = [ExplainPlan ("EXPLAIN (FORMAT JSON, ANALYZE, VERBOSE, BUFFERS, COSTS, TIMING) "
                               +:+ trimmedQuery)]
               /\ exists e, o = Throw e)
              \/ (requests new
                  = [ExplainPlan ("EXPLAIN (FORMAT JSON, ANALYZE, VERBOSE, BUFFERS, COSTS, TIMING) "
                                  +:+ trimmedQuery);
                     TableStatistics (PostgreAnalyzer.scope cfg);
                     IndexInformation (PostgreAnalyzer.scope cfg)]
                  /\ exists res, o = Ok res /\ query res = trimmedQuery)))
  /\ (forall (w : world MySQLAnalyzer.ExplainRow.t MySQLAnalyzer.TableStat.t
                    MySQLAnalyzer.IndexInfo.t) q o st' new,
        MySQLAnalyzer.analyze i18n w cfg q st = (o, st') ->
        events st' = events st ++ new ->
        (requests new = [] /\ exists e, o = Throw e)
        \/ exists trimmedQuery,
             accepted q trimmedQuery
             /\ ((requests new = [ExplainPlan ("EXPLAIN " +:+ trimmedQuery)]
                  /\ exists e, o = Throw e)
                 \/ (requests new
                     = [ExplainPlan ("EXPLAIN " +:+ trimmedQuery);
                        TableStatistics (database cfg);
                        IndexInformation (database cfg)]
                     /\ exists res, o = Ok res /\ query res = trimmedQuery))).
Proof.
  split; intros w q o st' new Hrun Hnew.
  - exact (analyze_requests "PostgreSQL" PostgreAnalyzer.explainStatement
             PostgreAnalyzer.scope "Error releasing client:"
             (PostgreAnalyzer.generateRecommendations i18n) w cfg
             (postgre_generate_contained i18n) q o st st' new Hrun Hnew).
  - exact (analyze_requests "MySQL" MySQLAnalyzer.explainStatement
             MySQLAnalyzer.scope "Error closing connection:"
             (MySQLAnalyzer.generateRecommendations i18n) w cfg
             (mysql_generate_contained i18n) q o st st' new Hrun Hnew).
Qed.

Lemma X16_only_a_validated_query_is_sent_witness :
  let run :=
    MySQLAnalyzer.analyze keys (Samples.plan_only Samples.scan_orders) no_database
      (Str "UPDATE t SET x=1") initial in
  run = (fst run, snd run)
  /\ events (snd run) = events initial ++ events (snd run)
  /\ requests (events (snd run)) = [].
Proof.
  cbv zeta.
  set (run := MySQLAnalyzer.analyze keys (Samples.plan_only Samples.scan_orders)
                no_database (Str "UPDATE t SET x=1") initial).
  assert (run = (fst run, snd run)) as Hrun by apply surjective_pairing.
  assert (events (snd run) = events initial ++ events (snd run)) as Hnew by reflexivity.
  split; [exact Hrun|]. split; [exact Hnew|].
  destruct (proj2 (X16_only_a_validated_query_is_sent keys no_database initial)
              (Samples.plan_only Samples.scan_orders) (Str "UPDATE t SET x=1")
              (fst run) (snd run) (events (snd run)) Hrun Hnew)
    as [[Hnone _]|(tq & (text & [= <-] & -> & _ & Hsel) & _)].
  - exact Hnone.
  - vm_compute in Hsel. discriminate.
Defined.

(** X17: what the MySQL analyzer cannot report without the metadata.
    When the index query failed, the result holds no PARTIAL_INDEX_USAGE
    recommendation; when the statistics query failed, it holds neither
    LARGE_TABLE_SCAN nor HIGH_INDEX_RATIO. *)
Theorem X17_mysql_findings_that_need_metadata (i18n : I18n)
    (w : world MySQLAnalyzer.ExplainRow.t MySQLAnalyzer.TableStat.t MySQLAnalyzer.IndexInfo.t)
    (cfg : config) (q : argument) (st st' : state)
    (res : AnalysisResult MySQLAnalyzer.ExplainRow.t MySQLAnalyzer.TableStat.t
             MySQLAnalyzer.IndexInfo.t) :
  MySQLAnalyzer.analyze i18n w cfg q st = (Ok res, st') ->
  exists out,
    arrays st' !! recommendations res = Some out
    /\ ((exists cause, run_indexInformation w (MySQLAnalyzer.scope cfg) = Throw cause) ->
        count_type "PARTIAL_INDEX_USAGE" out = 0)
    /\ ((exists cause, run_tableStatistics w (MySQLAnalyzer.scope cfg) = Throw cause) ->
        count_type "LARGE_TABLE_SCAN" out = 0 /\ count_type "HIGH_INDEX_RATIO" out = 0).
Proof.
  intros Hrun.
  pose proof (analyze_trace "MySQL" MySQLAnalyzer.explainStatement
                MySQLAnalyzer.scope "Error closing connection:"
                (MySQLAnalyzer.generateRecommendations i18n) w cfg
                (mysql_generate_contained i18n) q st) as Htrace.
  fold (MySQLAnalyzer.analyze i18n w cfg q st) in Htrace. rewrite Hrun in Htrace.
  destruct (connect w) as [c|cause]; [|discriminate].
  destruct Htrace as [(detail & _ & [=])
                     |[(tq & cause & _ & _ & [=])
                      |(tq & plan & a & st1 & st2 & warnings & _ & _ & Hgen & _ & _
                        & [= -> ->])]].
  cbn [recommendations arrays].
  destruct plan as [e|].
  - rewrite mysql_generate_findings in Hgen. injection Hgen as <- <-. cbn [arrays].
    eexists. split; [apply lookup_insert_eq|].
    split.
    + intros [cause ->]. rewrite count_type_sorted, mysql_count_findings. count_types.
      cbn [collected length Nat.ltb Nat.leb]. by rewrite !andb_false_r.
    + intros [cause ->]. rewrite !count_type_sorted, !mysql_count_findings. count_types.
      split; reflexivity.
  - rewrite MySQLFacts.mysql_generate_shape, generate_run in Hgen.
    injection Hgen as <- <-. cbn [arrays set_arrays].
    eexists. split; [apply lookup_insert_eq|]. by split; [|split].
Qed.

Lemma X17_mysql_findings_that_need_metadata_witness :
  exists res st' out,
    MySQLAnalyzer.analyze keys (Samples.plan_only Samples.scan_orders) no_database
      (Str "select * from orders") initial = (Ok res, st')
    /\ arrays st' !! recommendations res = Some out
    /\ count_type "PARTIAL_INDEX_USAGE" out = 0
    /\ count_type "LARGE_TABLE_SCAN" out = 0
    /\ count_type "HIGH_INDEX_RATIO" out = 0.
Proof.
  eexists _, _.
  assert (MySQLAnalyzer.analyze keys (Samples.plan_only Samples.scan_orders) no_database
            (Str "select * from orders") initial
          = (fst (MySQLAnalyzer.analyze keys (Samples.plan_only Samples.scan_orders)
                    no_database (Str "select * from orders") initial),
             snd (MySQLAnalyzer.analyze keys (Samples.plan_only Samples.scan_orders)
                    no_database (Str "select * from orders") initial))) as Hrun
    by apply surjective_pairing.
  revert Hrun. vm_compute fst. intros Hrun.
  destruct (X17_mysql_findings_that_need_metadata keys _ _ _ _ _ _ Hrun)
    as (out & Hout & Hix & Hts).
  exists out. split; [exact Hrun|]. split; [exact Hout|].
  split; [apply Hix; eexists; reflexivity|].
  apply Hts. eexists. reflexivity.
Defined.

(** X18: prioritizing an array a second time changes nothing: the call
    returns the same reference and leaves the state the first call
    left. *)
Theorem X18_prioritizing_twice_changes_nothing (priorityTypes : list string)
    (st : state) (a : loc) (l : list Recommendation) :
  arrays st !! a = Some l ->
  (sorted <- prioritizeRecommendations priorityTypes a ;;
   prioritizeRecommendations priorityTypes sorted) st
  = prioritizeRecommendations priorityTypes a st.
Proof.
  intros Ha. unfold prioritizeRecommendations, bind.
  rewrite (sort_in_place_run _ a st l Ha).
  erewrite sort_in_place_run by apply lookup_insert_eq.
  rewrite (array_sort_sorted_id _ (rank priorityTypes) (compare_rank priorityTypes))
    by apply array_sort_sorted, compare_rank.
  unfold set_arrays. cbn [arrays client events]. by rewrite insert_insert_eq.
Qed.

Lemma X18_prioritizing_twice_changes_nothing_witness :
  (sorted <- MySQLAnalyzer.prioritizeRecommendations 1%positive ;;
   MySQLAnalyzer.prioritizeRecommendations sorted) Samples.unsorted
  = MySQLAnalyzer.prioritizeRecommendations 1%positive Samples.unsorted.
Proof.
  exact (X18_prioritizing_twice_changes_nothing MySQLAnalyzer.priorityTypes
           Samples.unsorted 1%positive _ eq_refl).
Defined.

(** ** The tables of the visualizer *)

Module VisualizerFacts.
Import TerminalVisualizer.

(** Induction on a plan with the hypothesis for every child looped over. *)
Fixpoint Node_tree_ind (P : Node.t -> Prop)
    (step : forall node, Forall (holds_below P) (loop_over node) -> P node)
    (node : Node.t) : P node :=
  let each :=
    fix each (l : list (option Node.t)) : Forall (holds_below P) l :=
      match l with
      | [] => @List.Forall_nil _ (holds_below P)
      | child :: rest =>
          @List.Forall_cons _ (holds_below P) child rest
            (match child as c return holds_below P c with
             | Some child => Node_tree_ind P step child
             | None => I
             end)
            (each rest)
      end in
  step node
    (match Node.Plans node as o
           return Forall (holds_below P)
                    (match o with
                     | Some plans => plans
                     | None => match Node.children node with
                               | Some children => children
                               | None => []
                               end
                     end)
     with
     | Some plans => each plans
     | None =>
         match Node.children node as o
               return Forall (holds_below P)
                        (match o with Some children => children | None => [] end)
         with
         | Some children => each children
         | None => @List.Forall_nil _ (holds_below P)
         end
     end).

Lemma formatNode_unfold node level table :
  formatNode node level table
  = (push_row (node_row node level) ;; forEach (format_child level) (loop_over node)) table.
Proof. destruct node as [? ? ? ? ? ? ? [plans|] [children|]]; reflexivity. Qed.

Lemma walk_unfold node level :
  walk node level = (node, level) :: flat_map (walk_child level) (loop_over node).
Proof. destruct node as [? ? ? ? ? ? ? [plans|] [children|]]; reflexivity. Qed.

Lemma formatNode_walk node :
  forall level table,
    formatNode node level table
    = (Ok tt, table ++ map (fun visit => node_row (fst visit) (snd visit)) (walk node level)).
Proof.
  induction node as [node IH] using Node_tree_ind. intros level table.
  rewrite formatNode_unfold, walk_unfold. unfold bind at 1, push_row, modify at 1.
  cbn [map fst snd].
  assert (forall rows,
            forEach (format_child level) (loop_over node) rows
            = (Ok tt, rows ++ map (fun visit => node_row (fst visit) (snd visit))
                                  (flat_map (walk_child level) (loop_over node)))) as Hloop.
  { induction IH as [|child rest Hchild _ IHrest]; intros rows.
    - cbn. by rewrite app_nil_r.
    - cbn [forEach flat_map]. unfold bind at 1.
      change ((fix each (l : list (option Node.t)) : Eff (list (list cell)) unit :=
                 match l with
                 | [] => ret tt
                 | x :: rest0 => bind (format_child level x) (fun _ => each rest0)
                 end) rest)
        with (forEach (format_child level) rest).
      destruct child as [child|]; cbn [format_child walk_child holds_below] in *.
      + rewrite Hchild, IHrest, map_app, app_assoc. reflexivity.
      + unfold ret at 1. rewrite IHrest. reflexivity. }
  rewrite Hloop, <- app_assoc. reflexivity.
Qed.
End VisualizerFacts.

(** X19: [formatExecutionPlan] puts one row per node into the table,
    after the rows already there: the node first, then its children in
    the order of the array, each one level deeper and with two more
    blanks before the operation; the children are those of [Plans] when
    the node has this property, even an empty one, and those of
    [children] otherwise; a child that is [null] gives no row. *)
Theorem X19_formatExecutionPlan_rows_follow_the_tree
    (node : TerminalVisualizer.Node.t) (level : nat)
    (table : list (list TerminalVisualizer.cell)) :
  TerminalVisualizer.formatExecutionPlan (Some node) level table
  = (Ok tt,
     table ++ map (fun visit => TerminalVisualizer.node_row (fst visit) (snd visit))
                  (TerminalVisualizer.walk node level))
  /\ Forall (fun visit =>
               exists rest,
                 TerminalVisualizer.node_row (fst visit) (snd visit)
                 = TerminalVisualizer.Txt
                     (TerminalVisualizer.repeat_string "  " (snd visit)
                      +:+ TerminalVisualizer.or_else
                            (TerminalVisualizer.Node.select_type (fst visit)) "SIMPLE")
                   :: rest)
            (TerminalVisualizer.walk node level).
Proof.
  split; [apply VisualizerFacts.formatNode_walk|].
  apply List.Forall_forall. intros [n l] _. eexists. reflexivity.
Qed.

(** X20: what the plan table shows for the results of the two analyzers.
    For PostgreSQL the explain result has none of the properties read,
    and the plan under [Plan] is not looked at: the table holds the one
    row SIMPLE, N/A, N/A, N/A whatever the plan is.  For MySQL it holds
    one row, made from the row of EXPLAIN, without indentation.  Without
    a plan it holds the no-data row. *)
Theorem X20_plan_table_of_the_analyzers (i18n : I18n) :
  let head := [t i18n "visualization.table.operation" [];
               t i18n "visualization.table.cost" [];
               t i18n "visualization.table.rows" [];
               t i18n "visualization.table.details" []] in
  (forall explainResult : PostgreAnalyzer.ExplainResult,
     TerminalVisualizer.displayExecutionPlan i18n
       (Some (TerminalVisualizer.of_postgre_result explainResult))
     = [TerminalVisualizer.Header (t i18n "visualization.headers.plan" []);
        TerminalVisualizer.Grid head
          [[TerminalVisualizer.Txt "SIMPLE"; TerminalVisualizer.Txt "N/A";
            TerminalVisualizer.Txt "N/A"; TerminalVisualizer.Txt "N/A"]]])
  /\ (forall row : MySQLAnalyzer.ExplainRow.t,
        TerminalVisualizer.displayExecutionPlan i18n
          (Some (TerminalVisualizer.of_mysql_row row))
        = [TerminalVisualizer.Header (t i18n "visualization.headers.plan" []);
           TerminalVisualizer.Grid head
             [TerminalVisualizer.node_row (TerminalVisualizer.of_mysql_row row) 0]])
  /\ TerminalVisualizer.displayExecutionPlan i18n None
     = [TerminalVisualizer.Header (t i18n "visualization.headers.plan" []);
        TerminalVisualizer.Grid head
          [[TerminalVisualizer.Txt (t i18n "visualization.noData.plan" []);
            TerminalVisualizer.Txt "N/A"; TerminalVisualizer.Txt "N/A";
            TerminalVisualizer.Txt "N/A"]]].
Proof. cbv zeta. split; [|split]; reflexivity. Qed.

(** X21: what the metadata tables show for a PostgreSQL result.  Its
    rows carry the sizes as [total_bytes] and [index_bytes], names the
    visualizer does not try, and neither a column name nor a uniqueness
    flag: both size cells read 0 B for every table, and every index is
    shown as Unique with N/A for its columns; the index definition is not
    shown.  An index of a MySQL result is shown as Non-Unique exactly
    when [non_unique] is neither 0 nor NULL, and a size of a MySQL result
    that is 0 or NULL reads 0 B. *)
Theorem X21_metadata_tables_of_the_analyzers (i18n : I18n) (scaled : Z -> string) :
  (forall (stat : PostgreAnalyzer.TableStat.t) (others : list PostgreAnalyzer.TableStat.t),
     exists head,
       TerminalVisualizer.displayTableStatistics i18n scaled
         (map TerminalVisualizer.of_postgre_stat (stat :: others))
       = [TerminalVisualizer.Header (t i18n "visualization.headers.stats" []);
          TerminalVisualizer.Grid head
            (map (fun stat =>
                    [TerminalVisualizer.Txt
                       (if String.eqb (PostgreAnalyzer.TableStat.table_name stat) ""
                        then "N/A" else PostgreAnalyzer.TableStat.table_name stat);
                     TerminalVisualizer.Txt
                       (if String.eqb (PostgreAnalyzer.TableStat.table_rows stat) ""
                        then "N/A" else PostgreAnalyzer.TableStat.table_rows stat);
                     TerminalVisualizer.Txt "0 B";
                     TerminalVisualizer.Txt "0 B"])
                 (stat :: others))])
  /\ (forall (index : PostgreAnalyzer.IndexInfo.t) (others : list PostgreAnalyzer.IndexInfo.t),
        exists head,
          TerminalVisualizer.displayIndexes i18n
            (map TerminalVisualizer.of_postgre_index (index :: others))
          = [TerminalVisualizer.Header (t i18n "visualization.headers.indexes" []);
             TerminalVisualizer.Grid head
               (map (fun index =>
                       [TerminalVisualizer.Txt
                          (if String.eqb (PostgreAnalyzer.IndexInfo.table_name index) ""
                           then "N/A" else PostgreAnalyzer.IndexInfo.table_name index);
                        TerminalVisualizer.Txt
                          (if String.eqb (PostgreAnalyzer.IndexInfo.index_name index) ""
                           then "N/A" else PostgreAnalyzer.IndexInfo.index_name index);
                        TerminalVisualizer.Txt "N/A";
                        TerminalVisualizer.Txt "Unique"])
                    (index :: others))])
  /\ (forall index : MySQLAnalyzer.IndexInfo.t,
        nth_error (TerminalVisualizer.index_row (TerminalVisualizer.of_mysql_index index)) 3
        = Some (TerminalVisualizer.Txt
                  (match MySQLAnalyzer.IndexInfo.non_unique index with
                   | Some 0%Z | None => "Unique"
                   | Some _ => "Non-Unique"
                   end)))
  /\ (forall stat : MySQLAnalyzer.TableStat.t,
        drop 2 (TerminalVisualizer.stat_row scaled (TerminalVisualizer.of_mysql_stat stat))
        = [TerminalVisualizer.Txt
             (match MySQLAnalyzer.TableStat.data_length stat with
              | Some 0%Z | None => "0 B"
              | Some size => scaled size
              end);
           TerminalVisualizer.Txt
             (match MySQLAnalyzer.TableStat.index_length stat with
              | Some 0%Z | None => "0 B"
              | Some size => scaled size
              end)]).
Proof.
  split; [|split; [|split]].
  - intros stat others. eexists. unfold TerminalVisualizer.displayTableStatistics.
    replace (0 <? length (map TerminalVisualizer.of_postgre_stat (stat :: others)))
      with true by reflexivity.
    cbv zeta. rewrite map_map. f_equal. f_equal. f_equal.
    apply map_ext. intros [schemaname table_name table_rows total_bytes index_bytes].
    unfold TerminalVisualizer.stat_row, TerminalVisualizer.of_postgre_stat,
      TerminalVisualizer.or_else, TerminalVisualizer.first_truthy_string,
      TerminalVisualizer.formatBytes, TerminalVisualizer.first_truthy_number.
    cbn. by destruct (String.eqb table_name ""), (String.eqb table_rows "").
  - intros index others. eexists. unfold TerminalVisualizer.displayIndexes.
    replace (0 <? length (map TerminalVisualizer.of_postgre_index (index :: others)))
      with true by reflexivity.
    cbv zeta. rewrite map_map. f_equal. f_equal. f_equal.
    apply map_ext. intros [schemaname table_name index_name definition].
    unfold TerminalVisualizer.index_row, TerminalVisualizer.of_postgre_index,
      TerminalVisualizer.or_else, TerminalVisualizer.first_truthy_string.
    cbn. by destruct (String.eqb table_name ""), (String.eqb index_name "").
  - intros [? ? ? [[|p|p]|]]; reflexivity.
  - intros [? ? [[|p|p]|] [[|q|q]|]]; reflexivity.
Qed.

(** ** The connection test of the command line *)

Module CliFacts.
Import Cli.

Lemma each_logged (l : list string) s :
  each (fun solution => act (LoggedInfo solution)) l s
  = (Done tt, {| connection := connection s; ends := ends s;
                 actions := actions s ++ map LoggedInfo l |}).
Proof.
  revert s. induction l as [|x l IH]; intros s.
  - destruct s. cbn. by rewrite app_nil_r.
  - cbn [each map]. unfold andThen, act at 1. rewrite IH. cbn.
    by rewrite <- app_assoc.
Qed.

Lemma ended_app l l' : ended (l ++ l') = ended l + ended l'.
Proof. unfold ended. by rewrite List.filter_app, length_app. Qed.

Lemma ended_logged l : ended (map LoggedInfo l) = 0.
Proof. unfold ended. by induction l. Qed.


Section TestConnection.
Import Cli.
Variable i18n : I18n.
Variable solutions : string -> list string.
Variable srv : server.
Variable config : answers.

#[local] Arguments each : simpl never.
#[local] Arguments JS.includes : simpl never.
#[local] Arguments JS.is_literal : simpl never.
#[local] Arguments String.append : simpl never.

Ltac run_steps :=
  unfold finally, catch, andThen, act, done, fail, declare_connection, assign_connection;
  do 3 (cbn [connection ends actions Nat.add fst snd]; rewrite ?each_logged);
  repeat match goal with
         | |- context [JS.is_literal (Failure.code ?e) "ECONNREFUSED"] =>
             destruct (JS.is_literal (Failure.code e) "ECONNREFUSED") eqn:?
         | |- context [JS.includes (Failure.message ?e) "ER_ACCESS_DENIED_ERROR"
                       || JS.includes (Failure.message ?e) "password authentication failed"] =>
             destruct (JS.includes (Failure.message e) "ER_ACCESS_DENIED_ERROR"
                       || JS.includes (Failure.message e) "password authentication failed")
               eqn:?
         end;
  do 3 (cbn [connection ends actions Nat.add fst snd]; rewrite ?each_logged);
  cbn [app]; rewrite <- ?app_assoc; cbn [app]; try reflexivity.

(** The run of [testConnection], written out. *)
Lemma testConnection_run type s :
  testConnection i18n solutions srv type config s
  = let start := actions s ++ [SpinnerStart (t i18n "connection.testing" [])] in
    if String.eqb type "MySQL" then
      match createConnection srv with
      | Failed error =>
          (Failed (wrapped i18n error),
           {| connection := false; ends := 0;
              actions := start ++ reported i18n solutions error |})
      | Done _ =>
          connected_run i18n solutions srv "SHOW DATABASES"
            (t i18n "connection.success.mysql" [])
            (List.filter (fun db => negb (existsb (String.eqb db) systemDatabases)))
            (start ++ [Created "mysql" (hostToUse config)])
      end
    else if String.eqb type "PostgreSQL" then
      connected_run i18n solutions srv listDatabasesQuery
        (t i18n "connection.success.postgresql" []) (fun rows => rows)
        (start ++ [Created "pg" (hostToUse config)])
    else (Done None, {| connection := false; ends := 0; actions := start |}).
Proof.
  cbv zeta. unfold testConnection, connected_run, closing, reported, hints, wrapped.
  destruct (String.eqb type "MySQL"); [|destruct (String.eqb type "PostgreSQL")].
  - unfold call_connect, call_query, call_end.
    destruct (createConnection srv) as [[]|e0]; [|run_steps].
    destruct (connect srv) as [[]|e1].
    + destruct (query srv) as [databases|e2].
      * run_steps. destruct (end_ srv 0) as [[]|e3].
        -- run_steps. destruct (end_ srv 1) as [[]|e4]; run_steps.
        -- run_steps; destruct (end_ srv 1) as [[]|e4]; run_steps.
      * run_steps; destruct (end_ srv 0) as [[]|e3]; run_steps.
    + run_steps; destruct (end_ srv 0) as [[]|e3]; run_steps.
  - unfold call_connect, call_query, call_end.
    destruct (connect srv) as [[]|e1].
    + destruct (query srv) as [databases|e2].
      * run_steps. destruct (end_ srv 0) as [[]|e3].
        -- run_steps. destruct (end_ srv 1) as [[]|e4]; run_steps.
        -- run_steps; destruct (end_ srv 1) as [[]|e4]; run_steps.
      * run_steps; destruct (end_ srv 0) as [[]|e3]; run_steps.
    + run_steps; destruct (end_ srv 0) as [[]|e3]; run_steps.
  - run_steps.
Qed.
End TestConnection.
End CliFacts.

Module CliCases.
Import Cli.

Lemma ended_cons a l : ended (a :: l) = (if is_Ended a then 1 else 0) + ended l.
Proof. unfold ended. cbn. by destruct (is_Ended a). Qed.

Lemma ended_hints i18n solutions error : ended (hints i18n solutions error) = 0.
Proof.
  unfold hints. destruct (JS.is_literal _ _); [|destruct (_ || _)];
    rewrite ?ended_cons, ?CliFacts.ended_logged; reflexivity.
Qed.

Lemma ended_reported i18n solutions error : ended (reported i18n solutions error) = 0.
Proof. unfold reported. by rewrite CliFacts.ended_app, ended_hints. Qed.

Lemma created_hints i18n solutions error driver host :
  ~ In (Created driver host) (hints i18n solutions error).
Proof.
  unfold hints. destruct (JS.is_literal _ _); [|destruct (_ || _)]; cbn;
    rewrite ?in_map_iff; intros H;
    repeat destruct H as [H|H]; try discriminate; try contradiction;
    destruct H as (? & ? & ?); discriminate.
Qed.

Lemma created_reported i18n solutions error driver host :
  ~ In (Created driver host) (reported i18n solutions error).
Proof.
  unfold reported. rewrite in_app_iff. intros [H|H].
  - cbn in H. repeat destruct H as [H|H]; try discriminate; contradiction.
  - by apply created_hints in H.
Qed.

(** A run on a connection object ends it once or twice, and twice when it
    returns a list. *)
Lemma connected_run_closes i18n solutions srv sql success keep start :
  let run := connected_run i18n solutions srv sql success keep start in
  exists new,
    actions (snd run) = start ++ new
    /\ 1 <= ended new <= 2
    /\ (forall dbList, fst run = Done (Some dbList) -> ended new = 2).
Proof.
  cbv zeta. unfold connected_run, closing.
  destruct (connect srv) as [[]|e1];
    [destruct (query srv) as [rows|e2];
     [destruct (end_ srv 0) as [[]|e3]; destruct (end_ srv 1) as [[]|e4]
     |destruct (end_ srv 0) as [[]|e3]]
    |destruct (end_ srv 0) as [[]|e3]];
    cbn [fst snd actions]; rewrite <- ?app_assoc;
    (eexists; split; [reflexivity|]);
    rewrite ?CliFacts.ended_app, ?ended_reported, ?ended_cons; cbn;
    repeat split; try lia; try discriminate.
Qed.
End CliCases.

(** X22: [testConnection] ends every connection it has created, and ends
    it a second time on the way out: after the calls of the [try] block,
    which end the connection themselves, the [finally] block calls [end]
    again.  A test that returns a list has called [end] twice; a test of
    another database type creates nothing and ends nothing. *)
Theorem X22_testConnection_ends_what_it_creates (i18n : I18n)
    (solutions : string -> list string) (srv : Cli.server) (type : string)
    (config : Cli.answers) (s : Cli.session) :
  let run := Cli.testConnection i18n solutions srv type config s in
  exists new,
    Cli.actions (snd run) = Cli.actions s ++ new
    /\ ((exists driver host, In (Cli.Created driver host) new) ->
        1 <= Cli.ended new <= 2)
    /\ ((forall driver host, ~ In (Cli.Created driver host) new) -> Cli.ended new = 0)
    /\ (forall dbList, fst run = Cli.Done (Some dbList) -> Cli.ended new = 2).
Proof.
  cbv zeta. rewrite CliFacts.testConnection_run. cbv zeta.
  destruct (String.eqb type "MySQL"); [|destruct (String.eqb type "PostgreSQL")].
  - destruct (Cli.createConnection srv) as [[]|e0].
    + destruct (CliCases.connected_run_closes i18n solutions srv "SHOW DATABASES"
                  (t i18n "connection.success.mysql" [])
                  (List.filter (fun db => negb (existsb (String.eqb db) Cli.systemDatabases)))
                  ((Cli.actions s ++ [Cli.SpinnerStart (t i18n "connection.testing" [])])
                   ++ [Cli.Created "mysql" (Cli.hostToUse config)]))
        as (new & Hnew & Hends & Hlist).
      exists ([Cli.SpinnerStart (t i18n "connection.testing" []);
               Cli.Created "mysql" (Cli.hostToUse config)] ++ new).
      split; [rewrite Hnew; by rewrite <- !app_assoc|].
      rewrite CliFacts.ended_app. change (Cli.ended [_; _]) with 0. cbn [Nat.add].
      split; [auto|]. split; [|exact Hlist].
      intros Hnone. exfalso. apply (Hnone "mysql" (Cli.hostToUse config)).
      cbn. auto.
    + eexists. cbn [snd fst Cli.actions]. rewrite <- app_assoc. split; [reflexivity|].
      rewrite CliFacts.ended_app, CliCases.ended_reported. change (Cli.ended [_]) with 0.
      split; [|split; [reflexivity|discriminate]].
      intros (driver & host & [H|H]%in_app_iff).
      * cbn in H. destruct H as [H|[]]. discriminate.
      * by apply CliCases.created_reported in H.
  - destruct (CliCases.connected_run_closes i18n solutions srv Cli.listDatabasesQuery
                (t i18n "connection.success.postgresql" []) (fun rows => rows)
                ((Cli.actions s ++ [Cli.SpinnerStart (t i18n "connection.testing" [])])
                 ++ [Cli.Created "pg" (Cli.hostToUse config)]))
      as (new & Hnew & Hends & Hlist).
    exists ([Cli.SpinnerStart (t i18n "connection.testing" []);
             Cli.Created "pg" (Cli.hostToUse config)] ++ new).
    split; [rewrite Hnew; by rewrite <- !app_assoc|].
    rewrite CliFacts.ended_app. change (Cli.ended [_; _]) with 0. cbn [Nat.add].
    split; [auto|]. split; [|exact Hlist].
    intros Hnone. exfalso. apply (Hnone "pg" (Cli.hostToUse config)).
    cbn. auto.
  - eexists. cbn [snd fst Cli.actions]. split; [reflexivity|].
    split; [|split; [reflexivity|discriminate]].
    intros (driver & host & [H|[]]). discriminate.
Qed.

(** X23: what [testConnection] returns.  For MySQL, the databases the
    server lists without the four system databases, in the order of the
    server; for PostgreSQL, the rows of the query as they are; for any
    other type nothing ([undefined]), and then the function has done no
    more than start the spinner. *)
Theorem X23_testConnection_lists_the_databases (i18n : I18n)
    (solutions : string -> list string) (srv : Cli.server) (type : string)
    (config : Cli.answers) (s : Cli.session) (answer : option (list string)) :
  fst (Cli.testConnection i18n solutions srv type config s) = Cli.Done answer ->
  (type = "MySQL"
   /\ exists databases,
        Cli.query srv = Cli.Done databases
        /\ answer = Some (List.filter
                            (fun db => negb (existsb (String.eqb db)
                                               ["information_schema"; "mysql";
                                                "performance_schema"; "sys"]))
                            databases)
        /\ forall db, In db (default [] answer) ->
             In db databases
             /\ ~ In db ["information_schema"; "mysql"; "performance_schema"; "sys"])
  \/ (type = "PostgreSQL" /\ exists rows, Cli.query srv = Cli.Done rows /\ answer = Some rows)
  \/ (type <> "MySQL" /\ type <> "PostgreSQL" /\ answer = None
      /\ Cli.actions (snd (Cli.testConnection i18n solutions srv type config s))
         = Cli.actions s ++ [Cli.SpinnerStart (t i18n "connection.testing" [])]).
Proof.
  rewrite CliFacts.testConnection_run. cbv zeta.
  destruct (String.eqb_spec type "MySQL") as [->|Hmysql];
    [|destruct (String.eqb_spec type "PostgreSQL") as [->|Hpg]].
  - destruct (Cli.createConnection srv) as [[]|e0]; [|discriminate].
    unfold Cli.connected_run, Cli.closing.
    destruct (Cli.connect srv) as [[]|e1];
      [destruct (Cli.query srv) as [rows|e2];
       [destruct (Cli.end_ srv 0) as [[]|e3]; destruct (Cli.end_ srv 1) as [[]|e4]
       |destruct (Cli.end_ srv 0) as [[]|e3]]
      |destruct (Cli.end_ srv 0) as [[]|e3]];
      cbn [fst]; intros [=]; subst answer.
    left. split; [reflexivity|]. exists rows. split; [reflexivity|]. split; [reflexivity|].
    intros db [Hin Hkeep]%filter_In. split; [exact Hin|].
    intros Hsys. apply negb_true_iff in Hkeep.
    assert (existsb (String.eqb db)
              ["information_schema"; "mysql"; "performance_schema"; "sys"] = true) as E.
    { apply existsb_exists. exists db. split; [exact Hsys|apply String.eqb_refl]. }
    cbn in E. congruence.
  - unfold Cli.connected_run, Cli.closing.
    destruct (Cli.connect srv) as [[]|e1];
      [destruct (Cli.query srv) as [rows|e2];
       [destruct (Cli.end_ srv 0) as [[]|e3]; destruct (Cli.end_ srv 1) as [[]|e4]
       |destruct (Cli.end_ srv 0) as [[]|e3]]
      |destruct (Cli.end_ srv 0) as [[]|e3]];
      cbn [fst]; intros [=]; subst answer.
    right; left. split; [reflexivity|]. by exists rows.
  - cbn [fst snd Cli.actions]. intros [= <-]. right; right. auto.
Qed.

Lemma X23_testConnection_lists_the_databases_witness :
  let srv :=
    {| Cli.createConnection := Cli.Done tt;
       Cli.connect := Cli.Done tt;
       Cli.query := Cli.Done ["information_schema"; "shop"; "mysql"; "sys"; "blog"];
       Cli.end_ := fun _ => Cli.Done tt |} in
  let config :=
    {| Cli.host := "localhost"; Cli.port := "3306"; Cli.username := "root";
       Cli.password := "" |} in
  let s := {| Cli.connection := false; Cli.ends := 0; Cli.actions := [] |} in
  fst (Cli.testConnection keys (fun _ => []) srv "MySQL" config s)
  = Cli.Done (Some ["shop"; "blog"]).
Proof.
  cbv zeta.
  assert (fst (Cli.testConnection keys (fun _ => [])
                 {| Cli.createConnection := Cli.Done tt;
                    Cli.connect := Cli.Done tt;
                    Cli.query := Cli.Done ["information_schema"; "shop"; "mysql"; "sys";
                                           "blog"];
                    Cli.end_ := fun _ => Cli.Done tt |} "MySQL"
                 {| Cli.host := "localhost"; Cli.port := "3306"; Cli.username := "root";
                    Cli.password := "" |}
                 {| Cli.connection := false; Cli.ends := 0; Cli.actions := [] |})
          = Cli.Done (Some ["shop"; "blog"])) as Hrun by (vm_compute; reflexivity).
  destruct (X23_testConnection_lists_the_databases _ _ _ _ _ _ _ Hrun)
    as [(_ & databases & _ & _ & _)|[([=] & _)|(Hne & _)]].
  - exact Hrun.
  - by destruct Hne.
Defined.

(** X24: the errors of [testConnection].  A failure of [createConnection],
    of [connect], of the query or of the first [end] is thrown again as a
    new [Error] whose message is the translated prefix and the message of
    the cause; a failure of the [end] in the [finally] block is thrown as
    it is. *)
Theorem X24_testConnection_errors (i18n : I18n)
    (solutions : string -> list string) (srv : Cli.server) (type : string)
    (config : Cli.answers) (s : Cli.session) (error : Cli.Failure.t) :
  fst (Cli.testConnection i18n solutions srv type config s) = Cli.Failed error ->
  (exists cause,
     error = Cli.new_Error (t i18n "connection.failed" [] +:+ Cli.Failure.message cause)
     /\ (Cli.createConnection srv = Cli.Failed cause
         \/ Cli.connect srv = Cli.Failed cause
         \/ Cli.query srv = Cli.Failed cause
         \/ Cli.end_ srv 0 = Cli.Failed cause))
  \/ (exists n, n <= 1 /\ Cli.end_ srv n = Cli.Failed error).
Proof.
  rewrite CliFacts.testConnection_run. cbv zeta.
  assert (forall sql success keep start,
            fst (Cli.connected_run i18n solutions srv sql success keep start)
            = Cli.Failed error ->
            (exists cause,
               error = Cli.new_Error (t i18n "connection.failed" []
                                      +:+ Cli.Failure.message cause)
               /\ (Cli.connect srv = Cli.Failed cause
                   \/ Cli.query srv = Cli.Failed cause
                   \/ Cli.end_ srv 0 = Cli.Failed cause))
            \/ (exists n, n <= 1 /\ Cli.end_ srv n = Cli.Failed error)) as Hconnected.
  { intros sql success keep start. unfold Cli.connected_run, Cli.closing.
    destruct (Cli.connect srv) as [[]|e1] eqn:E1;
      [destruct (Cli.query srv) as [rows|e2] eqn:E2;
       [destruct (Cli.end_ srv 0) as [[]|e3] eqn:E3;
        destruct (Cli.end_ srv 1) as [[]|e4] eqn:E4
       |destruct (Cli.end_ srv 0) as [[]|e3] eqn:E3]
      |destruct (Cli.end_ srv 0) as [[]|e3] eqn:E3];
      cbn [fst]; intros [=]; subst error;
      first [ left; eexists; split; [reflexivity|]; by auto
            | right; exists 0; split; [lia|]; assumption
            | right; exists 1; split; [lia|]; assumption ]. }
  destruct (String.eqb type "MySQL"); [|destruct (String.eqb type "PostgreSQL")].
  - destruct (Cli.createConnection srv) as [[]|e0] eqn:E0.
    + intros [(cause & -> & H)|H]%Hconnected; [left|by right].
      exists cause. split; [reflexivity|]. tauto.
    + cbn [fst]. intros [= <-]. left. exists e0. split; [reflexivity|]. by left.
  - intros [(cause & -> & H)|H]%Hconnected; [left|by right].
    exists cause. split; [reflexivity|]. tauto.
  - discriminate.
Qed.

Lemma X24_testConnection_errors_witness :
  let refused :=
    {| Cli.Failure.code := Some "ECONNREFUSED";
       Cli.Failure.message := "connect ECONNREFUSED 127.0.0.1:3306" |} in
  let srv :=
    {| Cli.createConnection := Cli.Failed refused;
       Cli.connect := Cli.Done tt;
       Cli.query := Cli.Done [];
       Cli.end_ := fun _ => Cli.Done tt |} in
  let config :=
    {| Cli.host := "localhost"; Cli.port := "3306"; Cli.username := "root";
       Cli.password := "" |} in
  let s := {| Cli.connection := false; Cli.ends := 0; Cli.actions := [] |} in
  fst (Cli.testConnection keys (fun _ => []) srv "MySQL" config s)
  = Cli.Failed (Cli.new_Error "connection.failedconnect ECONNREFUSED 127.0.0.1:3306").
Proof.
  cbv zeta.
  set (refused := {| Cli.Failure.code := Some "ECONNREFUSED";
                     Cli.Failure.message := "connect ECONNREFUSED 127.0.0.1:3306" |}).
  set (srv := {| Cli.createConnection := Cli.Failed refused;
                 Cli.connect := Cli.Done tt;
                 Cli.query := Cli.Done [];
                 Cli.end_ := fun _ => Cli.Done tt |}).
  assert (fst (Cli.testConnection keys (fun _ => []) srv "MySQL"
                 {| Cli.host := "localhost"; Cli.port := "3306"; Cli.username := "root";
                    Cli.password := "" |}
                 {| Cli.connection := false; Cli.ends := 0; Cli.actions := [] |})
          = Cli.Failed (Cli.new_Error
                          "connection.failedconnect ECONNREFUSED 127.0.0.1:3306")) as Hrun
    by (vm_compute; reflexivity).
  destruct (X24_testConnection_errors _ _ _ _ _ _ _ Hrun) as [_|(n & _ & [=])].
  exact Hrun.
Defined.

(** X25: a test in which every call of the [try] block succeeded is still
    reported as failed when the second [end] fails: the spinner has
    announced the success, and the function throws the error of [end]
    instead of returning the list. *)
Theorem X25_second_end_can_fail_a_successful_test (i18n : I18n)
    (solutions : string -> list string) (srv : Cli.server) (type : string)
    (config : Cli.answers) (s : Cli.session) (rows : list string)
    (error : Cli.Failure.t) :
  type = "MySQL" \/ type = "PostgreSQL" ->
  Cli.createConnection srv = Cli.Done tt ->
  Cli.connect srv = Cli.Done tt ->
  Cli.query srv = Cli.Done rows ->
  Cli.end_ srv 0 = Cli.Done tt ->
  Cli.end_ srv 1 = Cli.Failed error ->
  fst (Cli.testConnection i18n solutions srv type config s) = Cli.Failed error
  /\ exists text,
       In (Cli.SpinnerSucceed text)
          (Cli.actions (snd (Cli.testConnection i18n solutions srv type config s)))
       /\ ~ exists text,
              In (Cli.SpinnerFail text)
                 (drop (length (Cli.actions s))
                    (Cli.actions (snd (Cli.testConnection i18n solutions srv type
                                         config s)))).
Proof.
  intros Htype Hcreate Hconnect Hquery Hend0 Hend1.
  rewrite CliFacts.testConnection_run. cbv zeta.
  unfold Cli.connected_run, Cli.closing.
  rewrite Hcreate, Hconnect, Hquery, Hend0, Hend1.
  destruct Htype as [-> | ->]; cbn [String.eqb Ascii.eqb Bool.eqb fst snd Cli.actions].
  - split; [reflexivity|]. eexists. split.
    + rewrite !in_app_iff. left. right. cbn. eauto 10.
    + rewrite <- !app_assoc, drop_app_length. cbn.
      intros (text & H). repeat destruct H as [H|H]; try discriminate; contradiction.
  - split; [reflexivity|]. eexists. split.
    + rewrite !in_app_iff. left. right. cbn. eauto 10.
    + rewrite <- !app_assoc, drop_app_length. cbn.
      intros (text & H). repeat destruct H as [H|H]; try discriminate; contradiction.
Qed.

Lemma X25_second_end_can_fail_a_successful_test_witness :
  let twice :=
    {| Cli.Failure.code := None;
       Cli.Failure.message := "Called end on pool more than once" |} in
  let srv :=
    {| Cli.createConnection := Cli.Done tt;
       Cli.connect := Cli.Done tt;
       Cli.query := Cli.Done ["shop"];
       Cli.end_ := fun n => if n =? 0 then Cli.Done tt else Cli.Failed twice |} in
  let config :=
    {| Cli.host := "db.example.org"; Cli.port := "5432"; Cli.username := "postgres";
       Cli.password := "" |} in
  let s := {| Cli.connection := false; Cli.ends := 0; Cli.actions := [] |} in
  fst (Cli.testConnection keys (fun _ => []) srv "PostgreSQL" config s) = Cli.Failed twice.
Proof.
  cbv zeta.
  apply (X25_second_end_can_fail_a_successful_test keys (fun _ => []) _ "PostgreSQL" _ _
           ["shop"]); (reflexivity || (right; reflexivity)).
Defined.

(** X26: the hints logged for a refused connection are the MySQL hints
    whatever the database type is: a PostgreSQL test whose [connect] is
    refused logs the failure, the title and every hint under
    [errors.connection.solutions.mysql], then ends the pool. *)
Theorem X26_refused_postgre_test_logs_mysql_hints (i18n : I18n)
    (solutions : string -> list string) (srv : Cli.server)
    (config : Cli.answers) (s : Cli.session) (error : Cli.Failure.t) :
  Cli.connect srv = Cli.Failed error ->
  Cli.Failure.code error = Some "ECONNREFUSED" ->
  exists closed,
    Cli.actions (snd (Cli.testConnection i18n solutions srv "PostgreSQL" config s))
    = Cli.actions s
      ++ [Cli.SpinnerStart (t i18n "connection.testing" []);
          Cli.Created "pg" (if String.eqb (Cli.host config) "localhost"
                            then "127.0.0.1" else Cli.host config);
          Cli.Connected false;
          Cli.SpinnerFail (t i18n "connection.failed" [] +:+ Cli.Failure.message error);
          Cli.LoggedError "Detailed error:" (Cli.Failure.message error);
          Cli.LoggedInfo (String "010"%char (t i18n "errors.connection.solutions.title" []))]
      ++ map Cli.LoggedInfo (solutions "errors.connection.solutions.mysql")
      ++ [Cli.Ended closed].
Proof.
  intros Hconnect Hcode.
  rewrite CliFacts.testConnection_run. cbv zeta.
  cbn [String.eqb Ascii.eqb Bool.eqb].
  unfold Cli.connected_run, Cli.closing, Cli.reported, Cli.hints, JS.is_literal.
  rewrite Hconnect, Hcode. cbn [JS.strict_eq String.eqb Ascii.eqb Bool.eqb].
  destruct (Cli.end_ srv 0) as [[]|e]; eexists; cbn [snd Cli.actions];
    rewrite <- !app_assoc; reflexivity.
Qed.

Lemma X26_refused_postgre_test_logs_mysql_hints_witness :
  let refused :=
    {| Cli.Failure.code := Some "ECONNREFUSED";
       Cli.Failure.message := "connect ECONNREFUSED 127.0.0.1:5432" |} in
  let srv :=
    {| Cli.createConnection := Cli.Done tt;
       Cli.connect := Cli.Failed refused;
       Cli.query := Cli.Done [];
       Cli.end_ := fun _ => Cli.Done tt |} in
  let config :=
    {| Cli.host := "localhost"; Cli.port := "5432"; Cli.username := "postgres";
       Cli.password := "" |} in
  let s := {| Cli.connection := false; Cli.ends := 0; Cli.actions := [] |} in
  exists closed,
    Cli.actions (snd (Cli.testConnection keys
                        (fun _ => ["1. Make sure MySQL server is running"])
                        srv "PostgreSQL" config s))
    = [Cli.SpinnerStart "connection.testing";
       Cli.Created "pg" "127.0.0.1";
       Cli.Connected false;
       Cli.SpinnerFail "connection.failedconnect ECONNREFUSED 127.0.0.1:5432";
       Cli.LoggedError "Detailed error:" "connect ECONNREFUSED 127.0.0.1:5432";
       Cli.LoggedInfo (String "010"%char "errors.connection.solutions.title");
       Cli.LoggedInfo "1. Make sure MySQL server is running";
       Cli.Ended closed].
Proof.
  cbv zeta.
  exact (X26_refused_postgre_test_logs_mysql_hints keys
           (fun _ => ["1. Make sure MySQL server is running"])
           {| Cli.createConnection := Cli.Done tt;
              Cli.connect :=
                Cli.Failed {| Cli.Failure.code := Some "ECONNREFUSED";
                              Cli.Failure.message := "connect ECONNREFUSED 127.0.0.1:5432" |};
              Cli.query := Cli.Done [];
              Cli.end_ := fun _ => Cli.Done tt |}
           {| Cli.host := "localhost"; Cli.port := "5432"; Cli.username := "postgres";
              Cli.password := "" |}
           {| Cli.connection := false; Cli.ends := 0; Cli.actions := [] |} _
           eq_refl eq_refl).
Defined.

(** ** The translations the analyzers get *)

Module TranslationFacts.

(** Replaces every recommendation built with the service of a language by
    the one built with [keys], when the two are the same. *)
Ltac untranslate :=
  repeat match goal with
         | |- context [recommend (Translations.service ?lang) ?ty ?sev ?name ?params ?steps] =>
             replace (recommend (Translations.service lang) ty sev name params steps)
               with (recommend keys ty sev name params steps)
               by (vm_compute; reflexivity)
         end.

Lemma postgre_findings_untranslated lang plan :
  lang = "en" \/ lang = "id" ->
  PostgreFindings.findings (Translations.service lang) plan
  = PostgreFindings.findings keys plan.
Proof.
  unfold PostgreFindings.findings, PostgreFindings.first_findings,
    PostgreFindings.middle_findings, PostgreFindings.last_findings.
  intros [-> | ->]; untranslate; reflexivity.
Qed.
End TranslationFacts.

(** X27: no text of a PostgreSQL recommendation is translated.  The table
    of translations has none of the keys the PostgreSQL rules ask for, in
    English or in Indonesian, and [t] answers a key it does not find with
    the key: the array returned is the one returned with a service that
    answers every key with the key itself. *)
Theorem X27_postgre_recommendations_show_their_keys (lang : string)
    (explainResult : option PostgreAnalyzer.ExplainResult)
    (tableStats : list PostgreAnalyzer.TableStat.t)
    (indexes : list PostgreAnalyzer.IndexInfo.t) (st : state) :
  lang = "en" \/ lang = "id" ->
  fst (PostgreAnalyzer.generateRecommendations (Translations.service lang)
         explainResult tableStats indexes st)
  = fst (PostgreAnalyzer.generateRecommendations keys explainResult tableStats indexes st)
  /\ arrays (snd (PostgreAnalyzer.generateRecommendations (Translations.service lang)
                    explainResult tableStats indexes st))
     = arrays (snd (PostgreAnalyzer.generateRecommendations keys
                      explainResult tableStats indexes st)).
Proof.
  intros Hlang. destruct explainResult as [[[plan|]]|].
  - rewrite !postgre_generate_findings. cbn [fst snd arrays].
    by rewrite (TranslationFacts.postgre_findings_untranslated lang plan Hlang).
  - rewrite !PostgreFacts.postgre_generate_shape, !generate_run. split; reflexivity.
  - rewrite !PostgreFacts.postgre_generate_shape, !generate_run. split; reflexivity.
Qed.

Lemma X27_postgre_recommendations_show_their_keys_witness :
  (message <$>
     default [] (arrays (snd (PostgreAnalyzer.generateRecommendations
                                (Translations.service "en")
                                (Some {| PostgreAnalyzer.Plan :=
                                           Some Samples.seq_scan_orders |})
                                [] [] initial)) !! 1%positive))
  = ["analyzer.recommendations.sequentialScan.message"].
Proof.
  rewrite (proj2 (X27_postgre_recommendations_show_their_keys "en"
                    (Some {| PostgreAnalyzer.Plan := Some Samples.seq_scan_orders |})
                    [] [] initial (or_introl eq_refl))).
  vm_compute. reflexivity.
Defined.

Module MySQLTranslationFacts.

(** Every finding of the MySQL rules is one of the nineteen
    recommendations; proves a property of all by computing it on each. *)
Ltac each_finding H ts :=
  unfold MySQLFindings.findings, MySQLFindings.statistics_findings in H;
  destruct (find _ ts);
  repeat (apply in_app_or in H; destruct H as [H|H]);
  try contradiction;
  apply in_pushed in H as [_ ->].

Lemma placeholders_shown lang e ts ix r :
  lang = "en" \/ lang = "id" ->
  In r (MySQLFindings.findings (Translations.service lang) e ts ix) ->
  In (type r) ["TABLE_SCAN"; "ACCESS_TYPE"; "LARGE_SORT"; "LARGE_TABLE_SCAN"] ->
  JS.includes (message r) "[object Object]" = true.
Proof.
  intros [-> | ->] H; each_finding H ts; vm_compute;
    intros Hty; try reflexivity;
    repeat destruct Hty as [Hty|Hty]; try discriminate; contradiction.
Qed.

Lemma english_messages e ts ix r :
  In r (MySQLFindings.findings (Translations.service "en") e ts ix) ->
  (type r = "TABLE_SCAN" ->
   message r = "Full table scan detected on table [object Object]")
  /\ (type r = "ACCESS_TYPE" ->
      message r = "Suboptimal access type '[object Object]' detected")
  /\ (type r = "LARGE_SORT" ->
      message r = "Large sort operation detected ([object Object] rows)")
  /\ (type r = "LARGE_TABLE_SCAN" ->
      message r = "Large table scan detected ([object Object] rows)").
Proof.
  intros H; each_finding H ts; vm_compute;
    repeat split; intros Hty; try reflexivity; discriminate.
Qed.
End MySQLTranslationFacts.

(** X28: the four messages of the MySQL analyzer that are meant to name a
    table, an access type or a row count never do.  Their translations
    are arrow functions of one parameter, and [t] calls them with the
    whole parameter object: the text shows [[object Object]] where the
    value should be, in both languages and whatever the row holds. *)
Theorem X28_mysql_messages_show_no_value (lang : string)
    (explainResult : MySQLAnalyzer.ExplainRow.t) (tableStats : list MySQLAnalyzer.TableStat.t)
    (indexes : list MySQLAnalyzer.IndexInfo.t) (st : state) :
  lang = "en" \/ lang = "id" ->
  exists a st' out,
    MySQLAnalyzer.generateRecommendations (Translations.service lang)
      (Some explainResult) tableStats indexes st = (Ok a, st')
    /\ arrays st' !! a = Some out
    /\ Forall (fun r =>
                 In (type r) ["TABLE_SCAN"; "ACCESS_TYPE"; "LARGE_SORT"; "LARGE_TABLE_SCAN"] ->
                 JS.includes (message r) "[object Object]" = true
                 /\ (lang = "en" -> type r = "TABLE_SCAN" ->
                     message r = "Full table scan detected on table [object Object]")
                 /\ (lang = "en" -> type r = "LARGE_TABLE_SCAN" ->
                     message r = "Large table scan detected ([object Object] rows)"))
              out.
Proof.
  intros Hlang. rewrite mysql_generate_findings. eexists _, _, _.
  split; [reflexivity|]. split; [apply lookup_insert_eq|].
  apply List.Forall_forall. intros r Hr Hty.
  apply (Permutation_in _ (Permutation_sym (array_sort_perm _ _))) in Hr.
  split; [by apply (MySQLTranslationFacts.placeholders_shown lang explainResult
                      tableStats indexes)|].
  split; intros -> Htype;
    by apply (MySQLTranslationFacts.english_messages explainResult tableStats indexes r Hr).
Qed.

Lemma X28_mysql_messages_show_no_value_witness :
  exists a st' out,
    MySQLAnalyzer.generateRecommendations (Translations.service "id")
      (Some Samples.scan_orders) [Samples.orders_stat] [] initial = (Ok a, st')
    /\ arrays st' !! a = Some out
    /\ Forall (fun r =>
                 In (type r) ["TABLE_SCAN"; "ACCESS_TYPE"; "LARGE_SORT"; "LARGE_TABLE_SCAN"] ->
                 JS.includes (message r) "[object Object]" = true)
              out.
Proof.
  destruct (X28_mysql_messages_show_no_value "id" Samples.scan_orders
              [Samples.orders_stat] [] initial (or_intror eq_refl))
    as (a & st' & out & Hrun & Hout & Hall).
  exists a, st', out. split; [exact Hrun|]. split; [exact Hout|].
  eapply Forall_impl; [exact Hall|]. intros r H Hty. by apply H.
Defined.

Module MySQLKeysFacts.

Lemma keys_translated lang e ts ix r :
  lang = "en" \/ lang = "id" ->
  In r (MySQLFindings.findings keys e ts ix) ->
  if String.eqb (type r) "MULTI_COLUMN_SORT"
  then existsb (Translations.translated lang) (Translations.asked r) = false
  else forallb (Translations.translated lang) (Translations.asked r) = true.
Proof.
  intros [-> | ->] H; MySQLTranslationFacts.each_finding H ts; vm_compute; reflexivity.
Qed.
End MySQLKeysFacts.

(** X29: the table of translations covers the MySQL analyzer but for one
    recommendation.  Of the keys the MySQL rules ask for (the texts of the
    array returned with a service that answers with the key), those of
    MULTI_COLUMN_SORT have no translation in either language, so that its
    message, suggestion, impact and steps are shown as keys; the keys of
    every other recommendation have one. *)
Theorem X29_mysql_keys_missing_from_the_table (lang : string)
    (explainResult : MySQLAnalyzer.ExplainRow.t) (tableStats : list MySQLAnalyzer.TableStat.t)
    (indexes : list MySQLAnalyzer.IndexInfo.t) (st : state) :
  lang = "en" \/ lang = "id" ->
  exists a st' out,
    MySQLAnalyzer.generateRecommendations keys (Some explainResult) tableStats indexes st
    = (Ok a, st')
    /\ arrays st' !! a = Some out
    /\ Forall (fun r =>
                 if String.eqb (type r) "MULTI_COLUMN_SORT"
                 then existsb (Translations.translated lang) (Translations.asked r) = false
                 else forallb (Translations.translated lang) (Translations.asked r) = true)
              out.
Proof.
  intros Hlang. rewrite mysql_generate_findings. eexists _, _, _.
  split; [reflexivity|]. split; [apply lookup_insert_eq|].
  apply List.Forall_forall. intros r Hr.
  apply (Permutation_in _ (Permutation_sym (array_sort_perm _ _))) in Hr.
  by apply (MySQLKeysFacts.keys_translated lang explainResult tableStats indexes).
Qed.

Lemma X29_mysql_keys_missing_from_the_table_witness :
  exists a st' out,
    MySQLAnalyzer.generateRecommendations keys (Some Samples.scan_orders)
      [Samples.orders_stat] [] initial = (Ok a, st')
    /\ arrays st' !! a = Some out
    /\ Forall (fun r =>
                 forallb (Translations.translated "en") (Translations.asked r) = true) out.
Proof.
  destruct (X29_mysql_keys_missing_from_the_table "en" Samples.scan_orders
              [Samples.orders_stat] [] initial (or_introl eq_refl))
    as (a & st' & out & Hrun & Hout & Hall).
  exists a, st', out. split; [exact Hrun|]. split; [exact Hout|].
  assert (out = array_sort (compareRecommendations MySQLAnalyzer.priorityTypes)
                  (MySQLFindings.findings keys Samples.scan_orders
                     [Samples.orders_stat] [])) as ->.
  { rewrite mysql_generate_findings in Hrun. injection Hrun as <- <-.
    cbn [arrays] in Hout. rewrite lookup_insert_eq in Hout. by injection Hout. }
  vm_compute. repeat constructor.
Defined.

Module LanguageFacts.
Import Translations.

Lemma falsy_stays (path : list string) :
  fold_left (fun p c =>
               match p with
               | Value e => property e c
               | Falsy => Falsy
               | Beyond => Beyond
               end) path Falsy = Falsy.
Proof. by induction path. Qed.

Lemma unknown_language lang :
  ~ In lang ["en"; "id"] -> ~ In lang inherited -> property translations lang = Falsy.
Proof.
  intros Hlang Hinherited. unfold property, translations. cbn [own].
  destruct (String.eqb_spec "en" lang) as [<-|_]; [exfalso; apply Hlang; by left|].
  destruct (String.eqb_spec "id" lang) as [<-|_]; [exfalso; apply Hlang; right; by left|].
  destruct (existsb (String.eqb lang) inherited) eqn:E; [|reflexivity].
  apply existsb_exists in E as (name & Hin & ->%String.eqb_eq). contradiction.
Qed.
End LanguageFacts.

(** X30: the two languages of the table have the same keys, each with
    the same kind of entry (a text, an arrow function, an array, an
    object with the same keys in turn); [setLanguage] accepts them and throws
    "Language '...' not supported" for any other name that is not an
    inherited property; and a service whose language has no table (the
    constructor does not check it) answers every key with the key. *)
Theorem X30_languages_of_the_table (lang : string) :
  ~ In lang ["en"; "id"] ->
  ~ In lang Translations.inherited ->
  Translations.covers Translations.english Translations.indonesian = true
  /\ Translations.covers Translations.indonesian Translations.english = true
  /\ Translations.setLanguage "en" = Some (inl "en")
  /\ Translations.setLanguage "id" = Some (inl "id")
  /\ Translations.setLanguage lang
     = Some (inr (JS.Error ("Language '" +:+ lang +:+ "' not supported")))
  /\ forall key params, Translations.t lang key params = Some (Translations.Said key).
Proof.
  intros Hlang Hinherited.
  split; [vm_compute; reflexivity|]. split; [vm_compute; reflexivity|].
  split; [reflexivity|]. split; [reflexivity|].
  pose proof (LanguageFacts.unknown_language lang Hlang Hinherited) as Hnone.
  split.
  - unfold Translations.setLanguage. by rewrite Hnone.
  - intros key params. unfold Translations.t, Translations.getNestedValue.
    by rewrite Hnone, LanguageFacts.falsy_stays.
Qed.

Lemma X30_languages_of_the_table_witness :
  Translations.setLanguage "fr" = Some (inr (JS.Error "Language 'fr' not supported"))
  /\ Translations.t "fr" "connection.testing" [] = Some (Translations.Said "connection.testing").
Proof.
  assert (~ In "fr" ["en"; "id"]) as Hlang
    by (intros H; repeat destruct H as [H|H]; try discriminate; contradiction).
  assert (~ In "fr" Translations.inherited) as Hinherited
    by (intros H; repeat destruct H as [H|H]; try discriminate; contradiction).
  destruct (X30_languages_of_the_table "fr" Hlang Hinherited) as (_ & _ & _ & _ & Hset & Ht).
  split; [exact Hset|apply Ht].
Defined.
